(** * Smart Recipe Generator: the recommendation engines

    A shallow embedding of the two engines of the repository,
    [SimpleRecipeRecommender] (src/app_working.py) and
    [RecipeRecommendationEngine] (src/app.py), and the properties of their
    ranking, filtering and substitution code.

    Conventions of the embedding.
    - Recipes are the values [json.load] produces: [value] below.  JSON
      numbers are integers here (no floats in a recipe record); the rating
      of a request may be a float.
    - Python [str] is [string]; [lower] and [strip] act on the ASCII range.
    - Python [set] of strings is [gset string]; [list(s)] is [elements s]
      (Python leaves the order of a set unspecified).
    - A Python float is the rational it stands for ([Q]), and every
      operation on floats rounds to the nearest binary64 ([Float]).  A
      score rounded to one decimal is written as that decimal.
    - A Python exception is the [Raise] branch of [result]. *)

From Stdlib Require Import Ascii String QArith Qround Qabs Lqa.
From stdpp Require Import gmap strings list sorting pretty.

Set Warnings "-register-all".
Local Open Scope string_scope.
Local Open Scope Z_scope.

(** ** Python values and exceptions *)

Inductive value : Type :=
| VNone
| VBool (b : bool)
| VInt (n : Z)
| VStr (s : string)
| VList (l : list value)
| VDict (d : list (string * value)).

Inductive exn : Type :=
| AttributeError | TypeError | KeyError | ValueError | IndexError
| ZeroDivisionError.

Inductive result (A : Type) : Type :=
| Ok (a : A)
| Raise (e : exn).
Arguments Ok {A} a.
Arguments Raise {A} e.

#[global] Instance result_ret : MRet result := fun A a => Ok a.
#[global] Instance result_bind : MBind result := fun A B k m =>
  match m with
  | Ok a => k a
  | Raise e => Raise e
  end.

(** [a and b], where [b] is evaluated only when [a] is true *)
Definition and_then (a : bool) (b : result bool) : result bool :=
  if a then b else Ok false.

(** ** Strings *)

Module Str.

Definition lower_ascii (c : ascii) : ascii :=
  let n := nat_of_ascii c in
  if (Nat.leb 65 n && Nat.leb n 90)%bool then ascii_of_nat (n + 32) else c.

(** [s.lower()] *)
Fixpoint lower (s : string) : string :=
  match s with
  | EmptyString => EmptyString
  | String c s' => String (lower_ascii c) (lower s')
  end.

(** The characters [str.strip()] removes: 9-13, 28-31 and the space. *)
Definition is_space (c : ascii) : bool :=
  let n := nat_of_ascii c in
  ((Nat.leb 9 n && Nat.leb n 13) || (Nat.leb 28 n && Nat.leb n 32))%bool.

Fixpoint lstrip (s : string) : string :=
  match s with
  | EmptyString => EmptyString
  | String c s' => if is_space c then lstrip s' else s
  end.

Fixpoint rstrip (s : string) : string :=
  match s with
  | EmptyString => EmptyString
  | String c s' =>
      match rstrip s' with
      | EmptyString => if is_space c then EmptyString else String c EmptyString
      | r => String c r
      end
  end.

(** [s.strip()] *)
Definition strip (s : string) : string := rstrip (lstrip s).

(** [sub in s] on strings *)
Fixpoint contains (sub s : string) : bool :=
  if String.prefix sub s then true
  else match s with
       | EmptyString => false
       | String _ s' => contains sub s'
       end.

(** [sep.join(l)] on a list of strings *)
Fixpoint join (sep : string) (l : list string) : string :=
  match l with
  | [] => ""
  | [x] => x
  | x :: l' => String.append x (String.append sep (join sep l'))
  end.

(** the characters of a string, as Python iterates them *)
Fixpoint chars (s : string) : list string :=
  match s with
  | EmptyString => []
  | String c s' => String c EmptyString :: chars s'
  end.

End Str.

(** ** Python operations on values *)

Module Py.

Fixpoint assoc (k : string) (d : list (string * value)) : option value :=
  match d with
  | [] => None
  | (k', v) :: d' => if String.eqb k k' then Some v else assoc k d'
  end.

(** the keys of a dict, each once, in insertion order *)
Fixpoint keys_from (seen : list string) (d : list (string * value))
    : list string :=
  match d with
  | [] => []
  | (k, _) :: d' =>
      if existsb (String.eqb k) seen then keys_from seen d'
      else k :: keys_from (k :: seen) d'
  end.

Definition keys (d : list (string * value)) : list string := keys_from [] d.

(** [bool(v)] *)
Definition truthy (v : value) : bool :=
  match v with
  | VNone => false
  | VBool b => b
  | VInt n => negb (n =? 0)
  | VStr s => negb (String.eqb s "")
  | VList l => match l with [] => false | _ => true end
  | VDict d => match d with [] => false | _ => true end
  end.

(** [o.get(k, default)]: only a dict has the method *)
Definition get (o : value) (k : string) (default : value) : result value :=
  match o with
  | VDict d => Ok (match assoc k d with Some v => v | None => default end)
  | _ => Raise AttributeError
  end.

(** [o[k]] for a string key *)
Definition getitem (o : value) (k : string) : result value :=
  match o with
  | VDict d => match assoc k d with Some v => Ok v | None => Raise KeyError end
  | _ => Raise TypeError
  end.

(** [a == b] *)
Fixpoint eq (a b : value) {struct a} : bool :=
  match a, b with
  | VNone, VNone => true
  | VBool x, VBool y => Bool.eqb x y
  | VBool x, VInt y => Z.b2z x =? y
  | VInt x, VBool y => x =? Z.b2z y
  | VInt x, VInt y => x =? y
  | VStr x, VStr y => String.eqb x y
  | VList xs, VList ys =>
      (fix all2 (xs ys : list value) : bool :=
         match xs, ys with
         | [], [] => true
         | x :: xs', y :: ys' => eq x y && all2 xs' ys'
         | _, _ => false
         end) xs ys
  | VDict d1, VDict d2 =>
      Nat.eqb (length (keys d1)) (length (keys d2)) &&
      (fix covered (seen : list string) (d : list (string * value)) : bool :=
         match d with
         | [] => true
         | (k, v) :: d' =>
             (if existsb (String.eqb k) seen then true
              else match assoc k d2 with
                   | Some w => eq v w
                   | None => false
                   end)
             && covered (k :: seen) d'
         end) [] d1
  | _, _ => false
  end.

(** [iter(v)]: the elements of a list, the characters of a string, the
    keys of a dict *)
Definition iter (v : value) : result (list value) :=
  match v with
  | VList l => Ok l
  | VStr s => Ok (VStr <$> Str.chars s)
  | VDict d => Ok (VStr <$> keys d)
  | _ => Raise TypeError
  end.

(** [v.lower()] *)
Definition lower (v : value) : result string :=
  match v with
  | VStr s => Ok (Str.lower s)
  | _ => Raise AttributeError
  end.

(** [v.lower().strip()] *)
Definition lower_strip (v : value) : result string :=
  s ← lower v; mret (Str.strip s).

(** [v > n] for an integer [n]; [bool] is a subtype of [int] *)
Definition gt (v : value) (n : Z) : result bool :=
  match v with
  | VInt a => Ok (n <? a)
  | VBool b => Ok (n <? Z.b2z b)
  | _ => Raise TypeError
  end.

(** [l[:n]] *)
Definition slice_to {A} (n : Z) (l : list A) : list A :=
  if 0 <=? n then take (Z.to_nat n) l
  else take (length l - Z.to_nat (- n)) l.

(** the integer nearest to [x], ties to even *)
Definition round_half_even (x : Q) : Z :=
  let f := Qfloor x in
  match Qcompare (x - inject_Z f) (1 # 2) with
  | Lt => f
  | Gt => f + 1
  | Eq => if Z.even f then f else f + 1
  end.

(** [round(x, 1)] for a float whose value is [x]: Python rounds the value
    of the float itself to the nearest tenth, ties to even, and returns the
    float nearest to that tenth, which is written here as the tenth. *)
Definition round1 (x : Q) : Q := Qmake (round_half_even (x * 10)) 10.

End Py.

(** ** Binary64 arithmetic

    A Python float is kept as the rational it stands for.  Every operation
    gives the float nearest to the exact result, ties to the even
    significand, as IEEE 754 has it. *)

Module Float.

(** [2 ^ e] *)
Definition two (e : Z) : Q :=
  if 0 <=? e then inject_Z (2 ^ e) else / inject_Z (2 ^ (- e)).

(** the integer part of the binary logarithm of a positive [x] *)
Definition exponent (x : Q) : Z :=
  let l := Z.log2 (Qnum x) - Z.log2 (Zpos (Qden x)) in
  if Qle_bool (two l) x then l else l - 1.

(** The float nearest to [x]: a significand of 53 bits, exponents down to
    the subnormal ones.  There is no overflow to model: the numbers of this
    program stay below 1001. *)
Definition round (x : Q) : Q :=
  let x := Qred x in
  match Qnum x with
  | 0 => 0%Q
  | _ =>
      let e := Z.max (exponent (Qabs x) - 52) (-1074) in
      Qred (inject_Z (Py.round_half_even (x / two e)) * two e)
  end.

(** [a * b] and [a + b] on floats *)
Definition mul (a b : Q) : Q := round (a * b).
Definition add (a b : Q) : Q := round (a + b).

(** [n / d] on two integers: the float nearest to the quotient *)
Definition quot (n d : nat) : Q :=
  round (inject_Z (Z.of_nat n) / inject_Z (Z.of_nat d)).

(** the literals [0.6], [0.4] and [0.2] *)
Definition c06 : Q := round (6 # 10).
Definition c04 : Q := round (4 # 10).
Definition c02 : Q := round (2 # 10).

End Float.

(** [round(x, 1)] for a NumPy float64 scalar [x]: NumPy scales by ten,
    rounds to the nearest integer, ties to even, and divides by ten. *)
Module Np.

Definition round1 (x : Q) : Q :=
  Qmake (Py.round_half_even (Float.mul x 10)) 10.

End Np.

(** ** Scored results and ranking, common to both engines *)

(** [recipe.copy()] with the four derived keys set.  [recipe] is the record
    that was copied; the derived keys are the other four fields. *)
Record scored : Type := Scored {
  recipe : value;
  match_score : Q;
  ingredient_match_percentage : Q;
  missing_ingredients : list string;
  substitution_suggestions : list (string * list string)
}.

(** [suggestions[k] = v] on a dict kept in insertion order *)
Fixpoint dict_set (k : string) (v : list string)
    (d : list (string * list string)) : list (string * list string) :=
  match d with
  | [] => [(k, v)]
  | (k', v') :: d' =>
      if String.eqb k k' then (k, v) :: d' else (k', v') :: dict_set k v d'
  end.

(** [n / d] on the sizes of two sets *)
Definition ratio (n d : nat) : result Q :=
  if Nat.eqb d 0 then Raise ZeroDivisionError
  else Ok (Float.quot n d).

(** [recommendations.sort(key=lambda x: x['match_score'], reverse=True)]:
    Python's sort is stable, also under [reverse=True]; a stable sort has
    one possible output, computed here by insertion. *)
Fixpoint insert_desc (x : scored) (l : list scored) : list scored :=
  match l with
  | [] => [x]
  | y :: l' =>
      if Qle_bool (match_score y) (match_score x) then x :: y :: l'
      else y :: insert_desc x l'
  end.

Fixpoint sort_desc (l : list scored) : list scored :=
  match l with
  | [] => []
  | x :: l' => insert_desc x (sort_desc l')
  end.

(** the last two lines of both [get_recommendations] *)
Definition rank (limit : Z) (recommendations : list scored) : list scored :=
  Py.slice_to limit (sort_desc recommendations).

(** the entries of one score *)
Definition tied (v : Q) (s : scored) : Prop := (match_score s == v)%Q.

#[global] Instance tied_dec v s : Decision (tied v s) := Qeq_dec _ _.

(** [a] may stand before [b] in a ranking *)
Definition outranks (a b : scored) : Prop := (match_score b <= match_score a)%Q.

(** * src/app_working.py: [SimpleRecipeRecommender] *)

Module Working.

(** [_matches_dietary_restrictions]: a flag that is absent or falsy fails
    the restriction. *)
Definition flag_unset (recipe_dietary : value) (flag : string) : result bool :=
  v ← Py.get recipe_dietary flag (VBool false); mret (negb (Py.truthy v)).

Fixpoint _matches_dietary_restrictions (recipe_dietary : value)
    (restrictions : list string) : result bool :=
  match restrictions with
  | [] => Ok true
  | restriction :: rest =>
      let restriction := Str.lower restriction in
      c1 ← and_then (String.eqb restriction "vegetarian")
                    (flag_unset recipe_dietary "vegetarian");
      if c1 : bool then Ok false else
      c2 ← and_then (String.eqb restriction "vegan")
                    (flag_unset recipe_dietary "vegan");
      if c2 : bool then Ok false else
      c3 ← and_then (String.eqb restriction "gluten-free")
                    (flag_unset recipe_dietary "gluten_free");
      if c3 : bool then Ok false else
      c4 ← and_then (String.eqb restriction "dairy-free")
                    (flag_unset recipe_dietary "dairy_free");
      if c4 : bool then Ok false else
      _matches_dietary_restrictions recipe_dietary rest
  end.

(** The substitution table of [_get_substitutions], in source order. *)
Definition substitutions : list (string * list string) :=
  [ ("butter", ["olive oil"; "coconut oil"]);
    ("milk", ["almond milk"; "soy milk"]);
    ("eggs", ["flax eggs"; "applesauce"]);
    ("flour", ["almond flour"; "coconut flour"]);
    ("sugar", ["honey"; "maple syrup"]);
    ("cream", ["coconut cream"; "cashew cream"]);
    ("cheese", ["nutritional yeast"; "cashew cheese"]);
    ("chicken", ["tofu"; "tempeh"]);
    ("beef", ["mushrooms"; "lentils"]);
    ("oil", ["butter"; "ghee"]);
    ("onion", ["shallots"; "garlic"]);
    ("garlic", ["garlic powder"; "onion powder"]) ].

(** the inner loop of [_get_substitutions]: the first key contained in
    the lower-cased ingredient *)
Fixpoint first_key_in (ingredient_lower : string)
    (table : list (string * list string)) : option (list string) :=
  match table with
  | [] => None
  | (key, subs) :: table' =>
      if Str.contains key ingredient_lower then Some (take 2 subs)
      else first_key_in ingredient_lower table'
  end.

Definition _get_substitutions (missing_ingredients : list string)
    : list (string * list string) :=
  foldl (fun suggestions ingredient =>
           match first_key_in (Str.lower ingredient) substitutions with
           | Some subs => dict_set ingredient subs suggestions
           | None => suggestions
           end)
        [] (take 3 missing_ingredients).

(** The four filters at the head of the loop body; [true] is [continue]. *)
Definition dietary_excluded (dietary_restrictions : option (list string))
    (recipe : value) : result bool :=
  match dietary_restrictions with
  | Some (r :: rs) =>
      recipe_dietary ← Py.get recipe "dietary_info" (VDict []);
      ok ← _matches_dietary_restrictions recipe_dietary (r :: rs);
      mret (negb ok)
  | _ => Ok false
  end.

Definition too_long (max_cooking_time : option Z) (recipe : value)
    : result bool :=
  match max_cooking_time with
  | Some m =>
      if m =? 0 then Ok false
      else t ← Py.get recipe "cooking_time" (VInt 0); Py.gt t m
  | None => Ok false
  end.

(** [f and recipe.get(field, '').lower() != f.lower()] *)
Definition differs (field : string) (f : option string) (recipe : value)
    : result bool :=
  match f with
  | Some f =>
      if String.eqb f "" then Ok false
      else v ← Py.get recipe field (VStr "");
           s ← Py.lower v;
           mret (negb (String.eqb s (Str.lower f)))
  | None => Ok false
  end.

(** [set(ing.lower().strip() for ing in recipe.get('ingredients', []))] *)
Definition recipe_ingredient_set (recipe : value) : result (gset string) :=
  v ← Py.get recipe "ingredients" (VList []);
  items ← Py.iter v;
  names ← mapM Py.lower_strip items;
  mret (list_to_set names).

Definition final_score (ingredient_match_score coverage_score : Q) : Q :=
  Float.add (Float.mul ingredient_match_score Float.c06)
            (Float.mul coverage_score Float.c04).

(** The body of the inner [try]: [Ok None] is a recipe passed over
    ([continue], or no direct match), [Ok (Some _)] an appended result. *)
Definition process_recipe (query_ingredients : gset string)
    (dietary_restrictions : option (list string))
    (max_cooking_time : option Z)
    (difficulty cuisine_preference : option string)
    (recipe : value) : result (option scored) :=
  b1 ← dietary_excluded dietary_restrictions recipe;
  if b1 : bool then Ok None else
  b2 ← too_long max_cooking_time recipe;
  if b2 : bool then Ok None else
  b3 ← differs "difficulty" difficulty recipe;
  if b3 : bool then Ok None else
  b4 ← differs "cuisine" cuisine_preference recipe;
  if b4 : bool then Ok None else
  recipe_ingredients ← recipe_ingredient_set recipe;
  let direct_matches := size (recipe_ingredients ∩ query_ingredients) in
  let total_recipe_ingredients := size recipe_ingredients in
  if Nat.eqb total_recipe_ingredients 0 then Ok None else
  ingredient_match_score ← ratio direct_matches total_recipe_ingredients;
  coverage_score ← ratio (size (query_ingredients ∩ recipe_ingredients))
                         (size query_ingredients);
  let final := final_score ingredient_match_score coverage_score in
  if Nat.ltb 0 direct_matches then
    let missing := elements (recipe_ingredients ∖ query_ingredients) in
    Ok (Some {| recipe := recipe;
                match_score := Py.round1 (Float.mul final 100);
                ingredient_match_percentage :=
                  Py.round1 (Float.mul ingredient_match_score 100);
                missing_ingredients := missing;
                substitution_suggestions :=
                  _get_substitutions (take 3 missing) |})
  else Ok None.

(** The [for] loop.  A recipe whose processing raises is logged and passed
    over; the log line reads [recipe.get('name', 'Unknown')], which
    raises in turn when the record is not a dict, and then leaves the
    loop. *)
Fixpoint score_all (query_ingredients : gset string)
    (dietary_restrictions : option (list string))
    (max_cooking_time : option Z)
    (difficulty cuisine_preference : option string)
    (recipes : list value) : result (list scored) :=
  match recipes with
  | [] => Ok []
  | recipe :: rest =>
      let continue := score_all query_ingredients dietary_restrictions
                        max_cooking_time difficulty cuisine_preference rest in
      match process_recipe query_ingredients dietary_restrictions
              max_cooking_time difficulty cuisine_preference recipe with
      | Ok (Some s) => recommendations ← continue; mret (s :: recommendations)
      | Ok None => continue
      | Raise _ => _ ← Py.get recipe "name" (VStr "Unknown"); continue
      end
  end.

Definition query_set (ingredients : list string) : gset string :=
  list_to_set ((fun ing => Str.strip (Str.lower ing)) <$> ingredients).

(** [get_recommendations]: the outer [except] turns any exception into
    the empty list. *)
Definition get_recommendations (recipes : list value)
    (ingredients : list string)
    (dietary_restrictions : option (list string))
    (max_cooking_time : option Z)
    (difficulty cuisine_preference : option string)
    (limit : Z) : list scored :=
  match ingredients with
  | [] => []
  | _ =>
      match score_all (query_set ingredients) dietary_restrictions
              max_cooking_time difficulty cuisine_preference recipes with
      | Ok recommendations => rank limit recommendations
      | Raise _ => []
      end
  end.

End Working.

(** * src/app.py: [RecipeRecommendationEngine] *)

(** What the engine uses of scikit-learn, which is not part of the
    repository: [fit_transform] gives the document-term matrix of the
    recipe texts, [matrix_bool] the truth value Python gives that matrix in
    [not self.recipe_vectors] (or the exception it raises instead), and
    [similarities] the cosine similarities of a query text against every
    row, [cosine_similarity(transform([q]), m).flatten()]. *)
Class Vectorizer : Type := {
  matrix : Type;
  fit_transform : list string -> result matrix;
  matrix_bool : matrix -> result bool;
  similarities : matrix -> string -> result (list Q)
}.

(** What scipy says of that matrix: it has one row for each text it was
    fitted on, and only a matrix of one row and one column has a truth
    value; asking any other for it raises [ValueError]. *)
Class SparseMatrix (V : Vectorizer) : Type := {
  shape : matrix -> nat * nat;
  fit_transform_rows :
    ∀ texts m, fit_transform texts = Ok m -> (shape m).1 = length texts;
  matrix_bool_ambiguous :
    ∀ m, shape m ≠ (1, 1)%nat -> matrix_bool m = Raise ValueError
}.

Module Engine.

(** [_load_substitutions], in source order *)
Definition ingredient_substitutions : list (string * list string) :=
  [ ("butter", ["olive oil"; "coconut oil"; "margarine"]);
    ("milk", ["almond milk"; "soy milk"; "coconut milk"]);
    ("eggs", ["flax eggs"; "chia eggs"; "applesauce"]);
    ("flour", ["almond flour"; "coconut flour"; "oat flour"]);
    ("sugar", ["honey"; "maple syrup"; "stevia"]);
    ("chicken", ["tofu"; "tempeh"; "mushrooms"]);
    ("beef", ["lentils"; "black beans"; "portobello mushrooms"]);
    ("cheese", ["nutritional yeast"; "cashew cheese"; "vegan cheese"]);
    ("cream", ["coconut cream"; "cashew cream"; "silken tofu"]);
    ("bacon", ["tempeh bacon"; "coconut bacon"; "mushroom bacon"]) ].

(** [key in ingredient_lower or ingredient_lower in key] *)
Definition key_matches (key ingredient_lower : string) : bool :=
  Str.contains key ingredient_lower || Str.contains ingredient_lower key.

Fixpoint lookup_substitutes (ingredient_lower : string)
    (table : list (string * list string)) : list string :=
  match table with
  | [] => []
  | (key, substitutes) :: table' =>
      if key_matches key ingredient_lower then substitutes
      else lookup_substitutes ingredient_lower table'
  end.

Definition get_ingredient_substitutions (ingredient : string) : list string :=
  lookup_substitutes (Str.lower ingredient) ingredient_substitutions.

(** [' '.join(v)]: every element has to be a string *)
Definition as_str (v : value) : result string :=
  match v with
  | VStr s => Ok s
  | _ => Raise TypeError
  end.

Definition join_value (v : value) : result string :=
  items ← Py.iter v; strs ← mapM as_str items; mret (Str.join " " strs).

(** [' '.join(recipe.get('ingredients', [])).lower()] *)
Definition ingredients_text (recipe : value) : result string :=
  v ← Py.get recipe "ingredients" (VList []);
  s ← join_value v;
  mret (Str.lower s).

(** [item in container] for a string [item] *)
Definition str_in (item : string) (container : value) : result bool :=
  match container with
  | VList l =>
      Ok (existsb (fun v => match v with
                            | VStr s => String.eqb item s
                            | _ => false
                            end) l)
  | VStr s => Ok (Str.contains item s)
  | VDict d => Ok (existsb (String.eqb item) (Py.keys d))
  | _ => Raise TypeError
  end.

(** [any(f(x) for x in l)], stopping at the first true element *)
Fixpoint any {A} (f : A -> result bool) (l : list A) : result bool :=
  match l with
  | [] => Ok false
  | x :: l' => b ← f x; if b : bool then Ok true else any f l'
  end.

Definition meat_ingredients : list string :=
  ["chicken"; "beef"; "pork"; "lamb"; "fish"; "shrimp"; "bacon"].

Definition animal_ingredients : list string :=
  ["chicken"; "beef"; "pork"; "lamb"; "fish"; "shrimp"; "bacon";
   "cheese"; "milk"; "butter"; "eggs"].

Definition mentions (words : list string) (recipe : value) : result bool :=
  any (fun w => text ← ingredients_text recipe; mret (Str.contains w text))
      words.

(** one pass of the inner loop of [filter_by_dietary_restrictions]:
    does this restriction set [violates_restriction]? *)
Definition violates (recipe dietary_info : value) (restriction : string)
    : result bool :=
  if String.eqb restriction "vegetarian" then
    mentions meat_ingredients recipe
  else if String.eqb restriction "vegan" then
    tagged ← any (fun item => str_in item dietary_info)
                 ["contains_dairy"; "contains_eggs"];
    if tagged : bool then Ok true
    else mentions animal_ingredients recipe
  else
    c3 ← and_then (String.eqb restriction "gluten_free")
                  (str_in "contains_gluten" dietary_info);
    if c3 : bool then Ok true else
    and_then (String.eqb restriction "dairy_free")
             (str_in "contains_dairy" dietary_info).

Definition violates_any (recipe : value) (restrictions : list string)
    : result bool :=
  dietary_info ← Py.get recipe "dietary_info" (VList []);
  any (violates recipe dietary_info) restrictions.

Fixpoint filter_loop (recipes : list value) (restrictions : list string)
    : result (list value) :=
  match recipes with
  | [] => Ok []
  | recipe :: rest =>
      violates_restriction ← violates_any recipe restrictions;
      filtered ← filter_loop rest restrictions;
      mret (if violates_restriction : bool then filtered
            else recipe :: filtered)
  end.

Definition filter_by_dietary_restrictions (recipes : list value)
    (restrictions : list string) : result (list value) :=
  match restrictions with
  | [] => Ok recipes
  | _ => filter_loop recipes restrictions
  end.

Section WithVectorizer.

Context {V : Vectorizer}.

Record engine : Type := {
  recipes : list value;
  recipe_vectors : option matrix
}.

(** one entry of [recipe_texts] in [_prepare_vectors] *)
Definition recipe_text (recipe : value) : result string :=
  i ← Py.get recipe "ingredients" (VList []);
  ingredients ← join_value i;
  cuisine ← Py.get recipe "cuisine" (VStr "");
  difficulty ← Py.get recipe "difficulty" (VStr "");
  d ← Py.get recipe "dietary_info" (VList []);
  dietary ← join_value d;
  cuisine ← as_str cuisine;
  difficulty ← as_str difficulty;
  mret (Str.join " " [ingredients; cuisine; difficulty; dietary]).

(** [__init__] *)
Definition new (recipes : list value) : result engine :=
  match recipes with
  | [] => Ok {| recipes := []; recipe_vectors := None |}
  | _ =>
      recipe_texts ← mapM recipe_text recipes;
      m ← fit_transform recipe_texts;
      mret {| recipes := recipes; recipe_vectors := Some m |}
  end.

(** [next((idx for idx, r in enumerate(self.recipes)
           if r['id'] == recipe['id']), -1)] *)
Fixpoint original_index (recipes : list value) (recipe : value)
    (idx : nat) : result (option nat) :=
  match recipes with
  | [] => Ok None
  | r :: rest =>
      a ← Py.getitem r "id";
      b ← Py.getitem recipe "id";
      if Py.eq a b then Ok (Some idx)
      else original_index rest recipe (S idx)
  end.

Definition too_long (max_cooking_time : option Z) (recipe : value)
    : result bool :=
  match max_cooking_time with
  | Some m =>
      if m =? 0 then Ok false
      else t ← Py.get recipe "cooking_time" (VInt 0); Py.gt t m
  | None => Ok false
  end.

(** [f and recipe.get(field) != f] *)
Definition differs (field : string) (f : option string) (recipe : value)
    : result bool :=
  match f with
  | Some f =>
      if String.eqb f "" then Ok false
      else v ← Py.get recipe field VNone;
           mret (negb (Py.eq v (VStr f)))
  | None => Ok false
  end.

(** [set(ing.lower() for ing in recipe.get('ingredients', []))] *)
Definition recipe_ingredient_set (recipe : value) : result (gset string) :=
  v ← Py.get recipe "ingredients" (VList []);
  items ← Py.iter v;
  names ← mapM Py.lower items;
  mret (list_to_set names).

Definition query_set (ingredients : list string) : gset string :=
  list_to_set (Str.lower <$> ingredients).

(** [n / len(s) if s else 0] *)
Definition ratio_or_zero (n : nat) (s : gset string) : Q :=
  if Nat.eqb (size s) 0 then 0%Q
  else Float.quot n (size s).

(** [ml_score] is a NumPy float64, and so is the sum *)
Definition final_score (ml_score ingredient_match_score coverage_score : Q)
    : Q :=
  Float.add (Float.add (Float.mul ml_score Float.c04)
                       (Float.mul ingredient_match_score Float.c04))
            (Float.mul coverage_score Float.c02).

Definition suggestions_for (missing : list string)
    : list (string * list string) :=
  foldl (fun suggestions missing_ing =>
           match get_ingredient_substitutions missing_ing with
           | [] => suggestions
           | substitutions => dict_set missing_ing (take 2 substitutions)
                                       suggestions
           end)
        [] (take 3 missing).

(** The body of the scoring loop; [Ok None] is [continue]. *)
Definition process_recipe (self : engine) (sims : list Q)
    (ingredients : list string) (max_cooking_time : option Z)
    (difficulty cuisine_preference : option string)
    (recipe : value) : result (option scored) :=
  oi ← original_index (recipes self) recipe 0;
  match oi with
  | None => Ok None
  | Some idx =>
      b2 ← too_long max_cooking_time recipe;
      if b2 : bool then Ok None else
      b3 ← differs "difficulty" difficulty recipe;
      if b3 : bool then Ok None else
      b4 ← differs "cuisine" cuisine_preference recipe;
      if b4 : bool then Ok None else
      recipe_ingredients ← recipe_ingredient_set recipe;
      let query_ingredients := query_set ingredients in
      let direct_matches := size (recipe_ingredients ∩ query_ingredients) in
      let ingredient_match_score :=
        ratio_or_zero direct_matches recipe_ingredients in
      let coverage_score :=
        ratio_or_zero (size (query_ingredients ∩ recipe_ingredients))
                      query_ingredients in
      match sims !! idx with
      | None => Raise IndexError
      | Some ml_score =>
          let final :=
            final_score ml_score ingredient_match_score coverage_score in
          let missing := elements (recipe_ingredients ∖ query_ingredients) in
          Ok (Some {| recipe := recipe;
                      match_score := Np.round1 (Float.mul final 100);
                      ingredient_match_percentage :=
                        Py.round1 (Float.mul ingredient_match_score 100);
                      missing_ingredients := missing;
                      substitution_suggestions := suggestions_for missing |})
      end
  end.

Fixpoint score_all (self : engine) (sims : list Q)
    (ingredients : list string) (max_cooking_time : option Z)
    (difficulty cuisine_preference : option string)
    (candidates : list value) : result (list scored) :=
  match candidates with
  | [] => Ok []
  | recipe :: rest =>
      o ← process_recipe self sims ingredients max_cooking_time
            difficulty cuisine_preference recipe;
      recommendations ← score_all self sims ingredients max_cooking_time
                          difficulty cuisine_preference rest;
      mret (match o with
            | Some s => s :: recommendations
            | None => recommendations
            end)
  end.

(** the words a truthy filter adds to the query text *)
Definition hint (f : option string) : list string :=
  match f with
  | Some s => if String.eqb s "" then [] else [s]
  | None => []
  end.

Definition query_text (ingredients : list string)
    (difficulty cuisine_preference : option string) : string :=
  Str.join " " (Str.join " " ingredients
                  :: hint cuisine_preference ++ hint difficulty).

(** [get_recommendations]: nothing is caught here, an exception reaches
    the caller. *)
Definition get_recommendations (self : engine)
    (ingredients : list string)
    (dietary_restrictions : option (list string))
    (max_cooking_time : option Z)
    (difficulty cuisine_preference : option string)
    (limit : Z) : result (list scored) :=
  match recipes self, recipe_vectors self with
  | [], _ => Ok []
  | _, None => Ok []
  | _, Some m =>
      fitted ← matrix_bool m;
      if fitted : bool then
        sims ← similarities m
                 (query_text ingredients difficulty cuisine_preference);
        candidates ←
          match dietary_restrictions with
          | Some (r :: rs) =>
              filter_by_dietary_restrictions (recipes self) (r :: rs)
          | _ => Ok (recipes self)
          end;
        recommendations ← score_all self sims ingredients max_cooking_time
                            difficulty cuisine_preference candidates;
        mret (rank limit recommendations)
      else Ok []
  end.

End WithVectorizer.

End Engine.

(** * The code around the engines *)

(** ** Dicts that are updated, and the JSON files that hold them *)

Module Store.

(** [d[k] = v] on the fields of a dict: the binding is replaced where it
    stands, or added at the end *)
Fixpoint put (k : string) (v : value) (d : list (string * value))
    : list (string * value) :=
  match d with
  | [] => [(k, v)]
  | (k', v') :: d' =>
      if String.eqb k k' then (k, v) :: d' else (k', v') :: put k v d'
  end.

(** the fields of a dict without the key [k] *)
Definition remove (k : string) (d : list (string * value))
    : list (string * value) :=
  List.filter (fun kv => negb (String.eqb k (fst kv))) d.

(** [o[k] = v] *)
Definition setitem (o : value) (k : string) (v : value) : result value :=
  match o with
  | VDict d => Ok (VDict (put k v d))
  | _ => Raise TypeError
  end.

(** [del o[k]] *)
Definition delitem (o : value) (k : string) : result value :=
  match o with
  | VDict d =>
      match Py.assoc k d with
      | Some _ => Ok (VDict (remove k d))
      | None => Raise KeyError
      end
  | _ => Raise TypeError
  end.

(** [x in c] for an integer or a string [x] *)
Definition contains (x : value) (c : value) : result bool :=
  match c with
  | VList l => Ok (existsb (fun e => Py.eq e x) l)
  | VDict d =>
      match x with
      | VStr k => Ok (existsb (String.eqb k) (Py.keys d))
      | VList _ | VDict _ => Raise TypeError
      | _ => Ok false
      end
  | VStr s =>
      match x with
      | VStr sub => Ok (Str.contains sub s)
      | _ => Raise TypeError
      end
  | _ => Raise TypeError
  end.

(** [l.remove(x)]: the first element equal to [x] goes *)
Fixpoint list_remove (x : value) (l : list value) : result (list value) :=
  match l with
  | [] => Raise ValueError
  | e :: l' =>
      if Py.eq e x then Ok l'
      else (r ← list_remove x l'; mret (e :: r))
  end.

(** [n <= v] and [v <= n] for an integer [n] *)
Definition int_le (n : Z) (v : value) : result bool :=
  match v with
  | VInt a => Ok (n <=? a)
  | VBool b => Ok (n <=? Z.b2z b)
  | _ => Raise TypeError
  end.

Definition le_int (v : value) (n : Z) : result bool :=
  match v with
  | VInt a => Ok (a <=? n)
  | VBool b => Ok (Z.b2z b <=? n)
  | _ => Raise TypeError
  end.

(** [v < n] *)
Definition lt_int (v : value) (n : Z) : result bool :=
  match v with
  | VInt a => Ok (a <? n)
  | VBool b => Ok (Z.b2z b <? n)
  | _ => Raise TypeError
  end.

(** A Python float as [json.loads] gives it: a number written with a
    fraction or an exponent, or one of [NaN], [Infinity], [-Infinity]. *)
Inductive pyfloat : Type :=
| NaN
| Infinity (negative : bool)
| Finite (x : Q).

(** What [data.get('rating')] can be: a value as above, or a float.  (A
    list or a dict is tested below for being empty only, so the floats it
    may hold play no role.) *)
Inductive rating : Type :=
| Plain (v : value)
| Float (x : pyfloat).

(** [bool(x)] *)
Definition float_truthy (x : pyfloat) : bool :=
  match x with
  | Finite q => negb (Qeq_bool q 0)
  | _ => true
  end.

(** [n <= x], [x <= n], [x < n] and [x > n] for an integer [n]: every
    comparison with NaN is false *)
Definition int_le_float (n : Z) (x : pyfloat) : bool :=
  match x with
  | NaN => false
  | Infinity negative => negb negative
  | Finite q => Qle_bool (inject_Z n) q
  end.

Definition float_le_int (x : pyfloat) (n : Z) : bool :=
  match x with
  | NaN => false
  | Infinity negative => negative
  | Finite q => Qle_bool q (inject_Z n)
  end.

Definition float_lt_int (x : pyfloat) (n : Z) : bool :=
  match x with
  | NaN => false
  | Infinity negative => negative
  | Finite q => negb (Qle_bool (inject_Z n) q)
  end.

Definition float_gt_int (x : pyfloat) (n : Z) : bool :=
  match x with
  | NaN => false
  | Infinity negative => negb negative
  | Finite q => negb (Qle_bool q (inject_Z n))
  end.

(** A JSON file on disk: absent, unreadable as JSON, or holding a value. *)
Inductive file : Type :=
| Missing
| Corrupt
| Json (v : value).

(** What an attempt to write a file does: it succeeds, or it raises and
    leaves the file in some state. *)
Inductive write_outcome : Type :=
| Written
| WriteFailed (after : file).

(** [str(recipe_id)] for the non-negative integer of an [<int:recipe_id>]
    route *)
Definition str_of_id (recipe_id : N) : string := pretty recipe_id.

End Store.

(** What a route returns: [jsonify(body)] with status 200, an error
    message with its status, or the 500 of the route's own [except] clause
    for the exception it caught. *)
Inductive response : Type :=
| Success (body : list (string * value))
| Failure (status : Z) (error : string)
| Crash (e : exn).

(** ** src/app_working.py: loading, uploads and the feedback routes *)

Module WorkingApp.

Import Store.

Definition ALLOWED_EXTENSIONS : gset string :=
  {[ "png"; "jpg"; "jpeg"; "gif"; "bmp"; "webp" ]}.

(** [s.rsplit('.', 1)] when [s] has a dot: what stands before the last dot
    and what stands after it *)
Fixpoint rsplit_dot (s : string) : option (string * string) :=
  match s with
  | EmptyString => None
  | String c s' =>
      match rsplit_dot s' with
      | Some (a, b) => Some (String c a, b)
      | None => if Ascii.eqb c "." then Some (EmptyString, s') else None
      end
  end.

(** [allowed_file]; [rsplit(...)[1]] raises when there is one part only *)
Definition allowed_file (filename : string) : result bool :=
  if Str.contains "." filename then
    match rsplit_dot filename with
    | Some (_, ext) => Ok (bool_decide (Str.lower ext ∈ ALLOWED_EXTENSIONS))
    | None => Raise IndexError
    end
  else Ok false.

(** The state of a [SimpleRecipeRecommender].  [self.recipes] is kept as
    the list of what iterating it yields. *)
Record recommender : Type := {
  recipes : list value;
  all_ingredients : gset string
}.

(** the inner loop of [load_recipes]: the names added so far survive an
    exception *)
Fixpoint add_names (acc : gset string) (items : list value)
    : gset string * result unit :=
  match items with
  | [] => (acc, Ok tt)
  | ingredient :: rest =>
      match Py.lower_strip ingredient with
      | Ok name => add_names ({[ name ]} ∪ acc) rest
      | Raise e => (acc, Raise e)
      end
  end.

(** the outer loop of [load_recipes] *)
Fixpoint add_recipes (acc : gset string) (recipes : list value)
    : gset string * result unit :=
  match recipes with
  | [] => (acc, Ok tt)
  | recipe :: rest =>
      match v ← Py.get recipe "ingredients" (VList []); Py.iter v with
      | Ok items =>
          match add_names acc items with
          | (acc', Ok _) => add_recipes acc' rest
          | (acc', Raise e) => (acc', Raise e)
          end
      | Raise e => (acc, Raise e)
      end
  end.

(** [__init__] and [load_recipes]: any exception empties [self.recipes] *)
Definition load_recipes (f : file) : recommender :=
  match f with
  | Json data =>
      match v ← Py.get data "recipes" (VList []); Py.iter v with
      | Ok recipes =>
          match add_recipes ∅ recipes with
          | (names, Ok _) => {| recipes := recipes; all_ingredients := names |}
          | (names, Raise _) => {| recipes := []; all_ingredients := names |}
          end
      | Raise _ => {| recipes := []; all_ingredients := ∅ |}
      end
  | _ => {| recipes := []; all_ingredients := ∅ |}
  end.

(** [load_user_data]: a file that is absent or unreadable reads as [{}] *)
Definition load_user_data (f : file) : value :=
  match f with
  | Json v => v
  | _ => VDict []
  end.

(** [save_user_data]: the file afterwards, and whether it was written *)
Definition save_user_data (w : write_outcome) (data : value) : file * bool :=
  match w with
  | Written => (Json data, true)
  | WriteFailed after => (after, false)
  end.

(** [not rating or not (1 <= rating <= 5)] *)
Definition invalid_rating (rating : rating) : result bool :=
  match rating with
  | Plain v =>
      if negb (Py.truthy v) then Ok true
      else
        a ← int_le 1 v;
        if a : bool then (b ← le_int v 5; mret (negb b)) else Ok true
  | Float x =>
      Ok (negb (float_truthy x)
          || negb (int_le_float 1 x && float_le_int x 5))
  end.

(** the route [rate_recipe], on the ratings file *)
Definition rate_recipe (ratings_file : file) (w : write_outcome)
    (recipe_id : N) (data : value) : file * response :=
  match
    rating ← Py.get data "rating" VNone;
    bad ← invalid_rating (Plain rating);
    if bad : bool then Ok None
    else
      ratings ← setitem (load_user_data ratings_file)
                        (str_of_id recipe_id) rating;
      Ok (Some ratings)
  with
  | Raise e => (ratings_file, Crash e)
  | Ok None => (ratings_file, Failure 400 "Invalid rating")
  | Ok (Some ratings) =>
      match save_user_data w ratings with
      | (f, true) =>
          (f, Success [("success", VBool true);
                       ("message", VStr "Rating saved successfully")])
      | (f, false) => (f, Failure 500 "Failed to save rating")
      end
  end.

(** the route [toggle_favorite], on the favorites file *)
Definition toggle_favorite (favorites_file : file) (w : write_outcome)
    (recipe_id : N) : file * response :=
  let favorites := load_user_data favorites_file in
  let recipe_id_str := str_of_id recipe_id in
  match
    present ← contains (VStr recipe_id_str) favorites;
    if present : bool then
      favorites' ← delitem favorites recipe_id_str;
      Ok (favorites', false, "Removed from favorites")
    else
      favorites' ← setitem favorites recipe_id_str (VBool true);
      Ok (favorites', true, "Added to favorites")
  with
  | Raise e => (favorites_file, Crash e)
  | Ok (favorites', is_favorite, message) =>
      match save_user_data w favorites' with
      | (f, true) =>
          (f, Success [("success", VBool true);
                       ("is_favorite", VBool is_favorite);
                       ("message", VStr message)])
      | (f, false) => (f, Failure 500 "Failed to save favorite")
      end
  end.

End WorkingApp.

(** ** src/app.py: the feedback system and the recipe route *)

Module EngineApp.

Import Store.

(** [_ensure_files], for one file *)
Definition ensure_file (f : file) : file :=
  match f with
  | Missing => Json (VDict [])
  | _ => f
  end.

(** [UserFeedbackSystem.add_rating]: the file afterwards and the boolean
    returned; [now] is [datetime.now().isoformat()] *)
Definition add_rating (ratings_file : file) (w : write_outcome) (now : string)
    (user_id : string) (recipe_id : N) (rating : value) : file * bool :=
  match ratings_file with
  | Json ratings =>
      match
        known ← contains (VStr user_id) ratings;
        ratings ← (if known : bool then Ok ratings
                   else setitem ratings user_id (VDict []));
        mine ← Py.getitem ratings user_id;
        mine ← setitem mine (str_of_id recipe_id)
                 (VDict [("rating", rating); ("timestamp", VStr now)]);
        setitem ratings user_id mine
      with
      | Ok ratings' =>
          match w with
          | Written => (Json ratings', true)
          | WriteFailed after => (after, false)
          end
      | Raise _ => (ratings_file, false)
      end
  | _ => (ratings_file, false)
  end.

(** [UserFeedbackSystem.toggle_favorite] *)
Definition toggle_favorite (favorites_file : file) (w : write_outcome)
    (user_id : string) (recipe_id : N) (is_favorite : value) : file * bool :=
  match favorites_file with
  | Json favorites =>
      match
        known ← contains (VStr user_id) favorites;
        favorites ← (if known : bool then Ok favorites
                     else setitem favorites user_id (VList []));
        mine ← Py.getitem favorites user_id;
        here ← (if Py.truthy is_favorite
                then contains (VInt (Z.of_N recipe_id)) mine
                else Ok false);
        if (Py.truthy is_favorite && negb here)%bool then
          match mine with
          | VList l =>
              setitem favorites user_id
                (VList (l ++ [VInt (Z.of_N recipe_id)]))
          | _ => Raise AttributeError
          end
        else
          there ← (if Py.truthy is_favorite then Ok false
                   else contains (VInt (Z.of_N recipe_id)) mine);
          if there : bool then
            match mine with
            | VList l =>
                l' ← list_remove (VInt (Z.of_N recipe_id)) l;
                setitem favorites user_id (VList l')
            | _ => Raise AttributeError
            end
          else Ok favorites
      with
      | Ok favorites' =>
          match w with
          | Written => (Json favorites', true)
          | WriteFailed after => (after, false)
          end
      | Raise _ => (favorites_file, false)
      end
  | _ => (favorites_file, false)
  end.

(** [not rating or rating < 1 or rating > 5], the test of the route
    [rate_recipe] *)
Definition invalid_rating (rating : rating) : result bool :=
  match rating with
  | Plain v =>
      if negb (Py.truthy v) then Ok true
      else
        a ← lt_int v 1;
        if a : bool then Ok true else Py.gt v 5
  | Float x =>
      Ok (negb (float_truthy x) || float_lt_int x 1 || float_gt_int x 5)
  end.

(** [next((r for r in recipes if r['id'] == recipe_id), None)] *)
Fixpoint find_recipe (recipes : list value) (recipe_id : N)
    : result (option value) :=
  match recipes with
  | [] => Ok None
  | r :: rest =>
      i ← Py.getitem r "id";
      if Py.eq i (VInt (Z.of_N recipe_id)) then Ok (Some r)
      else find_recipe rest recipe_id
  end.

(** the route [get_recipe_details]; its [except] answers with one fixed
    message *)
Definition get_recipe_details (recipes : list value) (recipe_id : N)
    : response :=
  match find_recipe recipes recipe_id with
  | Ok (Some recipe) =>
      if Py.truthy recipe
      then Success [("success", VBool true); ("recipe", recipe)]
      else Failure 404 "Recipe not found"
  | Ok None => Failure 404 "Recipe not found"
  | Raise _ => Failure 500 "Failed to fetch recipe details"
  end.

End EngineApp.

(** * The specification's side *)

(** The direct-match-gated policy: 0.6 times the fraction of the recipe's
    ingredients that the query covers plus 0.4 times the fraction of the
    query's ingredients that the recipe uses, for [m] direct matches, [r]
    recipe ingredients and [q] query ingredients. *)
Definition spec_gated_final (m r q : nat) : Q :=
  ((6 # 10) * (inject_Z (Z.of_nat m) / inject_Z (Z.of_nat r))
   + (4 # 10) * (inject_Z (Z.of_nat m) / inject_Z (Z.of_nat q)))%Q.

(** Case-insensitive containment: the lower-cased [sub] occurs somewhere
    inside the lower-cased [s]. *)
Definition spec_ci_substring (sub s : string) : Prop :=
  ∃ pre post : string,
    Str.lower s = String.append pre (String.append (Str.lower sub) post).

(** The lookup key matches the ingredient name in either direction. *)
Definition spec_key_matches (key x : string) : Prop :=
  spec_ci_substring key x ∨ spec_ci_substring x key.

(** Equality of two strings up to letter case. *)
Definition spec_ci_equal (a b : string) : Prop := Str.lower a = Str.lower b.

(** The ranking contract: at most [limit] entries, scores between 0 and
    100, scores that never increase along the list, and the entries of any
    one score in the order of the corpus. *)
Definition ranking_ok (corpus : list value) (limit : Z) (res : list scored)
    : Prop :=
  Z.of_nat (length res) <= limit ∧
  Forall (fun s => (0 <= match_score s <= 100)%Q) res ∧
  (∀ (i j : nat) a b,
     (i <= j)%nat -> res !! i = Some a -> res !! j = Some b ->
     (match_score b <= match_score a)%Q) ∧
  (∀ v : Q,
     recipe <$> filter (tied v) res `sublist_of` corpus).

(** Cosine similarities of vectors without negative entries lie in [0, 1]. *)
Definition cosine_bounded (V : Vectorizer) : Prop :=
  ∀ (m : matrix) (q : string) (sims : list Q),
    similarities m q = Ok sims -> Forall (fun x => (0 <= x <= 1)%Q) sims.

(** * Auxiliary definitions *)

(** the flag a restriction reads, with its default *)
Definition flag (d : list (string * value)) (name : string) : value :=
  match Py.assoc name d with
  | Some v => v
  | None => VBool false
  end.

(** The [match_score] the first engine computes from [m] direct matches,
    [r] recipe ingredients and [q] query ingredients: the arithmetic of the
    source, on floats. *)
Definition gated_match_score (m r q : nat) : Q :=
  Py.round1
    (Float.mul (Working.final_score (Float.quot m r) (Float.quot m q)) 100).

(** How far a reported score may lie from 100 times the exact one: half a
    tenth for the rounding to one decimal, and what the floats lose. *)
Definition score_tolerance : Q := (1 # 20) + (1 # 1000000000000).

(** Does the name occur in the ingredient set of the recipe? *)
Definition uses_ingredient (name : string) (r : value) : bool :=
  match Working.recipe_ingredient_set r with
  | Ok R => bool_decide (name ∈ R)
  | Raise _ => false
  end.

(** A record with some of its fields removed. *)
Definition drop_keys (ks : list string) (d : list (string * value))
    : list (string * value) :=
  List.filter (fun kv => negb (existsb (String.eqb (fst kv)) ks)) d.

(** The same derived fields on another copy of the record. *)
Definition with_recipe (r : value) (s : scored) : scored :=
  {| recipe := r;
     match_score := match_score s;
     ingredient_match_percentage := ingredient_match_percentage s;
     missing_ingredients := missing_ingredients s;
     substitution_suggestions := substitution_suggestions s |}.

(** Is the restriction met by the flags [d]?  The four names the first
    engine knows read a flag; any other name is met. *)
Definition restriction_met (d : list (string * value)) (restriction : string)
    : bool :=
  let r := Str.lower restriction in
  if String.eqb r "vegetarian" then Py.truthy (flag d "vegetarian")
  else if String.eqb r "vegan" then Py.truthy (flag d "vegan")
  else if String.eqb r "gluten-free" then Py.truthy (flag d "gluten_free")
  else if String.eqb r "dairy-free" then Py.truthy (flag d "dairy_free")
  else true.

(** Is the name, in lower case, one the first engine knows? *)
Definition known_restriction (restriction : string) : bool :=
  let r := Str.lower restriction in
  (String.eqb r "vegetarian" || String.eqb r "vegan"
   || String.eqb r "gluten-free" || String.eqb r "dairy-free")%bool.

Definition is_dict (v : value) : bool :=
  match v with
  | VDict _ => true
  | _ => false
  end.

(** Is the name one of the four the second engine knows, as it stands? *)
Definition engine_restriction (restriction : string) : bool :=
  (String.eqb restriction "vegetarian" || String.eqb restriction "vegan"
   || String.eqb restriction "gluten_free"
   || String.eqb restriction "dairy_free")%bool.

(** The [id] of a recipe record when it is an integer. *)
Definition int_id (r : value) : option Z :=
  match r with
  | VDict d =>
      match Py.assoc "id" d with
      | Some (VInt n) => Some n
      | _ => None
      end
  | _ => None
  end.

(** Is the string a key of the dict? *)
Definition has_key (k : string) (d : list (string * value)) : bool :=
  match Py.assoc k d with
  | Some _ => true
  | None => false
  end.

(** The favourites kept for a user in the file of src/app.py: none when the
    user is not listed yet. *)
Definition favorites_of (d : list (string * value)) (user_id : string)
    : option (list value) :=
  match Py.assoc user_id d with
  | None => Some []
  | Some (VList l) => Some l
  | Some _ => None
  end.

(** The ratings kept for a user in the file of src/app.py. *)
Definition ratings_of (d : list (string * value)) (user_id : string)
    : option (list (string * value)) :=
  match Py.assoc user_id d with
  | None => Some []
  | Some (VDict m) => Some m
  | Some _ => None
  end.

(** * Sample data *)

(** A stand-in for a [TfidfVectorizer] whose vocabulary is one term.  Its
    matrix, kept as its number of rows, has one row for each text and one
    column, so it has a truth value for a corpus of one recipe only, as
    scipy has it.  It answers every query with the given similarity vector.
    The corpora it is used with below have recipes whose text has one term,
    and the vector is the similarity of the query at hand: 1 when the query
    has that term, 0 when it has not. *)
Definition stub_vectorizer (sims : list Q) : Vectorizer :=
  {| matrix := nat;
     fit_transform := fun texts => Ok (length texts);
     matrix_bool := fun rows =>
       if Nat.eqb rows 1 then Ok true else Raise ValueError;
     similarities := fun _ _ => Ok sims |}.

Module Sample.

Definition plain_rice : value :=
  VDict [("id", VInt 1); ("name", VStr "Plain rice");
         ("ingredients", VList [VStr "rice"])].

Definition fried_rice_fields : list (string * value) :=
  [("id", VInt 2); ("name", VStr "Fried rice");
   ("ingredients", VList [VStr "Rice"; VStr "eggs "; VStr "garlic"]);
   ("cooking_time", VInt 20); ("difficulty", VStr "Easy");
   ("cuisine", VStr "Asian");
   ("dietary_info", VDict [("vegetarian", VBool true)])].

Definition fried_rice : value := VDict fried_rice_fields.

(** no [cooking_time] *)
Definition tofu_bowl_fields : list (string * value) :=
  [("id", VInt 3); ("name", VStr "Tofu bowl");
   ("ingredients", VList [VStr "tofu"; VStr "rice"]);
   ("difficulty", VStr "easy")].

Definition tofu_bowl : value := VDict tofu_bowl_fields.

(** no [id], no [name] *)
Definition nameless : value :=
  VDict [("ingredients", VList [VStr "rice"])].

(** no ingredients; the cuisine gives the lexical index its one term *)
Definition no_ingredients : value :=
  VDict [("id", VInt 4); ("name", VStr "Air"); ("cuisine", VStr "asian");
         ("ingredients", VList [])].

(** a record whose [cooking_time] cannot be compared with a number *)
Definition bad_time : value :=
  VDict [("id", VInt 5); ("name", VStr "Stew");
         ("ingredients", VList [VStr "rice"; VStr "beef"]);
         ("cooking_time", VStr "long")].

(** tagged in the style of src/app.py *)
Definition pasta : value :=
  VDict [("id", VInt 6); ("name", VStr "Pasta");
         ("ingredients", VList [VStr "spaghetti"; VStr "tomato"]);
         ("dietary_info", VList [VStr "contains_gluten"])].

(** no ingredients; the difficulty gives the lexical index its one term *)
Definition broth : value :=
  VDict [("id", VInt 7); ("name", VStr "Broth"); ("ingredients", VList []);
         ("difficulty", VStr "Easy")].

(** the two recipes of the specification's scenarios *)
Definition chicken_rice : value :=
  VDict [("id", VInt 1);
         ("ingredients", VList [VStr "chicken"; VStr "rice"; VStr "garlic"]);
         ("cooking_time", VInt 20); ("difficulty", VStr "easy");
         ("cuisine", VStr "asian"); ("dietary_info", VList [])].

Definition tofu_rice : value :=
  VDict [("id", VInt 2);
         ("ingredients", VList [VStr "tofu"; VStr "rice"; VStr "garlic"]);
         ("cooking_time", VInt 15); ("difficulty", VStr "easy");
         ("cuisine", VStr "asian");
         ("dietary_info",
          VDict [("vegetarian", VBool true); ("vegan", VBool true)])].

(** three ingredients, all of them in the query below *)
Definition omelette : value :=
  VDict [("id", VInt 8); ("name", VStr "Omelette");
         ("ingredients", VList [VStr "eggs"; VStr "butter"; VStr "cheese"])].

(** a query of 32 ingredients *)
Definition pantry : list string :=
  ["eggs"; "butter"; "cheese"; "apple"; "avocado"; "bacon"; "banana";
   "basil"; "beef"; "broccoli"; "carrot"; "cilantro"; "cucumber"; "dill";
   "garlic"; "ginger"; "lemon"; "lettuce"; "lime"; "mushroom"; "onion";
   "quinoa"; "rice"; "spinach"; "tahini"; "tomato"; "flour"; "sugar";
   "shrimp"; "tofu"; "noodles"; "yogurt"].

Definition engine_of (sims : list Q) (recipes : list value)
    : Engine.engine (V := stub_vectorizer sims) :=
  {| Engine.recipes := recipes;
     Engine.recipe_vectors :=
       Some (length recipes : @matrix (stub_vectorizer sims)) |}.

End Sample.

(** * Properties *)

(** ** Rounding *)

Section Rounding.

Local Open Scope Q_scope.

Lemma round_half_even_error (y : Q) :
  - (1 # 2) <= inject_Z (Py.round_half_even y) - y <= 1 # 2.
Proof.
  unfold Py.round_half_even.
  pose proof (Qfloor_le y) as Hl. pose proof (Qlt_floor y) as Hu.
  rewrite inject_Z_plus in Hu. change (inject_Z 1) with 1 in Hu.
  assert (Hs : inject_Z (Qfloor y + 1) == inject_Z (Qfloor y) + 1).
  { rewrite inject_Z_plus. reflexivity. }
  destruct (Qcompare_spec (y - inject_Z (Qfloor y)) (1 # 2)) as [E | L | G].
  - destruct (Z.even (Qfloor y)); [| rewrite Hs]; split; lra.
  - split; lra.
  - rewrite Hs. split; lra.
Qed.

Lemma round_half_even_upper (y : Q) (b : Z) :
  y < inject_Z b + (1 # 2) -> (Py.round_half_even y <= b)%Z.
Proof.
  intros H. destruct (round_half_even_error y) as [_ Hu].
  assert (Hlt : inject_Z (Py.round_half_even y) < inject_Z (b + 1)).
  { rewrite inject_Z_plus. change (inject_Z 1) with 1. lra. }
  rewrite <- Zlt_Qlt in Hlt. lia.
Qed.

Lemma round_half_even_lower (y : Q) (a : Z) :
  inject_Z a - (1 # 2) < y -> (a <= Py.round_half_even y)%Z.
Proof.
  intros H. destruct (round_half_even_error y) as [Hl _].
  assert (Hlt : inject_Z (a + -1) < inject_Z (Py.round_half_even y)).
  { rewrite inject_Z_plus. change (inject_Z (-1)) with (- (1)). lra. }
  rewrite <- Zlt_Qlt in Hlt. lia.
Qed.

Lemma tenths (k : Z) : Qmake k 10 == inject_Z k * (1 # 10).
Proof. unfold Qeq. simpl. lia. Qed.

(** Rounding to a tenth moves a number by at most a twentieth. *)
Lemma round1_error (x : Q) : - (1 # 20) <= Py.round1 x - x <= 1 # 20.
Proof.
  unfold Py.round1. rewrite tenths.
  destruct (round_half_even_error (x * 10)). split; lra.
Qed.

(** A number within a twentieth of the interval from 0 to 100 is rounded
    into it. *)
Lemma round1_into (x : Q) :
  - (1 # 20) < x -> x < 100 + (1 # 20) -> 0 <= Py.round1 x <= 100.
Proof.
  intros H0 H1. unfold Py.round1.
  assert (L : (0 <= Py.round_half_even (x * 10))%Z).
  { apply round_half_even_lower. change (inject_Z 0) with 0. lra. }
  assert (U : (Py.round_half_even (x * 10) <= 1000)%Z).
  { apply round_half_even_upper. change (inject_Z 1000) with 1000. lra. }
  unfold Qle; simpl. lia.
Qed.

End Rounding.

(** ** Binary64 arithmetic *)

Section Binary64.

Local Open Scope Q_scope.

Import Float.

Lemma two_nonneg_eq (e : Z) : (0 <= e)%Z -> two e = inject_Z (2 ^ e).
Proof.
  intros H. unfold two. destruct (Z.leb_spec 0 e); [reflexivity | lia].
Qed.

Lemma two_pos (e : Z) : 0 < two e.
Proof.
  unfold two. destruct (Z.leb_spec 0 e).
  - change 0 with (inject_Z 0). rewrite <- Zlt_Qlt. apply Z.pow_pos_nonneg; lia.
  - apply Qinv_lt_0_compat. change 0 with (inject_Z 0). rewrite <- Zlt_Qlt.
    apply Z.pow_pos_nonneg; lia.
Qed.

Lemma two_succ (e : Z) : two (e + 1) == 2 * two e.
Proof.
  unfold two. destruct (Z.leb_spec 0 e) as [H | H].
  - destruct (Z.leb_spec 0 (e + 1)); [| lia].
    rewrite Z.pow_add_r by lia. rewrite inject_Z_mult.
    change (inject_Z (2 ^ 1)) with 2. ring.
  - destruct (Z.leb_spec 0 (e + 1)) as [H' | H'].
    + assert (e = -1)%Z as -> by lia. reflexivity.
    + assert (E : (2 ^ (- e) = 2 * 2 ^ (- (e + 1)))%Z).
      { rewrite <- Z.pow_succ_r by lia. f_equal. lia. }
      rewrite E, inject_Z_mult. change (inject_Z 2) with 2.
      assert (Hp : 0 < inject_Z (2 ^ (- (e + 1)))).
      { change 0 with (inject_Z 0). rewrite <- Zlt_Qlt.
        apply Z.pow_pos_nonneg; lia. }
      field. intros Hz. rewrite Hz in Hp. apply (Qlt_irrefl 0 Hp).
Qed.

Lemma two_add (a b : Z) : (0 <= b)%Z -> two (a + b) == two a * two b.
Proof.
  intros Hb. revert a. pattern b. apply natlike_ind; [| | exact Hb].
  - intros a. rewrite Z.add_0_r. change (two 0) with 1. ring.
  - intros c Hc IH a. unfold Z.succ.
    rewrite Z.add_assoc, !two_succ, IH. ring.
Qed.

Lemma two_le (a b : Z) : (a <= b)%Z -> two a <= two b.
Proof.
  intros H. replace b with (a + (b - a))%Z by lia.
  rewrite two_add by lia.
  assert (H1 : 1 <= two (b - a)).
  { rewrite two_nonneg_eq by lia. change 1 with (inject_Z 1).
    rewrite <- Zle_Qle.
    assert (0 < 2 ^ (b - a))%Z by (apply Z.pow_pos_nonneg; lia). lia. }
  pose proof (two_pos a). nra.
Qed.

Lemma two_lt (a b : Z) : (a < b)%Z -> two a < two b.
Proof.
  intros H. apply Qlt_le_trans with (two (a + 1)).
  - rewrite two_succ. pose proof (two_pos a). lra.
  - apply two_le. lia.
Qed.

Lemma exponent_le (x : Q) (k : Z) : 0 < x -> x <= two k -> (exponent x <= k)%Z.
Proof.
  intros Hx Hk. unfold exponent.
  set (l := (Z.log2 (Qnum x) - Z.log2 (Z.pos (Qden x)))%Z).
  destruct (Qle_bool (two l) x) eqn:T.
  - apply Qle_bool_iff in T.
    destruct (Z_le_gt_dec l k) as [? | G]; [done |]. exfalso.
    assert (two k < two l) by (apply two_lt; lia). lra.
  - clear T. destruct (Z_le_gt_dec (l - 1) k) as [? | G]; [done |]. exfalso.
    assert (Hn : (0 < Qnum x)%Z).
    { destruct x as [n d]. unfold Qlt in Hx. simpl in *. lia. }
    pose proof (Z.log2_spec (Qnum x) Hn) as [Ha _].
    pose proof (Z.log2_spec (Z.pos (Qden x)) (Pos2Z.is_pos _)) as [_ Hb].
    pose proof (Z.log2_nonneg (Qnum x)) as Ha0.
    pose proof (Z.log2_nonneg (Z.pos (Qden x))) as Hb0.
    set (a := Z.log2 (Qnum x)) in *. set (b := Z.log2 (Z.pos (Qden x))) in *.
    assert (Ht : two (l - 1) * inject_Z (2 ^ Z.succ b) == inject_Z (2 ^ a)).
    { rewrite <- (two_nonneg_eq (Z.succ b)) by lia.
      rewrite <- two_add by lia. rewrite <- (two_nonneg_eq a) by lia.
      unfold l. replace (a - b - 1 + Z.succ b)%Z with a by lia. reflexivity. }
    assert (Hc : 0 < inject_Z (2 ^ Z.succ b)).
    { change 0 with (inject_Z 0). rewrite <- Zlt_Qlt.
      apply Z.pow_pos_nonneg; lia. }
    assert (Hxa : inject_Z (2 ^ a) <= x * inject_Z (2 ^ Z.succ b)).
    { destruct x as [n d]. unfold Qle, Qmult, inject_Z. simpl in *.
      nia. }
    assert (Hle : two (l - 1) <= x).
    { apply (Qmult_le_r _ _ _ Hc). rewrite Ht. exact Hxa. }
    assert (two k < two (l - 1)) by (apply two_lt; lia). lra.
Qed.

Lemma round_comp (x y : Q) : x == y -> round x = round y.
Proof. intros E. unfold round. by rewrite (Qred_complete _ _ E). Qed.

Lemma round_error_red (y : Q) (k : Z) :
  Qred y = y -> (-1022 <= k)%Z -> Qabs y <= two k ->
  - two (k - 53) <= round y - y <= two (k - 53).
Proof.
  intros Hy Hk Hx. unfold round. rewrite Hy.
  pose proof (two_pos (k - 53)) as Hp.
  assert (Hcase : Qnum y = 0%Z ∨ 0 < Qabs y).
  { destruct y as [[| p | p] d]; [by left | right | right]; reflexivity. }
  assert (Hgen :
    0 < Qabs y ->
    - two (k - 53)
    <= Qred (inject_Z (Py.round_half_even
                         (y / two (Z.max (exponent (Qabs y) - 52) (-1074))))
             * two (Z.max (exponent (Qabs y) - 52) (-1074))) - y
    <= two (k - 53)).
  { intros Hpos.
    pose proof (exponent_le (Qabs y) k Hpos Hx) as He.
    set (e := Z.max (exponent (Qabs y) - 52) (-1074)).
    assert (Hek : (e - 1 <= k - 53)%Z) by (unfold e; lia).
    pose proof (two_le _ _ Hek) as HT.
    pose proof (two_succ (e - 1)) as Hh.
    replace (e - 1 + 1)%Z with e in Hh by lia.
    pose proof (two_pos e) as HP.
    pose proof (round_half_even_error (y / two e)) as [Hl Hu].
    rewrite Qred_correct.
    set (M := inject_Z (Py.round_half_even (y / two e))) in *.
    assert (Hy' : y == (y / two e) * two e).
    { field. intros Hz. rewrite Hz in HP. apply (Qlt_irrefl 0 HP). }
    set (u := y / two e) in *. set (P := two e) in *.
    set (T := two (k - 53)) in *. set (T1 := two (e - 1)) in *.
    assert (H1 : (M - u) * P <= (1 # 2) * P).
    { apply Qmult_le_compat_r; [exact Hu | apply Qlt_le_weak, HP]. }
    assert (H2 : - (1 # 2) * P <= (M - u) * P).
    { apply Qmult_le_compat_r; [exact Hl | apply Qlt_le_weak, HP]. }
    assert (H3 : M * P - y == (M - u) * P) by (rewrite Hy'; ring).
    rewrite H3. split; lra. }
  destruct Hcase as [E0 | Hpos].
  - rewrite E0.
    assert (Hy0 : y == 0).
    { destruct y. unfold Qeq. simpl in *. lia. }
    rewrite Hy0. split; lra.
  - destruct (Qnum y) eqn:En.
    + assert (Hy0 : y == 0).
      { destruct y. unfold Qeq. simpl in *. lia. }
      rewrite Hy0. split; lra.
    + by apply Hgen.
    + by apply Hgen.
Qed.

Lemma round_error (x : Q) (k : Z) :
  (-1022 <= k)%Z -> Qabs x <= two k ->
  - two (k - 53) <= round x - x <= two (k - 53).
Proof.
  intros Hk Hx.
  rewrite (round_comp x (Qred x)) by (symmetry; apply Qred_correct).
  pose proof (Qred_correct x) as Hr.
  assert (Hx' : Qabs (Qred x) <= two k).
  { rewrite (Qabs_wd _ _ Hr). exact Hx. }
  pose proof (round_error_red (Qred x) k
                (Qred_complete _ _ (Qred_correct x)) Hk Hx').
  split; lra.
Qed.

(** the bound for a number known to lie between [- 2 ^ k] and [2 ^ k] *)
Lemma round_near (x : Q) (k : Z) :
  (-1022 <= k)%Z -> - two k <= x <= two k ->
  - two (k - 53) <= round x - x <= two (k - 53).
Proof.
  intros Hk [Hl Hu]. apply round_error; [done |].
  apply Qabs_Qle_condition. by split.
Qed.


Lemma round_near0 (x : Q) :
  -1 <= x <= 1 ->
  - (1 # 9007199254740992) <= round x - x <= 1 # 9007199254740992.
Proof. intros H. by apply (round_near x 0). Qed.

Lemma round_near1 (x : Q) :
  -2 <= x <= 2 ->
  - (1 # 4503599627370496) <= round x - x <= 1 # 4503599627370496.
Proof. intros H. by apply (round_near x 1). Qed.

Lemma round_near7 (x : Q) :
  -128 <= x <= 128 ->
  - (1 # 70368744177664) <= round x - x <= 1 # 70368744177664.
Proof. intros H. by apply (round_near x 7). Qed.

Lemma round_near10 (x : Q) :
  -1024 <= x <= 1024 ->
  - (1 # 8796093022208) <= round x - x <= 1 # 8796093022208.
Proof. intros H. by apply (round_near x 10). Qed.

Lemma c06_eq : c06 = 5404319552844595 # 9007199254740992.
Proof. vm_compute. reflexivity. Qed.

Lemma c04_eq : c04 = 3602879701896397 # 9007199254740992.
Proof. vm_compute. reflexivity. Qed.

Lemma c02_eq : c02 = 3602879701896397 # 18014398509481984.
Proof. vm_compute. reflexivity. Qed.

End Binary64.

(** ** Ranking: the stable descending sort and the slice *)

Section Ranking.

Implicit Types (l : list scored) (s x : scored).

Lemma insert_desc_perm x l : insert_desc x l ≡ₚ x :: l.
Proof.
  induction l as [| y l IH]; simpl; [done |].
  destruct (Qle_bool _ _); [done |].
  rewrite IH. apply Permutation_swap.
Qed.

Lemma sort_desc_perm l : sort_desc l ≡ₚ l.
Proof.
  induction l as [| x l IH]; simpl; [done |].
  by rewrite insert_desc_perm, IH.
Qed.

Lemma outranks_trans a b c : outranks a b -> outranks b c -> outranks a c.
Proof. unfold outranks. intros. eapply Qle_trans; eauto. Qed.

Lemma insert_desc_sorted x l :
  StronglySorted outranks l -> StronglySorted outranks (insert_desc x l).
Proof.
  induction 1 as [| y l Hl IH Hy]; simpl.
  - repeat constructor.
  - destruct (Qle_bool (match_score y) (match_score x)) eqn:E.
    + apply Qle_bool_iff in E.
      constructor; [by constructor |].
      constructor; [exact E |].
      eapply Forall_impl; [exact Hy |].
      intros z Hz. by apply outranks_trans with y.
    + constructor; [exact IH |].
      rewrite insert_desc_perm. constructor; [| exact Hy].
      unfold outranks. apply Qlt_le_weak, Qnot_le_lt.
      intros H. apply Qle_bool_iff in H. congruence.
Qed.

Lemma sort_desc_sorted l : StronglySorted outranks (sort_desc l).
Proof.
  induction l; simpl; [constructor | by apply insert_desc_sorted].
Qed.

(** Stability: within one score, the sort keeps the order of its input. *)
Lemma filter_insert_desc v x l :
  filter (tied v) (insert_desc x l) = filter (tied v) (x :: l).
Proof.
  induction l as [| y l IH]; simpl; [done |].
  destruct (Qle_bool (match_score y) (match_score x)) eqn:E; [done |].
  rewrite filter_cons, IH, !filter_cons.
  destruct (decide (tied v y)) as [Hy |]; [| done].
  destruct (decide (tied v x)) as [Hx |]; [| done].
  exfalso. unfold tied in *.
  assert (H : (match_score y <= match_score x)%Q)
    by (rewrite Hx, Hy; apply Qle_refl).
  apply Qle_bool_iff in H. congruence.
Qed.

Lemma filter_sort_desc v l :
  filter (tied v) (sort_desc l) = filter (tied v) l.
Proof.
  induction l as [| x l IH]; simpl; [done |].
  by rewrite filter_insert_desc, !filter_cons, IH.
Qed.

Lemma slice_to_take (n : Z) l : ∃ k, Py.slice_to n l = take k l.
Proof. unfold Py.slice_to. destruct (0 <=? n); eauto. Qed.

Lemma slice_to_length (n : Z) l :
  0 <= n -> Z.of_nat (length (Py.slice_to n l)) <= n.
Proof.
  intros Hn. unfold Py.slice_to.
  destruct (Z.leb_spec 0 n); [| lia].
  rewrite length_take. lia.
Qed.

Lemma rank_length (limit : Z) l :
  0 <= limit -> Z.of_nat (length (rank limit l)) <= limit.
Proof. apply slice_to_length. Qed.

Lemma rank_subseteq (limit : Z) l : rank limit l ⊆ l.
Proof.
  unfold rank. destruct (slice_to_take limit (sort_desc l)) as [k ->].
  intros s Hs. apply (elem_of_Permutation_proper _ _ _ (sort_desc_perm l)).
  eapply subseteq_take, Hs.
Qed.

Lemma StronglySorted_take k l :
  StronglySorted outranks l -> StronglySorted outranks (take k l).
Proof.
  intros H. revert k. induction H as [| y l Hl IH Hy]; intros [| k]; simpl;
    try constructor; auto.
  eapply Forall_forall. intros z Hz. eapply Forall_forall; [exact Hy |].
  eapply subseteq_take, Hz.
Qed.

Lemma rank_sorted (limit : Z) l : StronglySorted outranks (rank limit l).
Proof.
  unfold rank. destruct (slice_to_take limit (sort_desc l)) as [k ->].
  apply StronglySorted_take, sort_desc_sorted.
Qed.

Lemma filter_take_prefix (P : scored -> Prop) `{!∀ s, Decision (P s)} k l :
  filter P (take k l) `prefix_of` filter P l.
Proof.
  rewrite <- (take_drop k l) at 2. rewrite filter_app.
  by apply prefix_app_r.
Qed.

(** The entries of one score in the ranking are the first entries of that
    score among the candidates, in their order. *)
Lemma rank_ties (limit : Z) v l :
  filter (tied v) (rank limit l) `prefix_of` filter (tied v) l.
Proof.
  unfold rank. destruct (slice_to_take limit (sort_desc l)) as [k ->].
  rewrite <- (filter_sort_desc v l). apply filter_take_prefix.
Qed.

Lemma rank_ties_sublist (limit : Z) v l (corpus : list value) :
  recipe <$> l `sublist_of` corpus ->
  recipe <$> filter (tied v) (rank limit l) `sublist_of` corpus.
Proof.
  intros H. etrans; [| exact H].
  apply fmap_sublist. etrans; [| apply (sublist_filter (tied v))].
  destruct (rank_ties limit v l) as [rest ->].
  by apply sublist_inserts_r.
Qed.

End Ranking.

(** ** Fractions of set sizes *)

Lemma ratio_Ok (n d : nat) : d ≠ 0%nat -> ratio n d = Ok (Float.quot n d).
Proof. unfold ratio. intros H. by destruct (Nat.eqb_spec d 0). Qed.

Lemma ratio_inv (n d : nat) (q : Q) :
  ratio n d = Ok q -> d ≠ 0%nat ∧ q = Float.quot n d.
Proof.
  unfold ratio. destruct (Nat.eqb_spec d 0); [done |]. by intros [= <-].
Qed.

Lemma fraction_bounds (n d : nat) :
  (n <= d)%nat -> d ≠ 0%nat ->
  (0 <= inject_Z (Z.of_nat n) / inject_Z (Z.of_nat d) <= 1)%Q.
Proof.
  intros Hn Hd.
  assert (Hpos : (0 < inject_Z (Z.of_nat d))%Q).
  { change 0%Q with (inject_Z 0). rewrite <- Zlt_Qlt. lia. }
  split.
  - apply Qle_shift_div_l; [exact Hpos |].
    rewrite Qmult_0_l. change 0%Q with (inject_Z 0). rewrite <- Zle_Qle. lia.
  - apply Qle_shift_div_r; [exact Hpos |].
    rewrite Qmult_1_l. rewrite <- Zle_Qle. lia.
Qed.

Section FloatScores.

Local Open Scope Q_scope.

(** The float quotient of two sizes is the exact one up to [2 ^ -53]. *)
Lemma quot_error (n d : nat) :
  (n <= d)%nat -> d ≠ 0%nat ->
  - (1 # 9007199254740992)
  <= Float.quot n d - inject_Z (Z.of_nat n) / inject_Z (Z.of_nat d)
  <= 1 # 9007199254740992.
Proof.
  intros Hn Hd. pose proof (fraction_bounds n d Hn Hd) as H.
  unfold Float.quot.
  set (u := inject_Z (Z.of_nat n) / inject_Z (Z.of_nat d)) in *.
  clearbody u. apply round_near0. split; lra.
Qed.

Lemma quot_same (n : nat) : n ≠ 0%nat -> Float.quot n n = 1.
Proof.
  intros Hn. unfold Float.quot.
  rewrite (round_comp _ 1); [vm_compute; reflexivity |].
  field. intros H. apply Hn. unfold Qeq in H. simpl in H. lia.
Qed.

(** A score of [SimpleRecipeRecommender] before it is rounded to a tenth,
    against 100 times the exact one. *)
Lemma working_final_error (a b u v : Q) :
  0 <= u <= 1 -> 0 <= v <= 1 ->
  - (1 # 9007199254740992) <= a - u <= 1 # 9007199254740992 ->
  - (1 # 9007199254740992) <= b - v <= 1 # 9007199254740992 ->
  - (1 # 1000000000000)
  <= Float.mul (Working.final_score a b) 100
     - ((6 # 10) * u + (4 # 10) * v) * 100
  <= 1 # 1000000000000.
Proof.
  intros Hu Hv Ha Hb. unfold Working.final_score, Float.mul, Float.add.
  rewrite c06_eq, c04_eq.
  set (c6 := 5404319552844595 # 9007199254740992).
  set (c4 := 3602879701896397 # 9007199254740992).
  assert (H6 : c6 == 5404319552844595 # 9007199254740992) by reflexivity.
  assert (H4 : c4 == 3602879701896397 # 9007199254740992) by reflexivity.
  clearbody c6 c4.
  pose proof (round_near0 (a * c6)) as Hp.
  pose proof (round_near0 (b * c4)) as Hq.
  set (p := Float.round (a * c6)) in *. set (q := Float.round (b * c4)) in *.
  assert (Hp' := Hp ltac:(split; nra)). assert (Hq' := Hq ltac:(split; nra)).
  clear Hp Hq.
  pose proof (round_near1 (p + q)) as Hs. set (s := Float.round (p + q)) in *.
  assert (Hs' := Hs ltac:(split; nra)). clear Hs.
  pose proof (round_near7 (s * 100)) as Ht.
  set (t := Float.round (s * 100)) in *.
  assert (Ht' := Ht ltac:(split; nra)). clear Ht.
  split; nra.
Qed.

(** The reported score against 100 times the exact one. *)
Lemma gated_match_score_error (m r q : nat) :
  (m <= r)%nat -> (m <= q)%nat -> r ≠ 0%nat -> q ≠ 0%nat ->
  - score_tolerance
  <= gated_match_score m r q - spec_gated_final m r q * 100
  <= score_tolerance.
Proof.
  intros Hr Hq Hr0 Hq0. unfold gated_match_score, spec_gated_final.
  pose proof (fraction_bounds m r Hr Hr0) as Hu.
  pose proof (fraction_bounds m q Hq Hq0) as Hv.
  pose proof (working_final_error _ _ _ _ Hu Hv
                (quot_error m r Hr Hr0) (quot_error m q Hq Hq0)) as Ht.
  set (t := Float.mul _ 100) in *.
  pose proof (round1_error t) as Hk.
  unfold score_tolerance. split; lra.
Qed.

Lemma gated_match_score_bounds (m r q : nat) :
  (m <= r)%nat -> (m <= q)%nat -> r ≠ 0%nat -> q ≠ 0%nat ->
  0 <= gated_match_score m r q <= 100.
Proof.
  intros Hr Hq Hr0 Hq0. unfold gated_match_score.
  pose proof (fraction_bounds m r Hr Hr0) as Hu.
  pose proof (fraction_bounds m q Hq Hq0) as Hv.
  pose proof (working_final_error _ _ _ _ Hu Hv
                (quot_error m r Hr Hr0) (quot_error m q Hq Hq0)) as Ht.
  apply round1_into; lra.
Qed.

(** The same for [RecipeRecommendationEngine], whose score NumPy rounds. *)
Lemma engine_match_score_bounds (ml a b : Q) :
  0 <= ml <= 1 ->
  - (1 # 9007199254740992) <= a <= 1 + (1 # 9007199254740992) ->
  - (1 # 9007199254740992) <= b <= 1 + (1 # 9007199254740992) ->
  0 <= Np.round1 (Float.mul (Engine.final_score ml a b) 100) <= 100.
Proof.
  intros Hm Ha Hb.
  unfold Np.round1, Engine.final_score, Float.mul, Float.add.
  rewrite c04_eq, c02_eq.
  set (c4 := 3602879701896397 # 9007199254740992).
  set (c2 := 3602879701896397 # 18014398509481984).
  assert (H4 : c4 == 3602879701896397 # 9007199254740992) by reflexivity.
  assert (H2 : c2 == 3602879701896397 # 18014398509481984) by reflexivity.
  clearbody c4 c2.
  pose proof (round_near0 (ml * c4)) as Hp.
  pose proof (round_near0 (a * c4)) as Hq.
  pose proof (round_near0 (b * c2)) as Hr.
  set (p := Float.round (ml * c4)) in *. set (q := Float.round (a * c4)) in *.
  set (r := Float.round (b * c2)) in *.
  assert (Hp' := Hp ltac:(split; nra)). assert (Hq' := Hq ltac:(split; nra)).
  assert (Hr' := Hr ltac:(split; nra)). clear Hp Hq Hr.
  pose proof (round_near1 (p + q)) as Hs. set (s := Float.round (p + q)) in *.
  assert (Hs' := Hs ltac:(split; nra)). clear Hs.
  pose proof (round_near1 (s + r)) as Hf. set (f := Float.round (s + r)) in *.
  assert (Hf' := Hf ltac:(split; nra)). clear Hf.
  pose proof (round_near7 (f * 100)) as Ht.
  set (t := Float.round (f * 100)) in *.
  assert (Ht' := Ht ltac:(split; nra)). clear Ht.
  pose proof (round_near10 (t * 10)) as Hk.
  set (k := Float.round (t * 10)) in *.
  assert (Hk' := Hk ltac:(split; nra)). clear Hk.
  assert (L : (0 <= Py.round_half_even k)%Z).
  { apply round_half_even_lower. change (inject_Z 0) with 0. nra. }
  assert (U : (Py.round_half_even k <= 1000)%Z).
  { apply round_half_even_upper. change (inject_Z 1000) with 1000. nra. }
  unfold Qle; simpl. lia.
Qed.

End FloatScores.

(** ** The loop body of [SimpleRecipeRecommender.get_recommendations] *)

Ltac case_result :=
  match goal with
  | H : context [mbind _ ?m] |- _ =>
      let E := fresh "E" in destruct m eqn:E; simpl in H; try discriminate
  | H : context [if ?b then _ else _] |- _ =>
      let E := fresh "E" in destruct b eqn:E; simpl in H; try discriminate
  end.

Section WorkingBody.

Import Working.

Variables (query_ingredients : gset string)
          (dietary_restrictions : option (list string))
          (max_cooking_time : option Z)
          (difficulty cuisine_preference : option string).

Abbreviation process := (process_recipe query_ingredients dietary_restrictions
                       max_cooking_time difficulty cuisine_preference).
Abbreviation loop := (score_all query_ingredients dietary_restrictions
                    max_cooking_time difficulty cuisine_preference).

(** What an appended result says about its recipe. *)
Lemma process_recipe_Some (r : value) (s : scored) :
  process r = Ok (Some s) ->
  dietary_excluded dietary_restrictions r = Ok false ∧
  too_long max_cooking_time r = Ok false ∧
  differs "difficulty" difficulty r = Ok false ∧
  differs "cuisine" cuisine_preference r = Ok false ∧
  ∃ R : gset string,
    recipe_ingredient_set r = Ok R ∧
    size R ≠ 0%nat ∧ size query_ingredients ≠ 0%nat ∧
    (0 < size (R ∩ query_ingredients))%nat ∧
    s = {| recipe := r;
           match_score :=
             Py.round1
               (Float.mul
                  (final_score
                     (Float.quot (size (R ∩ query_ingredients)) (size R))
                     (Float.quot (size (query_ingredients ∩ R))
                                 (size query_ingredients))) 100);
           ingredient_match_percentage :=
             Py.round1
               (Float.mul
                  (Float.quot (size (R ∩ query_ingredients)) (size R)) 100);
           missing_ingredients := elements (R ∖ query_ingredients);
           substitution_suggestions :=
             _get_substitutions
               (take 3 (elements (R ∖ query_ingredients))) |}.
Proof.
  unfold process_recipe. intros H.
  repeat case_result.
  repeat match goal with
         | H : ratio _ _ = Ok _ |- _ => apply ratio_inv in H as [? ->]
         | H : Nat.eqb _ _ = false |- _ => apply Nat.eqb_neq in H
         | H : Nat.ltb _ _ = true |- _ => apply Nat.ltb_lt in H
         end.
  injection H as <-. repeat split; try done.
  eexists. repeat split; done.
Qed.

(** Conversely, what happens to a recipe that passes the four filters. *)
Lemma process_recipe_filtered (r : value) (R : gset string) :
  dietary_excluded dietary_restrictions r = Ok false ->
  too_long max_cooking_time r = Ok false ->
  differs "difficulty" difficulty r = Ok false ->
  differs "cuisine" cuisine_preference r = Ok false ->
  recipe_ingredient_set r = Ok R ->
  size query_ingredients ≠ 0%nat ->
  process r =
    if decide (size (R ∩ query_ingredients) = 0%nat) then Ok None
    else Ok (Some
      {| recipe := r;
         match_score :=
           Py.round1
             (Float.mul
                (final_score
                   (Float.quot (size (R ∩ query_ingredients)) (size R))
                   (Float.quot (size (query_ingredients ∩ R))
                               (size query_ingredients))) 100);
         ingredient_match_percentage :=
           Py.round1
             (Float.mul
                (Float.quot (size (R ∩ query_ingredients)) (size R)) 100);
         missing_ingredients := elements (R ∖ query_ingredients);
         substitution_suggestions :=
           _get_substitutions
             (take 3 (elements (R ∖ query_ingredients))) |}).
Proof.
  intros H1 H2 H3 H4 HR Hq. unfold process_recipe.
  rewrite H1; simpl. rewrite H2; simpl. rewrite H3; simpl.
  rewrite H4; simpl. rewrite HR; simpl.
  assert (Hsub : (size (R ∩ query_ingredients) <= size R)%nat).
  { apply subseteq_size, intersection_subseteq_l. }
  destruct (Nat.eqb_spec (size R) 0) as [E0 | NE0].
  - rewrite decide_True by lia. done.
  - rewrite (ratio_Ok _ _ NE0), (ratio_Ok _ _ Hq); simpl.
    destruct (decide (size (R ∩ query_ingredients) = 0%nat)) as [-> | NE];
      [done |].
    destruct (Nat.ltb_spec 0 (size (R ∩ query_ingredients))); [done | lia].
Qed.

(** A recipe passed over, for whatever reason, does not change the list. *)
Lemma score_all_app (pre post : list value) :
  loop (pre ++ post) =
    (a ← loop pre; b ← loop post; mret (a ++ b)%list).
Proof.
  induction pre as [| r pre IH]; simpl.
  - by destruct (loop post).
  - destruct (process r) as [[s |] | e]; simpl.
    + rewrite IH. destruct (loop pre); simpl; [| done].
      by destruct (loop post).
    + exact IH.
    + destruct (Py.get r "name" (VStr "Unknown")); simpl; [exact IH | done].
Qed.

Lemma score_all_sublist (recipes : list value) (recs : list scored) :
  loop recipes = Ok recs -> recipe <$> recs `sublist_of` recipes.
Proof.
  revert recs. induction recipes as [| r recipes IH]; simpl; intros recs H.
  - by injection H as <-.
  - destruct (process r) as [[s |] | e] eqn:E; simpl in H.
    + destruct (loop recipes) as [tl |]; simpl in H; [| done].
      injection H as <-. apply process_recipe_Some in E.
      destruct E as (_ & _ & _ & _ & R & _ & _ & _ & _ & ->). simpl.
      apply sublist_skip. by apply IH.
    + apply sublist_cons. by apply IH.
    + destruct (Py.get r "name" (VStr "Unknown")); simpl in H; [| done].
      apply sublist_cons. by apply IH.
Qed.

Lemma score_all_elem_of (recipes : list value) (recs : list scored) s :
  loop recipes = Ok recs -> s ∈ recs ->
  ∃ r, r ∈ recipes ∧ process r = Ok (Some s).
Proof.
  revert recs. induction recipes as [| r recipes IH]; simpl; intros recs H Hs.
  - injection H as <-. by apply elem_of_nil in Hs.
  - destruct (process r) as [[s' |] | e] eqn:E; simpl in H.
    + destruct (loop recipes) as [tl |]; simpl in H; [| done].
      injection H as <-. apply elem_of_cons in Hs as [-> | Hs].
      * exists r. split; [left | done].
      * destruct (IH tl eq_refl Hs) as (r' & ? & ?).
        exists r'. split; [by right | done].
    + destruct (IH recs H Hs) as (r' & ? & ?).
      exists r'. split; [by right | done].
    + destruct (Py.get r "name" (VStr "Unknown")); simpl in H; [| done].
      destruct (IH recs H Hs) as (r' & ? & ?).
      exists r'. split; [by right | done].
Qed.

(** When no recipe yields a result the loop yields none. *)
Lemma score_all_nil (recipes : list value) (recs : list scored) :
  (∀ r s, r ∈ recipes -> process r ≠ Ok (Some s)) ->
  loop recipes = Ok recs -> recs = [].
Proof.
  intros Hno H. destruct recs as [| s recs]; [done |].
  destruct (score_all_elem_of recipes (s :: recs) s H) as (r & Hr & E);
    [left |].
  by destruct (Hno r s Hr).
Qed.

End WorkingBody.

(** ** [SimpleRecipeRecommender.get_recommendations] as a whole *)

Section WorkingCall.

Import Working.

Lemma rank_nil (limit : Z) : rank limit [] = [].
Proof. unfold rank, Py.slice_to. simpl sort_desc. destruct (0 <=? limit); apply take_nil. Qed.

Lemma query_set_size (ingredients : list string) :
  ingredients ≠ [] -> size (query_set ingredients) ≠ 0%nat.
Proof.
  destruct ingredients as [| x l]; [done |]. intros _ H.
  apply size_empty_inv in H. unfold query_set in H.
  rewrite fmap_cons, list_to_set_cons in H. set_solver.
Qed.

(** The call unfolded: the empty list, or the ranking of what the loop
    collected. *)
Lemma get_recommendations_cases recipes ingredients dr mct df cp limit :
  get_recommendations recipes ingredients dr mct df cp limit = [] ∨
  ingredients ≠ [] ∧
  ∃ recs, score_all (query_set ingredients) dr mct df cp recipes = Ok recs
          ∧ get_recommendations recipes ingredients dr mct df cp limit
            = rank limit recs.
Proof.
  unfold get_recommendations. destruct ingredients as [| x l]; [by left |].
  destruct (score_all _ _ _ _ _ _) as [recs | e]; [| by left].
  right. split; [done |]. by exists recs.
Qed.

Lemma get_recommendations_elem_of recipes ingredients dr mct df cp limit s :
  s ∈ get_recommendations recipes ingredients dr mct df cp limit ->
  ingredients ≠ [] ∧
  ∃ r, r ∈ recipes ∧
       process_recipe (query_set ingredients) dr mct df cp r = Ok (Some s).
Proof.
  intros Hs.
  destruct (get_recommendations_cases recipes ingredients dr mct df cp limit)
    as [E | (Hne & recs & Hloop & E)]; rewrite E in Hs.
  - by apply elem_of_nil in Hs.
  - split; [done |]. apply rank_subseteq in Hs.
    by eapply score_all_elem_of.
Qed.

End WorkingCall.

(** ** The loop of [RecipeRecommendationEngine.get_recommendations] *)

Section EngineBody.

Import Engine.

Context {V : Vectorizer}.

Variables (self : engine) (sims : list Q) (ingredients : list string)
          (max_cooking_time : option Z)
          (difficulty cuisine_preference : option string).

Abbreviation eprocess := (process_recipe self sims ingredients
                            max_cooking_time difficulty cuisine_preference).
Abbreviation eloop := (score_all self sims ingredients
                         max_cooking_time difficulty cuisine_preference).

Lemma engine_process_Some (r : value) (s : scored) :
  eprocess r = Ok (Some s) ->
  too_long max_cooking_time r = Ok false ∧
  differs "difficulty" difficulty r = Ok false ∧
  differs "cuisine" cuisine_preference r = Ok false ∧
  ∃ (R : gset string) (ml_score : Q),
    recipe_ingredient_set r = Ok R ∧
    ml_score ∈ sims ∧
    s = {| recipe := r;
           match_score :=
             Np.round1
               (Float.mul
                  (final_score ml_score
                     (ratio_or_zero (size (R ∩ query_set ingredients)) R)
                     (ratio_or_zero (size (query_set ingredients ∩ R))
                                    (query_set ingredients))) 100);
           ingredient_match_percentage :=
             Py.round1
               (Float.mul
                  (ratio_or_zero (size (R ∩ query_set ingredients)) R) 100);
           missing_ingredients := elements (R ∖ query_set ingredients);
           substitution_suggestions :=
             suggestions_for (elements (R ∖ query_set ingredients)) |}.
Proof.
  unfold process_recipe. intros H.
  destruct (original_index _ _ _) as [[idx |] | e]; simpl in H; try done.
  repeat case_result.
  destruct (sims !! idx) as [ml |] eqn:Eml; [| done].
  injection H as <-. repeat split; try done.
  exists a2, ml. repeat split; try done.
  by eapply list_elem_of_lookup_2.
Qed.

Lemma engine_score_all_sublist (candidates : list value) recs :
  eloop candidates = Ok recs -> recipe <$> recs `sublist_of` candidates.
Proof.
  revert recs. induction candidates as [| r cs IH]; simpl; intros recs H.
  - by injection H as <-.
  - destruct (eprocess r) as [o | e] eqn:E; simpl in H; [| done].
    destruct (eloop cs) as [tl |]; simpl in H; [| done].
    injection H as <-. destruct o as [s |].
    + apply engine_process_Some in E.
      destruct E as (_ & _ & _ & R & ml & _ & _ & ->). simpl.
      apply sublist_skip. by apply IH.
    + apply sublist_cons. by apply IH.
Qed.

Lemma engine_score_all_elem_of (candidates : list value) recs s :
  eloop candidates = Ok recs -> s ∈ recs ->
  ∃ r, r ∈ candidates ∧ eprocess r = Ok (Some s).
Proof.
  revert recs. induction candidates as [| r cs IH]; simpl; intros recs H Hs.
  - injection H as <-. by apply elem_of_nil in Hs.
  - destruct (eprocess r) as [o | e] eqn:E; simpl in H; [| done].
    destruct (eloop cs) as [tl |]; simpl in H; [| done].
    injection H as <-. destruct o as [s' |].
    + apply elem_of_cons in Hs as [-> | Hs].
      * exists r. split; [left | done].
      * destruct (IH tl eq_refl Hs) as (r' & ? & ?).
        exists r'. split; [by right | done].
    + destruct (IH tl eq_refl Hs) as (r' & ? & ?).
      exists r'. split; [by right | done].
Qed.

End EngineBody.

Section EngineFilter.

Import Engine.

Lemma filter_loop_sublist (recipes : list value) restrictions filtered :
  filter_loop recipes restrictions = Ok filtered ->
  filtered `sublist_of` recipes.
Proof.
  revert filtered. induction recipes as [| r rs IH]; simpl; intros f H.
  - by injection H as <-.
  - destruct (violates_any r restrictions) as [b |]; simpl in H; [| done].
    destruct (filter_loop rs restrictions) as [f' |]; simpl in H; [| done].
    injection H as <-. destruct b.
    + apply sublist_cons. by apply IH.
    + apply sublist_skip. by apply IH.
Qed.

Lemma filter_by_dietary_restrictions_sublist recipes restrictions filtered :
  filter_by_dietary_restrictions recipes restrictions = Ok filtered ->
  filtered `sublist_of` recipes.
Proof.
  destruct restrictions as [| x l]; simpl.
  - by intros [= <-].
  - apply filter_loop_sublist.
Qed.

End EngineFilter.

(** ** The scenarios of the specification, run on the embedding *)

Section Scenarios.

Import Sample.

Example scenario_vegetarian :
  Working.get_recommendations [chicken_rice; tofu_rice] ["rice"; "garlic"]
    (Some ["vegetarian"]) None None None 10
  = [ {| recipe := tofu_rice;
         match_score := 800 # 10;
         ingredient_match_percentage := 667 # 10;
         missing_ingredients := ["tofu"];
         substitution_suggestions := [] |} ].
Proof. vm_compute. reflexivity. Qed.

Example scenario_unknown_ingredient :
  Working.get_recommendations [chicken_rice; tofu_rice]
    ["nonexistent_ingredient"] None None None None 10 = [].
Proof. vm_compute. reflexivity. Qed.

Example scenario_max_cooking_time :
  Working.get_recommendations [chicken_rice; tofu_rice] ["rice"; "garlic"]
    None (Some 10) None None 10 = [].
Proof. vm_compute. reflexivity. Qed.

(** two recipes with the same score stay in the order of the corpus *)
Example scenario_tie :
  recipe <$> Working.get_recommendations [tofu_rice; chicken_rice]
               ["rice"; "garlic"] None None None None 10
  = [tofu_rice; chicken_rice] ∧
  recipe <$> Working.get_recommendations [chicken_rice; tofu_rice]
               ["rice"; "garlic"] None None None None 10
  = [chicken_rice; tofu_rice] ∧
  match_score <$> Working.get_recommendations [chicken_rice; tofu_rice]
                    ["rice"; "garlic"] None None None None 10
  = [(800 # 10)%Q; (800 # 10)%Q].
Proof. repeat split; vm_compute; reflexivity. Qed.

End Scenarios.

(** * The claims *)

(** C1 (as amended).  [SimpleRecipeRecommender.get_recommendations] returns
    the empty list, as a normal return value, for every query whose
    ingredient list is empty, whatever the corpus, the filters and the
    limit.  [RecipeRecommendationEngine.get_recommendations] does so when
    its corpus is empty. *)
Theorem C1_empty_query :
  (∀ recipes dr mct df cp limit,
     Working.get_recommendations recipes [] dr mct df cp limit = []) ∧
  (∀ (V : Vectorizer) vectors dr mct df cp limit,
     Engine.get_recommendations
       {| Engine.recipes := []; Engine.recipe_vectors := vectors |}
       [] dr mct df cp limit = Ok []).
Proof. split; reflexivity. Qed.

(** C1 as stated fails for [RecipeRecommendationEngine]: it has no guard on
    the ingredient list, and with an empty query it still scores the one
    recipe of this corpus and returns it, with score 0. *)
Lemma C1_engine_scores_empty_query :
  Engine.new (V := stub_vectorizer [0%Q]) [Sample.plain_rice]
    = Ok (Sample.engine_of [0%Q] [Sample.plain_rice]) ∧
  Engine.get_recommendations (Sample.engine_of [0%Q] [Sample.plain_rice])
    [] None None None None 10
    = Ok [ {| recipe := Sample.plain_rice;
              match_score := 0 # 10;
              ingredient_match_percentage := 0 # 10;
              missing_ingredients := ["rice"];
              substitution_suggestions := [] |} ].
Proof. split; vm_compute; reflexivity. Qed.

(** ** C2: the direct-match-gated score *)

Lemma uses_ingredient_false (name : string) (r : value) (R : gset string) :
  uses_ingredient name r = false ->
  Working.recipe_ingredient_set r = Ok R -> name ∉ R.
Proof.
  unfold uses_ingredient. intros H HR. rewrite HR in H.
  by apply bool_decide_eq_false in H.
Qed.

(** The score of an entry, by the sizes of the two sets. *)
Lemma working_score_sizes (R Qs : gset string) :
  size R ≠ 0%nat -> size Qs ≠ 0%nat ->
  Py.round1
    (Float.mul
       (Working.final_score (Float.quot (size (R ∩ Qs)) (size R))
                            (Float.quot (size (Qs ∩ R)) (size Qs))) 100)
  = gated_match_score (size (R ∩ Qs)) (size R) (size Qs) ∧
  (- score_tolerance
   <= gated_match_score (size (R ∩ Qs)) (size R) (size Qs)
      - spec_gated_final (size (R ∩ Qs)) (size R) (size Qs) * 100
   <= score_tolerance)%Q.
Proof.
  intros HR HQ. rewrite (intersection_comm_L Qs R). split; [done |].
  apply gated_match_score_error; try done.
  - apply subseteq_size, intersection_subseteq_l.
  - apply subseteq_size, intersection_subseteq_r.
Qed.

(** C2 as stated fails where the floats break a tie.  With the three
    ingredients of the recipe among the 32 of the query, 100 times the
    exact score is 63.75, which rounds to 63.8; the source computes
    63.74999999999999 and reports 63.7.  With 7 direct matches, 16 recipe
    ingredients and 7 query ingredients the exact 66.25 is reported as
    66.3: no one way of rounding the exact score gives both. *)
Lemma C2_float_score_differs :
  Working.recipe_ingredient_set Sample.omelette
    = Ok (list_to_set ["eggs"; "butter"; "cheese"]) ∧
  size (Working.query_set Sample.pantry) = 32%nat ∧
  (spec_gated_final 3 3 32 * 100 == 6375 # 100)%Q ∧
  Py.round1 (spec_gated_final 3 3 32 * 100) = 638 # 10 ∧
  match_score <$> Working.get_recommendations [Sample.omelette] Sample.pantry
                    None None None None 10 = [637 # 10] ∧
  (spec_gated_final 7 16 7 * 100 == 6625 # 100)%Q ∧
  gated_match_score 7 16 7 = 663 # 10.
Proof. repeat split; vm_compute; reflexivity. Qed.

(** C2 (as amended).  Under the direct-match-gated policy of
    [SimpleRecipeRecommender]:
    - every returned entry comes from a recipe of the corpus that shares at
      least one ingredient with the query; its [match_score] is what the
      source computes on floats,
      [round(((m / r) * 0.6 + (m / q) * 0.4) * 100, 1)]
      for [m] direct matches, [r] recipe ingredients and [q] query
      ingredients over the lower-cased, trimmed sets, and it lies within
      0.05 + 10^-12 of 100 times
      0.6 * (direct matches / recipe ingredients)
      + 0.4 * (direct matches / query ingredients);
    - a recipe that passes the filters and has a non-empty ingredient set
      gets exactly that score when it has a direct match and is left out
      when it has none;
    - a query made of one ingredient that occurs in no recipe yields the
      empty list. *)
Theorem C2_gated_scoring recipes ingredients dr mct df cp limit :
  (∀ s, s ∈ Working.get_recommendations recipes ingredients dr mct df cp limit ->
     recipe s ∈ recipes ∧
     ∃ R : gset string,
       Working.recipe_ingredient_set (recipe s) = Ok R ∧
       (0 < size (R ∩ Working.query_set ingredients))%nat ∧
       match_score s =
         gated_match_score (size (R ∩ Working.query_set ingredients))
           (size R) (size (Working.query_set ingredients)) ∧
       (- score_tolerance
        <= match_score s
           - spec_gated_final (size (R ∩ Working.query_set ingredients))
               (size R) (size (Working.query_set ingredients)) * 100
        <= score_tolerance)%Q) ∧
  (∀ r (R : gset string),
     ingredients ≠ [] ->
     Working.dietary_excluded dr r = Ok false ->
     Working.too_long mct r = Ok false ->
     Working.differs "difficulty" df r = Ok false ->
     Working.differs "cuisine" cp r = Ok false ->
     Working.recipe_ingredient_set r = Ok R ->
     R ≠ ∅ ->
     (size (R ∩ Working.query_set ingredients) = 0%nat ->
      Working.process_recipe (Working.query_set ingredients) dr mct df cp r
        = Ok None) ∧
     (size (R ∩ Working.query_set ingredients) ≠ 0%nat ->
      ∃ s, Working.process_recipe (Working.query_set ingredients)
             dr mct df cp r = Ok (Some s) ∧
           recipe s = r ∧
           match_score s =
             gated_match_score (size (R ∩ Working.query_set ingredients))
               (size R) (size (Working.query_set ingredients)) ∧
           (- score_tolerance
            <= match_score s
               - spec_gated_final (size (R ∩ Working.query_set ingredients))
                   (size R) (size (Working.query_set ingredients)) * 100
            <= score_tolerance)%Q)) ∧
  (∀ x,
     ingredients = [x] ->
     (∀ r (R : gset string),
        r ∈ recipes -> Working.recipe_ingredient_set r = Ok R ->
        Str.strip (Str.lower x) ∉ R) ->
     Working.get_recommendations recipes ingredients dr mct df cp limit = []).
Proof.
  split; [| split].
  - intros s Hs.
    apply get_recommendations_elem_of in Hs as (Hne & r & Hr & Hp).
    apply process_recipe_Some in Hp
      as (_ & _ & _ & _ & R & HR & HRn & HQn & Hm & ->); simpl.
    split; [done |]. exists R.
    destruct (working_score_sizes R _ HRn HQn) as [-> Herr]. done.
  - intros r R Hne H1 H2 H3 H4 HR HRne.
    pose proof (query_set_size ingredients Hne) as Hq.
    rewrite (process_recipe_filtered _ _ _ _ _ r R H1 H2 H3 H4 HR Hq).
    split; intros Hm.
    + by rewrite decide_True.
    + rewrite decide_False by done. eexists. split; [done |]. simpl.
      split; [done |].
      assert (HRn : size R ≠ 0%nat).
      { intros E. by apply size_empty_inv, leibniz_equiv in E. }
      destruct (working_score_sizes R _ HRn Hq) as [-> Herr]. done.
  - intros x -> Hx.
    destruct (get_recommendations_cases recipes [x] dr mct df cp limit)
      as [E | (_ & recs & Hloop & E)]; [done |].
    rewrite E. enough (recs = []) as -> by apply rank_nil.
    eapply score_all_nil; [| exact Hloop].
    intros r s Hr Hp.
    apply process_recipe_Some in Hp
      as (_ & _ & _ & _ & R & HR & _ & _ & Hm & _).
    assert (HE : R ∩ Working.query_set [x] = ∅).
    { apply elem_of_equiv_empty_L. intros y Hy.
      apply elem_of_intersection in Hy as [HyR Hyq].
      unfold Working.query_set in Hyq.
      rewrite elem_of_list_to_set, fmap_cons, fmap_nil in Hyq.
      apply list_elem_of_singleton in Hyq as ->.
      exact (Hx r R Hr HR HyR). }
    rewrite HE, size_empty in Hm. lia.
Qed.

(** C2 on a corpus of two recipes: the score of the first entry, and a
    query for an ingredient no recipe has. *)
Lemma C2_gated_scoring_witness :
  (∃ s, s ∈ Working.get_recommendations
              [Sample.fried_rice; Sample.tofu_bowl] ["rice"; " GARLIC"]
              None None None None 10 ∧
        recipe s = Sample.fried_rice ∧
        match_score s = gated_match_score 2 3 2 ∧
        (- score_tolerance
         <= match_score s - spec_gated_final 2 3 2 * 100
         <= score_tolerance)%Q) ∧
  Working.get_recommendations [Sample.fried_rice; Sample.tofu_bowl] ["saffron"]
    None None None None 10 = [].
Proof.
  split.
  - destruct (C2_gated_scoring [Sample.fried_rice; Sample.tofu_bowl]
                ["rice"; " GARLIC"] None None None None 10) as (H & _ & _).
    assert (E : ∃ s l, Working.get_recommendations
                         [Sample.fried_rice; Sample.tofu_bowl]
                         ["rice"; " GARLIC"] None None None None 10 = s :: l
                       ∧ recipe s = Sample.fried_rice).
    { eexists _, _. split; vm_compute; reflexivity. }
    destruct E as (s & l & E & Hs). exists s.
    assert (Hin : s ∈ Working.get_recommendations
                        [Sample.fried_rice; Sample.tofu_bowl]
                        ["rice"; " GARLIC"] None None None None 10).
    { rewrite E. left. }
    split; [exact Hin |]. split; [exact Hs |].
    destruct (H s Hin) as (_ & R & HR & _ & Hscore & Herr).
    rewrite Hs in HR.
    assert (HR' : Working.recipe_ingredient_set Sample.fried_rice
                  = Ok (list_to_set ["rice"; "eggs"; "garlic"])).
    { vm_compute. reflexivity. }
    assert (ER : R = list_to_set ["rice"; "eggs"; "garlic"]).
    { rewrite HR' in HR. congruence. }
    subst R.
    assert (E1 : size (list_to_set ["rice"; "eggs"; "garlic"]
                       ∩ Working.query_set ["rice"; " GARLIC"]) = 2%nat).
    { vm_compute. reflexivity. }
    assert (E2 : size (list_to_set ["rice"; "eggs"; "garlic"] : gset string)
                 = 3%nat).
    { vm_compute. reflexivity. }
    assert (E3 : size (Working.query_set ["rice"; " GARLIC"]) = 2%nat).
    { vm_compute. reflexivity. }
    rewrite E1, E2, E3 in Hscore, Herr.
    split; [exact Hscore | exact Herr].
  - destruct (C2_gated_scoring [Sample.fried_rice; Sample.tofu_bowl]
                ["saffron"] None None None None 10) as (_ & _ & H).
    apply (H "saffron" eq_refl). intros r R Hr HR.
    apply (uses_ingredient_false _ r R); [| exact HR].
    apply elem_of_cons in Hr as [-> | Hr]; [vm_compute; reflexivity |].
    apply elem_of_cons in Hr as [-> | Hr]; [vm_compute; reflexivity |].
    apply elem_of_nil in Hr. destruct Hr.
Defined.

(** ** C3: the ranking contract *)

Section RankingContract.

Lemma StronglySorted_lookup (l : list scored) (i j : nat) a b :
  StronglySorted outranks l -> (i <= j)%nat ->
  l !! i = Some a -> l !! j = Some b -> outranks a b.
Proof.
  intros Hs. revert i j. induction Hs as [| x l Hl IH Hx]; intros i j Hij Ha Hb.
  - by rewrite lookup_nil in Ha.
  - destruct i as [| i], j as [| j]; simpl in *.
    + injection Ha as <-. injection Hb as <-. apply Qle_refl.
    + injection Ha as <-.
      eapply Forall_forall; [exact Hx |]. by eapply list_elem_of_lookup_2.
    + lia.
    + apply (IH i j); [lia | done | done].
Qed.

Lemma ranking_ok_nil corpus (limit : Z) : 0 <= limit -> ranking_ok corpus limit [].
Proof.
  intros H. split; [| split; [| split]]; simpl; [lia | constructor | | ].
  - intros i j a b _ Ha. by rewrite lookup_nil in Ha.
  - intros v. apply sublist_nil_l.
Qed.

Lemma ranking_ok_rank corpus (limit : Z) (recs : list scored) :
  0 <= limit ->
  recipe <$> recs `sublist_of` corpus ->
  Forall (fun s => (0 <= match_score s <= 100)%Q) recs ->
  ranking_ok corpus limit (rank limit recs).
Proof.
  intros Hl Hsub Hb. split; [| split; [| split]].
  - by apply rank_length.
  - rewrite Forall_forall in Hb. apply Forall_forall. intros s Hs.
    apply Hb. by eapply rank_subseteq.
  - intros i j a b. apply StronglySorted_lookup, rank_sorted.
  - intros v. by apply rank_ties_sublist.
Qed.

Lemma ratio_or_zero_bounds (A B : gset string) :
  (- (1 # 9007199254740992) <= Engine.ratio_or_zero (size (A ∩ B)) A
   <= 1 + (1 # 9007199254740992))%Q.
Proof.
  unfold Engine.ratio_or_zero. destruct (Nat.eqb_spec (size A) 0) as [E | NE].
  - split; discriminate.
  - assert (Hle : (size (A ∩ B) <= size A)%nat)
      by apply subseteq_size, intersection_subseteq_l.
    pose proof (quot_error _ _ Hle NE) as He.
    pose proof (fraction_bounds _ _ Hle NE) as Hb.
    set (u := (inject_Z _ / inject_Z _)%Q) in *. clearbody u.
    split; lra.
Qed.

Lemma working_scores_bounded recipes ingredients dr mct df cp recs :
  Working.score_all (Working.query_set ingredients) dr mct df cp recipes
    = Ok recs ->
  Forall (fun s => (0 <= match_score s <= 100)%Q) recs.
Proof.
  intros H. apply Forall_forall. intros s Hs.
  destruct (score_all_elem_of _ _ _ _ _ _ _ _ H Hs) as (r & _ & Hp).
  apply process_recipe_Some in Hp
    as (_ & _ & _ & _ & R & _ & HR & HQ & _ & ->); simpl.
  destruct (working_score_sizes R _ HR HQ) as [-> _].
  apply gated_match_score_bounds; try done.
  - apply subseteq_size, intersection_subseteq_l.
  - apply subseteq_size, intersection_subseteq_r.
Qed.

End RankingContract.

Lemma engine_scores_bounded {V : Vectorizer} (self : Engine.engine)
    sims ingredients mct df cp candidates recs :
  Forall (fun x => (0 <= x <= 1)%Q) sims ->
  Engine.score_all self sims ingredients mct df cp candidates = Ok recs ->
  Forall (fun s => (0 <= match_score s <= 100)%Q) recs.
Proof.
  intros Hsims H. rewrite Forall_forall in Hsims.
  apply Forall_forall. intros s Hs.
  destruct (engine_score_all_elem_of _ _ _ _ _ _ _ _ _ H Hs) as (r & _ & Hp).
  apply engine_process_Some in Hp as (_ & _ & _ & R & ml & _ & Hml & ->).
  simpl. apply engine_match_score_bounds.
  - by apply Hsims.
  - apply ratio_or_zero_bounds.
  - apply ratio_or_zero_bounds.
Qed.

(** C3.  For every query with a limit that is not negative, in both
    engines: the returned list has at most [limit] entries, every
    [match_score] lies between 0 and 100, the scores never increase along
    the list, and the entries of any one score are in the order of the
    corpus.  (For [RecipeRecommendationEngine] the similarities of the
    lexical index are taken to lie in [0, 1], and the list is the one the
    call returns.) *)
Theorem C3_ranking_contract (limit : Z) :
  0 <= limit ->
  (∀ recipes ingredients dr mct df cp,
     ranking_ok recipes limit
       (Working.get_recommendations recipes ingredients dr mct df cp limit)) ∧
  (∀ (V : Vectorizer) (self : Engine.engine) ingredients dr mct df cp res,
     cosine_bounded V ->
     Engine.get_recommendations self ingredients dr mct df cp limit = Ok res ->
     ranking_ok (Engine.recipes self) limit res).
Proof.
  intros Hl. split.
  - intros recipes ingredients dr mct df cp.
    destruct (get_recommendations_cases recipes ingredients dr mct df cp limit)
      as [-> | (_ & recs & Hloop & ->)]; [by apply ranking_ok_nil |].
    apply ranking_ok_rank; [done | |].
    + by eapply score_all_sublist.
    + by eapply working_scores_bounded.
  - intros V self ingredients dr mct df cp res HV H.
    unfold Engine.get_recommendations in H.
    destruct (Engine.recipes self) as [| r0 rs] eqn:Hrs;
      [injection H as <-; by apply ranking_ok_nil |].
    destruct (Engine.recipe_vectors self) as [m |];
      [| injection H as <-; by apply ranking_ok_nil].
    destruct (matrix_bool m) as [[] |]; simpl in H;
      [| injection H as <-; by apply ranking_ok_nil | done].
    destruct (similarities m _) as [sims |] eqn:Hsims; simpl in H; [| done].
    apply HV in Hsims.
    match type of H with
    | context [mbind _ ?c] => destruct c as [candidates |] eqn:Hc
    end; simpl in H; [| done].
    destruct (Engine.score_all _ _ _ _ _ _ _) as [recs |] eqn:Hloop;
      simpl in H; [| done].
    injection H as <-.
    apply ranking_ok_rank; [done | |].
    + etrans; [by eapply engine_score_all_sublist |].
      destruct dr as [[| x l] |]; try (by injection Hc as <-).
      change (Engine.filter_loop (r0 :: rs) (x :: l) = Ok candidates) in Hc.
      by eapply filter_loop_sublist.
    + by eapply engine_scores_bounded.
Qed.

(** C3 at limit 1, on a corpus of two recipes for the first engine and of
    one recipe for the second. *)
Lemma C3_ranking_contract_witness :
  0 <= 1 ∧
  ranking_ok [Sample.fried_rice; Sample.tofu_bowl] 1
    (Working.get_recommendations [Sample.fried_rice; Sample.tofu_bowl]
       ["rice"] None None None None 1) ∧
  cosine_bounded (stub_vectorizer [1%Q]) ∧
  ∃ res,
    Engine.get_recommendations (Sample.engine_of [1%Q] [Sample.plain_rice])
      ["rice"] None None None None 1 = Ok res ∧
    ranking_ok [Sample.plain_rice] 1 res.
Proof.
  assert (H01 : 0 <= 1) by lia.
  assert (HV : cosine_bounded (stub_vectorizer [1%Q])).
  { intros m q sims [= <-]. repeat constructor; discriminate. }
  destruct (C3_ranking_contract 1 H01) as [HW HE].
  split; [exact H01 |]. split; [apply HW |]. split; [exact HV |].
  eexists. split; [vm_compute; reflexivity |].
  refine (HE (stub_vectorizer [1%Q])
             (Sample.engine_of [1%Q] [Sample.plain_rice])
             ["rice"] None None None None _ HV _).
  vm_compute. reflexivity.
Defined.

(** ** C4: the spelling of restriction names *)

(** C4 as stated fails in both engines: each knows one spelling only.  In
    [SimpleRecipeRecommender] a recipe without the [gluten_free] flag is
    excluded by [gluten-free] and kept by [gluten_free]; in
    [RecipeRecommendationEngine] a recipe tagged [contains_gluten] is
    dropped by [gluten_free] and kept by [gluten-free]. *)
Lemma C4_spellings_differ :
  Working.dietary_excluded (Some ["gluten-free"]) Sample.fried_rice = Ok true ∧
  Working.dietary_excluded (Some ["gluten_free"]) Sample.fried_rice = Ok false ∧
  Engine.filter_by_dietary_restrictions [Sample.pasta] ["gluten_free"] = Ok [] ∧
  Engine.filter_by_dietary_restrictions [Sample.pasta] ["gluten-free"]
    = Ok [Sample.pasta].
Proof. repeat split; vm_compute; reflexivity. Qed.

(** C4 (as amended).  Each engine accepts one spelling of the two
    restriction names.  [SimpleRecipeRecommender] knows [gluten-free] and
    [dairy-free]: such a restriction fails a recipe exactly when its
    [gluten_free] (respectively [dairy_free]) flag is absent or falsy; the
    underscore spellings are unknown names there and exclude nothing.
    [RecipeRecommendationEngine] knows [gluten_free] and [dairy_free]: such
    a restriction is violated exactly when [dietary_info] holds
    [contains_gluten] (respectively [contains_dairy]); the hyphen spellings
    are unknown names there and exclude nothing. *)
Theorem C4_one_spelling_each :
  (∀ d rest,
     Working._matches_dietary_restrictions (VDict d) ("gluten-free" :: rest)
       = (if Py.truthy (flag d "gluten_free")
          then Working._matches_dietary_restrictions (VDict d) rest
          else Ok false) ∧
     Working._matches_dietary_restrictions (VDict d) ("dairy-free" :: rest)
       = (if Py.truthy (flag d "dairy_free")
          then Working._matches_dietary_restrictions (VDict d) rest
          else Ok false)) ∧
  (∀ recipe_dietary rest,
     Working._matches_dietary_restrictions recipe_dietary
       ("gluten_free" :: rest)
       = Working._matches_dietary_restrictions recipe_dietary rest ∧
     Working._matches_dietary_restrictions recipe_dietary
       ("dairy_free" :: rest)
       = Working._matches_dietary_restrictions recipe_dietary rest) ∧
  (∀ recipe dietary_info,
     Engine.violates recipe dietary_info "gluten_free"
       = Engine.str_in "contains_gluten" dietary_info ∧
     Engine.violates recipe dietary_info "dairy_free"
       = Engine.str_in "contains_dairy" dietary_info ∧
     Engine.violates recipe dietary_info "gluten-free" = Ok false ∧
     Engine.violates recipe dietary_info "dairy-free" = Ok false).
Proof.
  split; [| split].
  - intros d rest. unfold flag. split; simpl;
      destruct (Py.truthy _); reflexivity.
  - intros rd rest. split; reflexivity.
  - intros r di. split; [| split; [| split]]; try reflexivity.
    unfold Engine.violates; simpl.
    by destruct (Engine.str_in "contains_gluten" di) as [[] |].
Qed.

(** ** C5: the substitution lookup *)

Section Substrings.

Lemma append_cons (c : ascii) (a b : string) :
  String.append (String c a) b = String c (String.append a b).
Proof. reflexivity. Qed.

Lemma prefix_app (a b : string) :
  String.prefix a b = true ↔ ∃ post, b = String.append a post.
Proof.
  revert b. induction a as [| c a IH]; intros b.
  - split; [intros _; by exists b | intros _; by destruct b].
  - destruct b as [| c' b]; simpl.
    + split; [intros H; discriminate H | intros [? H]; discriminate H].
    + destruct (ascii_dec c c') as [-> | NE].
      * rewrite IH. split; intros [post E]; exists post.
        -- by rewrite E.
        -- rewrite append_cons in E. congruence.
      * split; [intros H; discriminate H |].
        intros [post E]. rewrite append_cons in E. congruence.
Qed.

Lemma contains_unfold (sub s : string) :
  Str.contains sub s =
    if String.prefix sub s then true
    else match s with
         | EmptyString => false
         | String _ s' => Str.contains sub s'
         end.
Proof. by destruct s. Qed.

Lemma contains_app (sub s : string) :
  Str.contains sub s = true ↔
  ∃ pre post, s = String.append pre (String.append sub post).
Proof.
  split.
  - induction s as [| c s IH]; rewrite contains_unfold;
      destruct (String.prefix sub _) eqn:E; try done.
    + intros _. apply prefix_app in E as [post E]. by exists "", post.
    + intros _. apply prefix_app in E as [post E]. by exists "", post.
    + intros H. destruct (IH H) as (pre & post & ->).
      by exists (String c pre), post.
  - intros (pre & post & ->). induction pre as [| c pre IH].
    + change (String.append "" (String.append sub post))
        with (String.append sub post).
      rewrite contains_unfold.
      assert (E : String.prefix sub (String.append sub post) = true)
        by (apply prefix_app; eauto).
      by rewrite E.
    + rewrite append_cons, contains_unfold. by destruct (String.prefix _ _).
Qed.

Lemma ci_substring_contains (sub s : string) :
  spec_ci_substring sub s ↔ Str.contains (Str.lower sub) (Str.lower s) = true.
Proof. unfold spec_ci_substring. by rewrite contains_app. Qed.

Lemma key_matches_spec (key x : string) :
  Str.lower key = key ->
  Engine.key_matches key (Str.lower x) = true ↔ spec_key_matches key x.
Proof.
  intros Hk. unfold Engine.key_matches, spec_key_matches.
  rewrite orb_true_iff, !ci_substring_contains, Hk. done.
Qed.

End Substrings.

Section Lookup.

Implicit Types (table pre post : list (string * list string)).

Lemma lookup_substitutes_first il pre key subs post :
  Engine.key_matches key il = true ->
  (∀ k s, (k, s) ∈ pre -> Engine.key_matches k il = false) ->
  Engine.lookup_substitutes il (pre ++ (key, subs) :: post)%list = subs.
Proof.
  intros Hk. induction pre as [| [k s] pre IH]; intros Hpre; simpl.
  - by rewrite Hk.
  - rewrite (Hpre k s) by left. apply IH.
    intros k' s' H. apply (Hpre k' s'). by right.
Qed.

Lemma lookup_substitutes_none il table :
  (∀ k s, (k, s) ∈ table -> Engine.key_matches k il = false) ->
  Engine.lookup_substitutes il table = [].
Proof.
  induction table as [| [k s] table IH]; intros H; simpl; [done |].
  rewrite (H k s) by left. apply IH.
  intros k' s' H'. apply (H k' s'). by right.
Qed.

Lemma first_key_in_first il pre key subs post :
  Str.contains key il = true ->
  (∀ k s, (k, s) ∈ pre -> Str.contains k il = false) ->
  Working.first_key_in il (pre ++ (key, subs) :: post)%list = Some (take 2 subs).
Proof.
  intros Hk. induction pre as [| [k s] pre IH]; intros Hpre; simpl.
  - by rewrite Hk.
  - rewrite (Hpre k s) by left. apply IH.
    intros k' s' H. apply (Hpre k' s'). by right.
Qed.

Lemma first_key_in_none il table :
  (∀ k s, (k, s) ∈ table -> Str.contains k il = false) ->
  Working.first_key_in il table = None.
Proof.
  induction table as [| [k s] table IH]; intros H; simpl; [done |].
  rewrite (H k s) by left. apply IH.
  intros k' s' H'. apply (H k' s'). by right.
Qed.

Lemma table_keys_lower (table : list (string * list string)) k s :
  forallb (fun e => String.eqb (Str.lower (fst e)) (fst e)) table = true ->
  (k, s) ∈ table -> Str.lower k = k.
Proof.
  intros H Hin. rewrite forallb_forall in H.
  apply list_elem_of_In in Hin. apply H in Hin. by apply String.eqb_eq in Hin.
Qed.

End Lookup.

(** C5 as stated fails for [SimpleRecipeRecommender._get_substitutions]:
    the name [egg] is contained in the key [eggs], yet the lookup suggests
    nothing, because it only tests whether a key occurs in the name. *)
Lemma C5_working_one_direction :
  spec_key_matches "eggs" "egg" ∧ Working._get_substitutions ["egg"] = [].
Proof.
  split; [| reflexivity]. right. by exists "", "s".
Qed.

(** C5 (as amended).  [RecipeRecommendationEngine.get_ingredient_substitutions]
    returns, for every ingredient name, the substitute list of the first
    table entry whose key matches the name by case-insensitive containment
    in either direction, and the empty list when no key matches in either
    direction.  [SimpleRecipeRecommender._get_substitutions] looks in one
    direction: it suggests the first two substitutes of the first entry
    whose key is contained in the name, and nothing when no key is. *)
Theorem C5_substitution_lookup (x : string) :
  (∀ pre key subs post,
     Engine.ingredient_substitutions = (pre ++ (key, subs) :: post)%list ->
     spec_key_matches key x ->
     (∀ k s, (k, s) ∈ pre -> ¬ spec_key_matches k x) ->
     Engine.get_ingredient_substitutions x = subs) ∧
  ((∀ k s, (k, s) ∈ Engine.ingredient_substitutions ->
           ¬ spec_key_matches k x) ->
   Engine.get_ingredient_substitutions x = []) ∧
  (∀ pre key subs post,
     Working.substitutions = (pre ++ (key, subs) :: post)%list ->
     spec_ci_substring key x ->
     (∀ k s, (k, s) ∈ pre -> ¬ spec_ci_substring k x) ->
     Working._get_substitutions [x] = [(x, take 2 subs)]) ∧
  ((∀ k s, (k, s) ∈ Working.substitutions -> ¬ spec_ci_substring k x) ->
   Working._get_substitutions [x] = []).
Proof.
  assert (HE : ∀ k s, (k, s) ∈ Engine.ingredient_substitutions ->
                      Str.lower k = k).
  { intros k s. by apply table_keys_lower. }
  assert (HW : ∀ k s, (k, s) ∈ Working.substitutions -> Str.lower k = k).
  { intros k s. by apply table_keys_lower. }
  split; [| split; [| split]].
  - intros pre key subs post Ht Hm Hpre.
    unfold Engine.get_ingredient_substitutions. rewrite Ht.
    assert (Hin : ∀ k s, (k, s) ∈ (pre ++ (key, subs) :: post)%list ->
                         Str.lower k = k)
      by (rewrite <- Ht; exact HE).
    apply lookup_substitutes_first.
    + apply key_matches_spec; [| done].
      apply (Hin key subs). apply elem_of_app. right. left.
    + intros k s Hk. apply not_true_is_false. intros Hc.
      apply (Hpre k s Hk). apply key_matches_spec; [| done].
      apply (Hin k s). apply elem_of_app. by left.
  - intros Hno. apply lookup_substitutes_none.
    intros k s Hk. apply not_true_is_false. intros Hc.
    apply (Hno k s Hk). apply key_matches_spec; [| done]. by apply (HE k s).
  - intros pre key subs post Ht Hm Hpre.
    assert (Hin : ∀ k s, (k, s) ∈ (pre ++ (key, subs) :: post)%list ->
                         Str.lower k = k)
      by (rewrite <- Ht; exact HW).
    unfold Working._get_substitutions. rewrite Ht. cbn [foldl take firstn].
    rewrite (first_key_in_first (Str.lower x) pre key subs post); [done | |].
    + apply ci_substring_contains in Hm.
      rewrite (Hin key subs) in Hm; [done |]. apply elem_of_app. right. left.
    + intros k s Hk. apply not_true_is_false. intros Hc.
      apply (Hpre k s Hk). apply ci_substring_contains.
      rewrite (Hin k s); [done |]. apply elem_of_app. by left.
  - intros Hno. unfold Working._get_substitutions. cbn [foldl take firstn].
    rewrite first_key_in_none; [done |].
    intros k s Hk. apply not_true_is_false. intros Hc.
    apply (Hno k s Hk). apply ci_substring_contains. by rewrite (HW k s).
Qed.

(** C5 on four names: [Egg] is contained in the key [eggs], [Olive Oil]
    contains the key [oil], and no key matches [rice]. *)
Lemma C5_substitution_lookup_witness :
  Engine.get_ingredient_substitutions "Egg"
    = ["flax eggs"; "chia eggs"; "applesauce"] ∧
  Engine.get_ingredient_substitutions "rice" = [] ∧
  Working._get_substitutions ["Olive Oil"] = [("Olive Oil", ["butter"; "ghee"])] ∧
  Working._get_substitutions ["rice"] = [].
Proof.
  assert (Hno : ∀ (a b : string),
            Str.contains (Str.lower a) (Str.lower b) = false ->
            ¬ spec_ci_substring a b).
  { intros a b H Hs. apply ci_substring_contains in Hs. congruence. }
  assert (Hno2 : ∀ (a b : string),
            Str.contains (Str.lower a) (Str.lower b) = false ->
            Str.contains (Str.lower b) (Str.lower a) = false ->
            ¬ spec_key_matches a b).
  { intros a b H1 H2 [Hs | Hs]; apply ci_substring_contains in Hs; congruence. }
  split; [| split; [| split]].
  - refine (proj1 (C5_substitution_lookup "Egg")
              [("butter", _); ("milk", _)] "eggs" _ _ eq_refl _ _).
    + right. apply ci_substring_contains. reflexivity.
    + intros k s Hk.
      repeat (apply elem_of_cons in Hk as [[= -> ->] | Hk]);
        [| | by apply elem_of_nil in Hk]; by apply Hno2.
  - apply (proj1 (proj2 (C5_substitution_lookup "rice"))).
    intros k s Hk.
    repeat (apply elem_of_cons in Hk as [[= -> ->] | Hk]);
      try (by apply elem_of_nil in Hk); by apply Hno2.
  - refine (proj1 (proj2 (proj2 (C5_substitution_lookup "Olive Oil")))
              (take 9 Working.substitutions) "oil" _ _ eq_refl _ _).
    + apply ci_substring_contains. reflexivity.
    + intros k s Hk.
      repeat (apply elem_of_cons in Hk as [[= -> ->] | Hk]);
        try (by apply elem_of_nil in Hk); by apply Hno.
  - apply (proj2 (proj2 (proj2 (C5_substitution_lookup "rice")))).
    intros k s Hk.
    repeat (apply elem_of_cons in Hk as [[= -> ->] | Hk]);
      try (by apply elem_of_nil in Hk); by apply Hno.
Defined.

(** ** C6: recipes without ingredients *)

(** C6 as stated fails for [RecipeRecommendationEngine]: a recipe with an
    empty ingredient list is scored with the default
    [ingredient_match_score] 0 and returned. *)
Lemma C6_engine_keeps_empty_recipe :
  Engine.recipe_ingredient_set Sample.no_ingredients = Ok ∅ ∧
  Engine.get_recommendations
    (Sample.engine_of [0%Q] [Sample.no_ingredients])
    ["rice"] None None None None 10
    = Ok [ {| recipe := Sample.no_ingredients;
              match_score := 0 # 10;
              ingredient_match_percentage := 0 # 10;
              missing_ingredients := [];
              substitution_suggestions := [] |} ].
Proof. split; vm_compute; reflexivity. Qed.

(** C6 (as amended).  In [SimpleRecipeRecommender] a recipe whose
    ingredient list is empty or absent is left out of the results: it never
    yields an entry, no returned entry has an empty ingredient set, and when
    it passes the filters the loop body ends normally, without a division.
    [RecipeRecommendationEngine] avoids the division by a default: for a
    recipe without ingredients its [ingredient_match_score] is 0. *)
Theorem C6_empty_recipes recipes ingredients dr mct df cp limit :
  (∀ s, s ∈ Working.get_recommendations recipes ingredients dr mct df cp limit ->
     ∃ R : gset string,
       Working.recipe_ingredient_set (recipe s) = Ok R ∧ R ≠ ∅) ∧
  (∀ d, Py.assoc "ingredients" d = None ->
        Working.recipe_ingredient_set (VDict d) = Ok ∅) ∧
  (∀ r, Working.recipe_ingredient_set r = Ok ∅ ->
     (∀ s, Working.process_recipe (Working.query_set ingredients)
             dr mct df cp r ≠ Ok (Some s)) ∧
     (ingredients ≠ [] ->
      Working.dietary_excluded dr r = Ok false ->
      Working.too_long mct r = Ok false ->
      Working.differs "difficulty" df r = Ok false ->
      Working.differs "cuisine" cp r = Ok false ->
      Working.process_recipe (Working.query_set ingredients) dr mct df cp r
        = Ok None)) ∧
  (∀ n : nat, Engine.ratio_or_zero n ∅ = 0%Q).
Proof.
  split; [| split; [| split]].
  - intros s Hs.
    apply get_recommendations_elem_of in Hs as (Hne & r & Hr & Hp).
    apply process_recipe_Some in Hp
      as (_ & _ & _ & _ & R & HR & Hsize & _ & _ & ->); simpl.
    exists R. split; [done |]. intros ->. by rewrite size_empty in Hsize.
  - intros d Hd. unfold Working.recipe_ingredient_set; simpl. by rewrite Hd.
  - intros r HR. split.
    + intros s Hp.
      apply process_recipe_Some in Hp
        as (_ & _ & _ & _ & R & HR' & Hsize & _ & _ & _).
      rewrite HR in HR'. injection HR' as <-. by rewrite size_empty in Hsize.
    + intros Hne H1 H2 H3 H4.
      rewrite (process_recipe_filtered _ _ _ _ _ r ∅ H1 H2 H3 H4 HR
                 (query_set_size _ Hne)).
      rewrite decide_True; [done |].
      rewrite intersection_empty_l_L. apply size_empty.
  - intros n. reflexivity.
Qed.

(** C6 on a recipe with an empty ingredient list, a record without the
    field, and a corpus where the only entry returned has ingredients. *)
Lemma C6_empty_recipes_witness :
  Working.recipe_ingredient_set Sample.no_ingredients = Ok ∅ ∧
  Working.process_recipe (Working.query_set ["rice"]) None None None None
    Sample.no_ingredients = Ok None ∧
  Working.recipe_ingredient_set (VDict [("name", VStr "Air")]) = Ok ∅ ∧
  ∃ s R,
    s ∈ Working.get_recommendations [Sample.no_ingredients; Sample.plain_rice]
          ["rice"] None None None None 10 ∧
    Working.recipe_ingredient_set (recipe s) = Ok R ∧ R ≠ ∅.
Proof.
  destruct (C6_empty_recipes [Sample.no_ingredients; Sample.plain_rice]
              ["rice"] None None None None 10) as (Ha & Hb & Hc & _).
  assert (HR : Working.recipe_ingredient_set Sample.no_ingredients = Ok ∅)
    by reflexivity.
  split; [exact HR |]. split.
  - apply (proj2 (Hc Sample.no_ingredients HR)); [discriminate | | | |];
      reflexivity.
  - split; [apply Hb; reflexivity |].
    assert (E : ∃ s l, Working.get_recommendations
                         [Sample.no_ingredients; Sample.plain_rice]
                         ["rice"] None None None None 10 = s :: l).
    { eexists _, _. vm_compute. reflexivity. }
    destruct E as (s & l & E).
    assert (Hin : s ∈ Working.get_recommendations
                        [Sample.no_ingredients; Sample.plain_rice]
                        ["rice"] None None None None 10).
    { rewrite E. left. }
    destruct (Ha s Hin) as (R & HRs & Hne).
    exists s, R. split; [exact Hin |]. split; [exact HRs | exact Hne].
Defined.

(** ** C7: the difficulty and cuisine filters *)

(** C7 as stated fails for [RecipeRecommendationEngine]: it compares the
    field with the filter value as they are, so a recipe of difficulty
    [Easy] does not survive the filter [easy]. *)
Lemma C7_engine_case_sensitive :
  Engine.differs "difficulty" (Some "easy") Sample.fried_rice = Ok true ∧
  Engine.differs "cuisine" (Some "asian") Sample.fried_rice = Ok true ∧
  Engine.get_recommendations (Sample.engine_of [1%Q] [Sample.broth])
    ["rice"] None None (Some "easy") None 10 = Ok [] ∧
  Engine.get_recommendations (Sample.engine_of [1%Q] [Sample.broth])
    ["rice"] None None (Some "Easy") None 10
    = Ok [ {| recipe := Sample.broth;
              match_score := 400 # 10;
              ingredient_match_percentage := 0 # 10;
              missing_ingredients := [];
              substitution_suggestions := [] |} ].
Proof. repeat split; vm_compute; reflexivity. Qed.

Lemma working_differs_str (field f s : string) d :
  f ≠ "" ->
  Py.get (VDict d) field (VStr "") = Ok (VStr s) ->
  Working.differs field (Some f) (VDict d)
    = Ok (negb (String.eqb (Str.lower s) (Str.lower f))).
Proof.
  intros Hf Hs. unfold Working.differs.
  apply String.eqb_neq in Hf. rewrite Hf, Hs. reflexivity.
Qed.

(** C7 (as amended).  In [SimpleRecipeRecommender], when a [difficulty] or
    [cuisine_preference] filter is set (a non-empty string), a recipe
    survives that filter if and only if its [difficulty] (respectively
    [cuisine]) string, the empty string when the field is absent, equals
    the filter value up to letter case: with equal values the recipe is
    processed as if the filter were not set, with different values it
    yields no entry.  [RecipeRecommendationEngine] compares the two strings
    exactly. *)
Theorem C7_case_insensitive_filters q dr mct df cp d (f s : string) :
  f ≠ "" ->
  (Py.get (VDict d) "difficulty" (VStr "") = Ok (VStr s) ->
   (Working.differs "difficulty" (Some f) (VDict d) = Ok false
    ↔ spec_ci_equal s f) ∧
   (spec_ci_equal s f ->
    Working.process_recipe q dr mct (Some f) cp (VDict d)
      = Working.process_recipe q dr mct None cp (VDict d)) ∧
   (¬ spec_ci_equal s f ->
    ∀ sc, Working.process_recipe q dr mct (Some f) cp (VDict d)
            ≠ Ok (Some sc))) ∧
  (Py.get (VDict d) "cuisine" (VStr "") = Ok (VStr s) ->
   (Working.differs "cuisine" (Some f) (VDict d) = Ok false
    ↔ spec_ci_equal s f) ∧
   (spec_ci_equal s f ->
    Working.process_recipe q dr mct df (Some f) (VDict d)
      = Working.process_recipe q dr mct df None (VDict d)) ∧
   (¬ spec_ci_equal s f ->
    ∀ sc, Working.process_recipe q dr mct df (Some f) (VDict d)
            ≠ Ok (Some sc))) ∧
  (∀ field s',
     Py.assoc field d = Some (VStr s') ->
     Engine.differs field (Some f) (VDict d) = Ok (negb (String.eqb s' f))).
Proof.
  intros Hf.
  assert (Hiff : ∀ field,
    Py.get (VDict d) field (VStr "") = Ok (VStr s) ->
    Working.differs field (Some f) (VDict d) = Ok false ↔ spec_ci_equal s f).
  { intros field Hs. rewrite (working_differs_str field f s d Hf Hs).
    unfold spec_ci_equal.
    destruct (String.eqb_spec (Str.lower s) (Str.lower f)); simpl.
    - split; done.
    - split; [discriminate | done]. }
  split; [| split].
  - intros Hs. split; [by apply Hiff |]. split.
    + intros He. apply (Hiff "difficulty" Hs) in He.
      unfold Working.process_recipe. rewrite He. reflexivity.
    + intros Hne sc Hp. apply process_recipe_Some in Hp as (_ & _ & H3 & _).
      by apply Hne, (Hiff "difficulty" Hs).
  - intros Hs. split; [by apply Hiff |]. split.
    + intros He. apply (Hiff "cuisine" Hs) in He.
      unfold Working.process_recipe. rewrite He. reflexivity.
    + intros Hne sc Hp. apply process_recipe_Some in Hp as (_ & _ & _ & H4 & _).
      by apply Hne, (Hiff "cuisine" Hs).
  - intros field s' Hs'. unfold Engine.differs.
    apply String.eqb_neq in Hf. rewrite Hf. simpl. by rewrite Hs'.
Qed.

(** C7 on a recipe of difficulty [Easy] and the filter [easy]. *)
Lemma C7_case_insensitive_filters_witness :
  "easy" ≠ "" ∧
  Py.get Sample.fried_rice "difficulty" (VStr "") = Ok (VStr "Easy") ∧
  spec_ci_equal "Easy" "easy" ∧
  Working.differs "difficulty" (Some "easy") Sample.fried_rice = Ok false ∧
  Working.process_recipe (Working.query_set ["rice"]) None None
    (Some "easy") None Sample.fried_rice
  = Working.process_recipe (Working.query_set ["rice"]) None None
      None None Sample.fried_rice.
Proof.
  assert (Hf : "easy" ≠ "") by discriminate.
  assert (Hs : Py.get Sample.fried_rice "difficulty" (VStr "")
               = Ok (VStr "Easy")) by reflexivity.
  assert (He : spec_ci_equal "Easy" "easy") by reflexivity.
  destruct (C7_case_insensitive_filters (Working.query_set ["rice"])
              None None None None Sample.fried_rice_fields "easy" "Easy" Hf)
    as (H & _ & _).
  destruct (H Hs) as (Hiff & Heq & _).
  split; [exact Hf |]. split; [exact Hs |]. split; [exact He |].
  split; [apply Hiff, He | apply Heq, He].
Defined.

(** ** C10: recipes without a cooking time *)

(** C10.  In both engines a recipe record without a [cooking_time] field
    passes the [max_cooking_time] filter for every bound that is not
    negative, so for every positive one: the missing value reads as 0, and
    the recipe is processed as if no bound were set. *)
Theorem C10_missing_cooking_time d (m : Z) :
  Py.assoc "cooking_time" d = None ->
  0 <= m ->
  Working.too_long (Some m) (VDict d) = Ok false ∧
  Engine.too_long (Some m) (VDict d) = Ok false ∧
  (∀ q dr df cp,
     Working.process_recipe q dr (Some m) df cp (VDict d)
       = Working.process_recipe q dr None df cp (VDict d)) ∧
  (∀ (V : Vectorizer) (self : Engine.engine) sims ingredients df cp,
     Engine.process_recipe self sims ingredients (Some m) df cp (VDict d)
       = Engine.process_recipe self sims ingredients None df cp (VDict d)).
Proof.
  intros Hd Hm.
  assert (HW : Working.too_long (Some m) (VDict d) = Ok false).
  { unfold Working.too_long; simpl. rewrite Hd; simpl.
    destruct (Z.eqb_spec m 0); [done |]. f_equal. apply Z.ltb_ge. lia. }
  assert (HE : Engine.too_long (Some m) (VDict d) = Ok false).
  { unfold Engine.too_long; simpl. rewrite Hd; simpl.
    destruct (Z.eqb_spec m 0); [done |]. f_equal. apply Z.ltb_ge. lia. }
  split; [exact HW |]. split; [exact HE |]. split.
  - intros q dr df cp. unfold Working.process_recipe. by rewrite HW.
  - intros V self sims ingredients df cp. unfold Engine.process_recipe.
    by rewrite HE.
Qed.

(** C10 on a recipe without [cooking_time] and the bound 5. *)
Lemma C10_missing_cooking_time_witness :
  Py.assoc "cooking_time" Sample.tofu_bowl_fields = None ∧
  0 <= 5 ∧
  Working.too_long (Some 5) Sample.tofu_bowl = Ok false ∧
  Engine.too_long (Some 5) Sample.tofu_bowl = Ok false.
Proof.
  assert (Hd : Py.assoc "cooking_time" Sample.tofu_bowl_fields = None)
    by reflexivity.
  assert (Hm : 0 <= 5) by lia.
  destruct (C10_missing_cooking_time _ 5 Hd Hm) as (HW & HE & _).
  split; [exact Hd |]. split; [exact Hm |]. split; [exact HW | exact HE].
Defined.

(** ** C9: the query as a set *)

(** C9 as stated fails for [RecipeRecommendationEngine]: it lower-cases the
    query ingredients without trimming them.  The queries [" rice"] and
    ["rice"] normalize to the same set, and against the same corpus and
    similarities the first finds no direct match where the second finds
    one. *)
Lemma C9_engine_does_not_trim :
  Working.query_set [" rice"] = Working.query_set ["rice"] ∧
  Engine.get_recommendations (Sample.engine_of [1%Q] [Sample.plain_rice])
    [" rice"] None None None None 10
    = Ok [ {| recipe := Sample.plain_rice;
              match_score := 400 # 10;
              ingredient_match_percentage := 0 # 10;
              missing_ingredients := ["rice"];
              substitution_suggestions := [] |} ] ∧
  Engine.get_recommendations (Sample.engine_of [1%Q] [Sample.plain_rice])
    ["rice"] None None None None 10
    = Ok [ {| recipe := Sample.plain_rice;
              match_score := 1000 # 10;
              ingredient_match_percentage := 1000 # 10;
              missing_ingredients := [];
              substitution_suggestions := [] |} ].
Proof. repeat split; vm_compute; reflexivity. Qed.

(** C9 (as amended).  [SimpleRecipeRecommender.get_recommendations] depends
    on the query ingredients only through the set of their lower-cased,
    trimmed names: two ingredient lists with the same such set give the
    same result list, for every corpus, filters and limit. *)
Theorem C9_query_as_set recipes (q1 q2 : list string) dr mct df cp limit :
  (∀ x : string,
     x ∈ (fun ing => Str.strip (Str.lower ing)) <$> q1
     ↔ x ∈ (fun ing => Str.strip (Str.lower ing)) <$> q2) ->
  Working.get_recommendations recipes q1 dr mct df cp limit
    = Working.get_recommendations recipes q2 dr mct df cp limit.
Proof.
  intros H.
  assert (Hset : Working.query_set q1 = Working.query_set q2).
  { unfold Working.query_set. apply set_eq. intros x.
    rewrite !elem_of_list_to_set. apply H. }
  unfold Working.get_recommendations.
  destruct q1 as [| a q1], q2 as [| b q2]; try done.
  - exfalso. specialize (H (Str.strip (Str.lower b))).
    rewrite fmap_nil, fmap_cons in H.
    eapply elem_of_nil, H. left.
  - exfalso. specialize (H (Str.strip (Str.lower a))).
    rewrite fmap_nil, fmap_cons in H.
    eapply elem_of_nil, H. left.
  - by rewrite Hset.
Qed.

(** C9 on two spellings of the query rice, garlic. *)
Lemma C9_query_as_set_witness :
  Working.get_recommendations [Sample.fried_rice; Sample.tofu_bowl]
    ["Rice "; "rice"; " GARLIC"] None None None None 10
  = Working.get_recommendations [Sample.fried_rice; Sample.tofu_bowl]
      ["garlic"; "rice"] None None None None 10.
Proof.
  apply C9_query_as_set. intros x. simpl.
  change (Str.strip (Str.lower "Rice ")) with "rice".
  change (Str.strip (Str.lower "rice")) with "rice".
  change (Str.strip (Str.lower " GARLIC")) with "garlic".
  change (Str.strip (Str.lower "garlic")) with "garlic".
  rewrite !elem_of_cons, !elem_of_nil. tauto.
Defined.

(** ** C8: malformed records *)

(** C8 as stated fails in both engines.  [SimpleRecipeRecommender] does not
    skip a record that lacks [id] and [name]: it scores and returns it.
    [RecipeRecommendationEngine] catches nothing: on the same corpus the
    call ends with [KeyError]. *)
Lemma C8_nameless_record :
  Working.get_recommendations [Sample.nameless] ["rice"]
    None None None None 10
    = [ {| recipe := Sample.nameless;
           match_score := 1000 # 10;
           ingredient_match_percentage := 1000 # 10;
           missing_ingredients := [];
           substitution_suggestions := [] |} ] ∧
  Engine.get_recommendations (Sample.engine_of [1%Q] [Sample.nameless])
    ["rice"] None None None None 10 = Raise KeyError.
Proof. split; vm_compute; reflexivity. Qed.

Section Malformed.

Import Working.

Lemma assoc_drop_keys (ks : list string) (k : string) d :
  existsb (String.eqb k) ks = false ->
  Py.assoc k (drop_keys ks d) = Py.assoc k d.
Proof.
  intros Hk. induction d as [| [k' v] d IH]; simpl; [done |].
  destruct (existsb (String.eqb k') ks) eqn:Hk'; simpl.
  - destruct (String.eqb_spec k k') as [-> | NE]; [congruence | exact IH].
  - destruct (String.eqb_spec k k'); [done | exact IH].
Qed.

Lemma get_drop_keys (ks : list string) (k : string) d dflt :
  existsb (String.eqb k) ks = false ->
  Py.get (VDict (drop_keys ks d)) k dflt = Py.get (VDict d) k dflt.
Proof. intros Hk. simpl. by rewrite assoc_drop_keys. Qed.

(** The loop body reads neither [id] nor [name]. *)
Lemma process_recipe_drop_id_name q dr mct df cp d :
  process_recipe q dr mct df cp (VDict (drop_keys ["id"; "name"] d))
  = match process_recipe q dr mct df cp (VDict d) with
    | Ok (Some s) =>
        Ok (Some (with_recipe (VDict (drop_keys ["id"; "name"] d)) s))
    | other => other
    end.
Proof.
  assert (H1 : dietary_excluded dr (VDict (drop_keys ["id"; "name"] d))
               = dietary_excluded dr (VDict d)).
  { unfold dietary_excluded. by rewrite get_drop_keys. }
  assert (H2 : too_long mct (VDict (drop_keys ["id"; "name"] d))
               = too_long mct (VDict d)).
  { unfold too_long. by rewrite get_drop_keys. }
  assert (H3 : ∀ field f,
            existsb (String.eqb field) ["id"; "name"] = false ->
            differs field f (VDict (drop_keys ["id"; "name"] d))
            = differs field f (VDict d)).
  { intros field f Hf. unfold differs. by rewrite get_drop_keys. }
  assert (H4 : recipe_ingredient_set (VDict (drop_keys ["id"; "name"] d))
               = recipe_ingredient_set (VDict d)).
  { unfold recipe_ingredient_set. by rewrite get_drop_keys. }
  unfold process_recipe. rewrite H1, H2, !H3, H4 by reflexivity.
  destruct (dietary_excluded dr (VDict d)) as [[] |]; simpl; try done.
  destruct (too_long mct (VDict d)) as [[] |]; simpl; try done.
  destruct (differs "difficulty" df (VDict d)) as [[] |]; simpl; try done.
  destruct (differs "cuisine" cp (VDict d)) as [[] |]; simpl; try done.
  destruct (recipe_ingredient_set (VDict d)) as [R |]; simpl; try done.
  destruct (Nat.eqb (size R) 0); try done.
  destruct (ratio _ (size R)); simpl; try done.
  destruct (ratio _ (size q)); simpl; try done.
  by destruct (Nat.ltb 0 _).
Qed.

(** A dict whose processing raises is passed over. *)
Lemma score_all_skip q dr mct df cp pre d post e :
  process_recipe q dr mct df cp (VDict d) = Raise e ->
  score_all q dr mct df cp (pre ++ VDict d :: post)
  = score_all q dr mct df cp (pre ++ post).
Proof.
  intros H.
  assert (Hskip : score_all q dr mct df cp (VDict d :: post)
                  = score_all q dr mct df cp post).
  { simpl. by rewrite H. }
  by rewrite !score_all_app, Hskip.
Qed.

End Malformed.

(** C8 (as amended).  In [SimpleRecipeRecommender.get_recommendations]:
    a record (a dict) whose processing raises an exception is passed over,
    and the call returns what it returns for the corpus without that
    record; a record that only lacks [id] or [name] is not malformed for the
    engine, it is processed exactly like the record with those fields, and
    returned when it matches; and when an exception leaves the loop the call
    returns the empty list. *)
Theorem C8_malformed_records recipes ingredients dr mct df cp limit :
  (∀ pre d post e,
     recipes = (pre ++ VDict d :: post)%list ->
     Working.process_recipe (Working.query_set ingredients) dr mct df cp
       (VDict d) = Raise e ->
     Working.get_recommendations recipes ingredients dr mct df cp limit
     = Working.get_recommendations (pre ++ post) ingredients
         dr mct df cp limit) ∧
  (∀ d,
     Working.process_recipe (Working.query_set ingredients) dr mct df cp
       (VDict (drop_keys ["id"; "name"] d))
     = match Working.process_recipe (Working.query_set ingredients)
               dr mct df cp (VDict d) with
       | Ok (Some s) =>
           Ok (Some (with_recipe (VDict (drop_keys ["id"; "name"] d)) s))
       | other => other
       end) ∧
  (∀ e,
     Working.score_all (Working.query_set ingredients) dr mct df cp recipes
       = Raise e ->
     Working.get_recommendations recipes ingredients dr mct df cp limit = []).
Proof.
  split; [| split].
  - intros pre d post e -> H. unfold Working.get_recommendations.
    destruct ingredients as [| x l]; [done |].
    by rewrite (score_all_skip _ _ _ _ _ pre d post e H).
  - intros d. apply process_recipe_drop_id_name.
  - intros e H. unfold Working.get_recommendations.
    destruct ingredients as [| x l]; [done |]. by rewrite H.
Qed.

(** C8 on a record whose [cooking_time] is a string, which is passed
    over, and on a corpus entry that is a number, which ends the call. *)
Lemma C8_malformed_records_witness :
  Working.process_recipe (Working.query_set ["rice"]) None (Some 30) None None
    Sample.bad_time = Raise TypeError ∧
  Working.get_recommendations
    [Sample.fried_rice; Sample.bad_time; Sample.tofu_bowl] ["rice"]
    None (Some 30) None None 10
  = Working.get_recommendations [Sample.fried_rice; Sample.tofu_bowl] ["rice"]
      None (Some 30) None None 10 ∧
  Working.score_all (Working.query_set ["rice"]) None None None None
    [Sample.plain_rice; VInt 3] = Raise AttributeError ∧
  Working.get_recommendations [Sample.plain_rice; VInt 3] ["rice"]
    None None None None 10 = [].
Proof.
  assert (H1 : Working.process_recipe (Working.query_set ["rice"])
                 None (Some 30) None None Sample.bad_time = Raise TypeError).
  { vm_compute. reflexivity. }
  assert (H2 : Working.score_all (Working.query_set ["rice"])
                 None None None None [Sample.plain_rice; VInt 3]
               = Raise AttributeError).
  { vm_compute. reflexivity. }
  split; [exact H1 |]. split; [| split; [exact H2 |]].
  - exact (proj1 (C8_malformed_records
                    [Sample.fried_rice; Sample.bad_time; Sample.tofu_bowl]
                    ["rice"] None (Some 30) None None 10)
             [Sample.fried_rice] _ [Sample.tofu_bowl] TypeError eq_refl H1).
  - exact (proj2 (proj2 (C8_malformed_records [Sample.plain_rice; VInt 3]
                           ["rice"] None None None None 10))
             AttributeError H2).
Defined.


(** * Further properties of the code *)

Lemma bind_Ok {A B} (a : A) (k : A -> result B) : (Ok a ≫= k) = k a.
Proof. reflexivity. Qed.

(** ** The dietary flags of [SimpleRecipeRecommender] *)

Section DietaryFlags.

Import Working.

Lemma matches_cons_dict d r rs :
  _matches_dietary_restrictions (VDict d) (r :: rs)
  = if restriction_met d r then _matches_dietary_restrictions (VDict d) rs
    else Ok false.
Proof.
  unfold restriction_met, flag. simpl.
  destruct (String.eqb (Str.lower r) "vegetarian") eqn:E1; simpl.
  { destruct (Py.truthy _); simpl; [| done].
    apply String.eqb_eq in E1. by rewrite E1. }
  destruct (String.eqb (Str.lower r) "vegan") eqn:E2; simpl.
  { destruct (Py.truthy _); simpl; [| done].
    apply String.eqb_eq in E2. by rewrite E2. }
  destruct (String.eqb (Str.lower r) "gluten-free") eqn:E3; simpl.
  { destruct (Py.truthy _); simpl; [| done].
    apply String.eqb_eq in E3. by rewrite E3. }
  destruct (String.eqb (Str.lower r) "dairy-free") eqn:E4; simpl; [| done].
  by destruct (Py.truthy _).
Qed.

Lemma matches_dict d rs :
  _matches_dietary_restrictions (VDict d) rs
  = Ok (forallb (restriction_met d) rs).
Proof.
  induction rs as [| r rs IH]; [done |].
  rewrite matches_cons_dict. simpl forallb.
  by destruct (restriction_met d r).
Qed.

Lemma matches_not_dict v rs :
  is_dict v = false ->
  existsb known_restriction rs = true ->
  _matches_dietary_restrictions v rs = Raise AttributeError.
Proof.
  intros Hv. induction rs as [| r rs IH]; [done |].
  simpl existsb. unfold known_restriction at 1.
  simpl _matches_dietary_restrictions.
  destruct (String.eqb (Str.lower r) "vegetarian"); simpl;
    [intros _; by destruct v |].
  destruct (String.eqb (Str.lower r) "vegan"); simpl;
    [intros _; by destruct v |].
  destruct (String.eqb (Str.lower r) "gluten-free"); simpl;
    [intros _; by destruct v |].
  destruct (String.eqb (Str.lower r) "dairy-free"); simpl;
    [intros _; by destruct v |].
  exact IH.
Qed.

End DietaryFlags.

(** X1.  On a dict of flags [_matches_dietary_restrictions] never raises,
    and it answers [True] exactly when every requested restriction is met:
    a name that is, in any letter case, one of [vegetarian], [vegan],
    [gluten-free], [dairy-free] is met when its flag is present and truthy,
    and every other name is met.  So the answer does not depend on the
    order of the restrictions or on repetitions. *)
Theorem X1_dietary_flags d (rs : list string) :
  (∃ b, Working._matches_dietary_restrictions (VDict d) rs = Ok b) ∧
  (Working._matches_dietary_restrictions (VDict d) rs = Ok true
   ↔ ∀ r, r ∈ rs -> restriction_met d r = true) ∧
  (∀ rs' : list string,
     (∀ r, r ∈ rs ↔ r ∈ rs') ->
     Working._matches_dietary_restrictions (VDict d) rs'
     = Working._matches_dietary_restrictions (VDict d) rs).
Proof.
  assert (Hall : ∀ l : list string,
            forallb (restriction_met d) l = true
            ↔ ∀ r, r ∈ l -> restriction_met d r = true).
  { intros l. rewrite forallb_forall. split; intros H r Hr; apply H.
    - by apply list_elem_of_In.
    - by apply list_elem_of_In. }
  split; [| split].
  - rewrite matches_dict. eauto.
  - rewrite matches_dict. rewrite <- Hall. split; [by intros [= ->] | by intros ->].
  - intros rs' Heq. rewrite !matches_dict. f_equal.
    apply eq_true_iff_eq. rewrite !Hall.
    split; intros H r Hr; apply H; by apply Heq.
Qed.

(** X2.  A recipe whose [dietary_info] is not a dict (a list of tags, as
    the other engine expects, or anything else) cannot be checked: as soon
    as one requested restriction has a name the engine knows, the check
    raises [AttributeError], the recipe is passed over, and the call returns
    what it returns for the corpus without that recipe. *)
Theorem X2_tags_are_not_flags pre d post v (rs : list string)
    ingredients mct df cp limit :
  Py.assoc "dietary_info" d = Some v ->
  is_dict v = false ->
  existsb known_restriction rs = true ->
  Working.dietary_excluded (Some rs) (VDict d) = Raise AttributeError ∧
  Working.get_recommendations (pre ++ VDict d :: post) ingredients
    (Some rs) mct df cp limit
  = Working.get_recommendations (pre ++ post) ingredients
      (Some rs) mct df cp limit.
Proof.
  intros Hd Hv Hrs.
  assert (H : Working.dietary_excluded (Some rs) (VDict d)
              = Raise AttributeError).
  { destruct rs as [| r rs]; [done |].
    unfold Working.dietary_excluded, Py.get. rewrite Hd, bind_Ok.
    by rewrite (matches_not_dict v (r :: rs) Hv Hrs). }
  split; [exact H |].
  unfold Working.get_recommendations. destruct ingredients as [| x l]; [done |].
  rewrite (score_all_skip _ _ _ _ _ pre d post AttributeError); [done |].
  unfold Working.process_recipe. by rewrite H.
Qed.

(** X2 on the tagged recipe of the samples and the restriction [Vegan]. *)
Lemma X2_tags_are_not_flags_witness :
  Working.get_recommendations
    ([Sample.fried_rice] ++ Sample.pasta :: [Sample.tofu_bowl]) ["tomato"]
    (Some ["kosher"; "Vegan"]) None None None 10
  = Working.get_recommendations ([Sample.fried_rice] ++ [Sample.tofu_bowl])
      ["tomato"] (Some ["kosher"; "Vegan"]) None None None 10.
Proof.
  refine (proj2 (X2_tags_are_not_flags [Sample.fried_rice]
                   [("id", VInt 6); ("name", VStr "Pasta");
                    ("ingredients", VList [VStr "spaghetti"; VStr "tomato"]);
                    ("dietary_info", VList [VStr "contains_gluten"])]
                   [Sample.tofu_bowl] (VList [VStr "contains_gluten"])
                   ["kosher"; "Vegan"] ["tomato"] None None None 10
                   eq_refl eq_refl eq_refl)).
Defined.

(** X1 on a recipe flagged vegetarian: the restrictions in two orders. *)
Lemma X1_dietary_flags_witness :
  Working._matches_dietary_restrictions
    (VDict [("vegetarian", VBool true)]) ["Vegetarian"; "paleo"] = Ok true ∧
  Working._matches_dietary_restrictions
    (VDict [("vegetarian", VBool true)]) ["paleo"; "Vegetarian"; "paleo"]
  = Working._matches_dietary_restrictions
      (VDict [("vegetarian", VBool true)]) ["Vegetarian"; "paleo"].
Proof.
  destruct (X1_dietary_flags [("vegetarian", VBool true)]
              ["Vegetarian"; "paleo"]) as (_ & Hiff & Hperm).
  split.
  - apply Hiff. intros r Hr.
    apply elem_of_cons in Hr as [-> | Hr]; [reflexivity |].
    apply elem_of_cons in Hr as [-> | Hr]; [reflexivity |].
    apply elem_of_nil in Hr. destruct Hr.
  - apply Hperm. intros r. rewrite !elem_of_cons, !elem_of_nil. tauto.
Defined.

(** ** The whole call of [SimpleRecipeRecommender], continued *)

Section WorkingLoop.

Import Working.

Variables (q : gset string) (dr : option (list string)) (mct : option Z)
          (df cp : option string).

Lemma get_not_dict v k dflt : is_dict v = false -> Py.get v k dflt = Raise AttributeError.
Proof. by destruct v. Qed.

(** Whatever the filters, the loop body raises on a record that is not a
    dict: every path through it reads a field. *)
Lemma process_recipe_not_dict v :
  is_dict v = false -> process_recipe q dr mct df cp v = Raise AttributeError.
Proof.
  intros Hv. unfold process_recipe.
  assert (H1 : dietary_excluded dr v = Ok false
               ∨ dietary_excluded dr v = Raise AttributeError).
  { unfold dietary_excluded. destruct dr as [[| r rs] |]; auto.
    right. by rewrite get_not_dict. }
  assert (H2 : too_long mct v = Ok false
               ∨ too_long mct v = Raise AttributeError).
  { unfold too_long. destruct mct as [m |]; auto.
    destruct (m =? 0); auto. right. by rewrite get_not_dict. }
  assert (H3 : ∀ field f, differs field f v = Ok false
                          ∨ differs field f v = Raise AttributeError).
  { intros field f. unfold differs. destruct f as [f |]; auto.
    destruct (String.eqb f ""); auto. right. by rewrite get_not_dict. }
  assert (H4 : recipe_ingredient_set v = Raise AttributeError).
  { unfold recipe_ingredient_set. by rewrite get_not_dict. }
  destruct H1 as [-> | ->]; [| done]. rewrite bind_Ok.
  destruct H2 as [-> | ->]; [| done]. rewrite bind_Ok.
  destruct (H3 "difficulty" df) as [-> | ->]; [| done]. rewrite bind_Ok.
  destruct (H3 "cuisine" cp) as [-> | ->]; [| done]. rewrite bind_Ok.
  by rewrite H4.
Qed.

Lemma score_all_not_dict recipes v :
  v ∈ recipes -> is_dict v = false ->
  ∃ e, score_all q dr mct df cp recipes = Raise e.
Proof.
  intros Hin Hv. induction recipes as [| r recipes IH];
    [by apply elem_of_nil in Hin |].
  apply elem_of_cons in Hin as [<- | Hin]; simpl.
  - rewrite (process_recipe_not_dict v Hv), (get_not_dict v _ _ Hv). eauto.
  - destruct (IH Hin) as [e He]. rewrite He.
    destruct (process_recipe q dr mct df cp r) as [[s |] | e']; simpl; eauto.
    destruct (Py.get r "name" (VStr "Unknown")); simpl; eauto.
Qed.

Lemma score_all_dicts recipes :
  (∀ r, r ∈ recipes -> is_dict r = true) ->
  ∃ recs, score_all q dr mct df cp recipes = Ok recs.
Proof.
  induction recipes as [| r recipes IH]; intros H; simpl; [eauto |].
  destruct IH as [recs Hrecs]; [intros r' Hr'; apply H; by right |].
  rewrite Hrecs.
  destruct (process_recipe q dr mct df cp r) as [[s |] | e]; simpl; eauto.
  assert (Hr : is_dict r = true) by (apply H; left).
  destruct r; try discriminate. simpl. eauto.
Qed.

Lemma score_all_complete recipes recs r s :
  score_all q dr mct df cp recipes = Ok recs ->
  r ∈ recipes -> process_recipe q dr mct df cp r = Ok (Some s) -> s ∈ recs.
Proof.
  revert recs. induction recipes as [| r' recipes IH]; intros recs H Hin Hp;
    [by apply elem_of_nil in Hin |].
  simpl in H. apply elem_of_cons in Hin as [<- | Hin].
  - rewrite Hp in H. simpl in H.
    destruct (score_all q dr mct df cp recipes); [| done].
    injection H as <-. left.
  - destruct (process_recipe q dr mct df cp r') as [[s' |] | e]; simpl in H.
    + destruct (score_all q dr mct df cp recipes) as [tl |]; [| done].
      injection H as <-. right. by apply IH.
    + by apply IH.
    + destruct (Py.get r' "name" (VStr "Unknown")); [| done]. by apply IH.
Qed.

Lemma score_all_length recipes recs :
  score_all q dr mct df cp recipes = Ok recs ->
  (length recs <= length recipes)%nat.
Proof.
  intros H. apply score_all_sublist in H. apply sublist_length in H.
  by rewrite length_fmap in H.
Qed.

End WorkingLoop.

Lemma slice_to_all {A} (n : Z) (l : list A) :
  Z.of_nat (length l) <= n -> Py.slice_to n l = l.
Proof.
  intros H. unfold Py.slice_to.
  destruct (Z.leb_spec 0 n); [| lia]. apply take_ge. lia.
Qed.

Lemma slice_to_nil {A} (n : Z) : Py.slice_to n (@nil A) = [].
Proof. unfold Py.slice_to. destruct (0 <=? n); apply take_nil. Qed.

Lemma sort_desc_length l : length (sort_desc l) = length l.
Proof. apply Permutation_length, sort_desc_perm. Qed.

(** X3.  The limit only cuts the ranking: for every limit, also a negative
    one, the call returns the slice [[:limit]] of what it returns when the
    limit is the size of the corpus, which is the whole ranking. *)
Theorem X3_limit_cuts_the_ranking recipes ingredients dr mct df cp limit :
  Working.get_recommendations recipes ingredients dr mct df cp limit
  = Py.slice_to limit
      (Working.get_recommendations recipes ingredients dr mct df cp
         (Z.of_nat (length recipes))).
Proof.
  unfold Working.get_recommendations.
  destruct ingredients as [| x l]; [by rewrite slice_to_nil |].
  destruct (Working.score_all _ _ _ _ _ _) as [recs |] eqn:H;
    [| by rewrite slice_to_nil].
  unfold rank. rewrite (slice_to_all (Z.of_nat (length recipes))); [done |].
  rewrite sort_desc_length. apply score_all_length in H. lia.
Qed.

(** X4.  Filters only narrow the result: every entry returned under some
    filters and limit is an entry of the ranking that the same query gets
    without any filter and with the size of the corpus as limit. *)
Theorem X4_filters_only_narrow recipes ingredients dr mct df cp limit s :
  s ∈ Working.get_recommendations recipes ingredients dr mct df cp limit ->
  s ∈ Working.get_recommendations recipes ingredients None None None None
        (Z.of_nat (length recipes)).
Proof.
  intros Hs.
  destruct (get_recommendations_cases recipes ingredients dr mct df cp limit)
    as [E | (Hne & recs & Hloop & E)]; rewrite E in Hs;
    [by apply elem_of_nil in Hs |].
  apply rank_subseteq in Hs.
  destruct (score_all_elem_of _ _ _ _ _ _ _ _ Hloop Hs) as (r & Hr & Hp).
  assert (Hdicts : ∀ r', r' ∈ recipes -> is_dict r' = true).
  { intros r' Hr'. destruct (is_dict r') eqn:Hd; [done |].
    destruct (score_all_not_dict (Working.query_set ingredients) dr mct df cp
                recipes r' Hr' Hd) as [e He].
    congruence. }
  destruct (score_all_dicts (Working.query_set ingredients)
              None None None None recipes Hdicts) as [recs0 Hloop0].
  apply process_recipe_Some in Hp
    as (_ & _ & _ & _ & R & HR & HRn & Hqn & Hm & ->).
  assert (Hp0 : Working.process_recipe (Working.query_set ingredients)
                  None None None None r = Ok (Some
    {| recipe := r;
       match_score :=
         Py.round1
           (Float.mul
              (Working.final_score
                 (Float.quot (size (R ∩ Working.query_set ingredients))
                             (size R))
                 (Float.quot (size (Working.query_set ingredients ∩ R))
                             (size (Working.query_set ingredients)))) 100);
       ingredient_match_percentage :=
         Py.round1
           (Float.mul
              (Float.quot (size (R ∩ Working.query_set ingredients))
                          (size R)) 100);
       missing_ingredients := elements (R ∖ Working.query_set ingredients);
       substitution_suggestions :=
         Working._get_substitutions
           (take 3 (elements (R ∖ Working.query_set ingredients))) |})).
  { rewrite (process_recipe_filtered _ None None None None r R
               eq_refl eq_refl eq_refl eq_refl HR Hqn).
    rewrite decide_False by lia. done. }
  unfold Working.get_recommendations.
  destruct ingredients as [| x l]; [done |]. rewrite Hloop0.
  unfold rank. rewrite slice_to_all.
  - apply (elem_of_Permutation_proper _ _ _ (sort_desc_perm recs0)).
    by eapply score_all_complete.
  - rewrite sort_desc_length. apply score_all_length in Hloop0. lia.
Qed.

(** X4 on a corpus of two recipes, with a difficulty filter and limit 1. *)
Lemma X4_filters_only_narrow_witness :
  ∃ s,
    s ∈ Working.get_recommendations [Sample.fried_rice; Sample.tofu_bowl]
          ["rice"] None None (Some "easy") None 1 ∧
    s ∈ Working.get_recommendations [Sample.fried_rice; Sample.tofu_bowl]
          ["rice"] None None None None 2.
Proof.
  assert (E : ∃ s l, Working.get_recommendations
                       [Sample.fried_rice; Sample.tofu_bowl]
                       ["rice"] None None (Some "easy") None 1 = s :: l).
  { eexists _, _. vm_compute. reflexivity. }
  destruct E as (s & l & E). exists s.
  assert (Hin : s ∈ Working.get_recommendations
                      [Sample.fried_rice; Sample.tofu_bowl]
                      ["rice"] None None (Some "easy") None 1).
  { rewrite E. left. }
  split; [exact Hin |].
  exact (X4_filters_only_narrow [Sample.fried_rice; Sample.tofu_bowl]
           ["rice"] None None (Some "easy") None 1 s Hin).
Defined.

(** X5.  One corpus entry that is not a dict empties the result: for every
    query and every filter the call returns the empty list, whatever the
    other recipes are. *)
Theorem X5_not_a_dict_empties_the_result recipes v ingredients dr mct df cp
    limit :
  v ∈ recipes ->
  is_dict v = false ->
  Working.get_recommendations recipes ingredients dr mct df cp limit = [].
Proof.
  intros Hin Hv. unfold Working.get_recommendations.
  destruct ingredients as [| x l]; [done |].
  destruct (score_all_not_dict (Working.query_set (x :: l)) dr mct df cp
              recipes v Hin Hv) as [e ->].
  done.
Qed.

(** X5 on a corpus whose second entry is [null]. *)
Lemma X5_not_a_dict_empties_the_result_witness :
  VNone ∈ [Sample.plain_rice; VNone; Sample.tofu_bowl] ∧
  is_dict VNone = false ∧
  Working.get_recommendations [Sample.plain_rice; VNone; Sample.tofu_bowl]
    ["rice"] None None None None 10 = [].
Proof.
  assert (Hin : VNone ∈ [Sample.plain_rice; VNone; Sample.tofu_bowl]).
  { right. left. }
  split; [exact Hin |]. split; [reflexivity |].
  exact (X5_not_a_dict_empties_the_result _ VNone ["rice"]
           None None None None 10 Hin eq_refl).
Defined.

(** ** Substitution suggestions and the derived fields of a result *)

Section Suggestions.

Implicit Types (d acc : list (string * list string)) (k x : string).

Lemma dict_set_elem_of k v d e :
  e ∈ dict_set k v d -> e = (k, v) ∨ e ∈ d.
Proof.
  induction d as [| [k' v'] d IH]; simpl.
  - intros H. apply list_elem_of_singleton in H. by left.
  - destruct (String.eqb k k').
    + intros H. apply elem_of_cons in H as [-> | H]; [by left |].
      right. by right.
    + intros H. apply elem_of_cons in H as [-> | H]; [right; left |].
      destruct (IH H) as [-> | H']; [by left | right; by right].
Qed.

Lemma dict_set_length k v d : (length (dict_set k v d) <= S (length d))%nat.
Proof.
  induction d as [| [k' v'] d IH]; simpl; [lia |].
  destruct (String.eqb k k'); simpl; lia.
Qed.

Lemma dict_set_key_elem_of k v d k' :
  k' ∈ (fst <$> dict_set k v d) -> k' = k ∨ k' ∈ (fst <$> d).
Proof.
  intros H. apply list_elem_of_fmap in H as ([k0 v0] & -> & H).
  apply dict_set_elem_of in H as [[= -> ->] | H]; [by left |].
  right. apply list_elem_of_fmap. by exists (k0, v0).
Qed.

Lemma dict_set_NoDup k v d :
  NoDup (fst <$> d) -> NoDup (fst <$> dict_set k v d).
Proof.
  induction d as [| [k' v'] d IH]; simpl; intros H.
  - apply NoDup_singleton.
  - apply NoDup_cons in H as [Hn H].
    destruct (String.eqb_spec k k') as [-> | NE]; simpl.
    + by apply NoDup_cons.
    + apply NoDup_cons. split; [| by apply IH].
      intros Hin. apply dict_set_key_elem_of in Hin as [-> | Hin]; done.
Qed.

Variable g : string -> option (list string).

Definition suggest_step acc x :=
  match g x with
  | Some v => dict_set x v acc
  | None => acc
  end.

Lemma suggest_length xs acc :
  (length (foldl suggest_step acc xs) <= length acc + length xs)%nat.
Proof.
  revert acc. induction xs as [| x xs IH]; intros acc; simpl; [lia |].
  etrans; [apply IH |]. unfold suggest_step.
  destruct (g x); [| lia]. pose proof (dict_set_length x l acc). lia.
Qed.

Lemma suggest_elem_of xs acc e :
  e ∈ foldl suggest_step acc xs ->
  e ∈ acc ∨ (fst e ∈ xs ∧ g (fst e) = Some (snd e)).
Proof.
  revert acc. induction xs as [| x xs IH]; intros acc; simpl; [by left |].
  intros H. apply IH in H as [H | [H1 H2]].
  - unfold suggest_step in H. destruct (g x) as [v |] eqn:E; [| by left].
    apply dict_set_elem_of in H as [-> | H]; [| by left].
    right. simpl. split; [left | done].
  - right. split; [by right | done].
Qed.

Lemma suggest_NoDup xs acc :
  NoDup (fst <$> acc) -> NoDup (fst <$> foldl suggest_step acc xs).
Proof.
  revert acc. induction xs as [| x xs IH]; intros acc H; simpl; [done |].
  apply IH. unfold suggest_step. destruct (g x); [| done].
  by apply dict_set_NoDup.
Qed.

End Suggestions.

Lemma first_key_in_Some il table subs :
  Working.first_key_in il table = Some subs ->
  ∃ key full, (key, full) ∈ table ∧ Str.contains key il = true
              ∧ subs = take 2 full.
Proof.
  induction table as [| [key full] table IH]; simpl; [done |].
  destruct (Str.contains key il) eqn:E.
  - intros [= <-]. exists key, full. split; [left | done].
  - intros H. destruct (IH H) as (key' & full' & Hin & Hc & ->).
    exists key', full'. split; [by right | done].
Qed.

Lemma lookup_substitutes_elem_of il table subs :
  Engine.lookup_substitutes il table = subs -> subs ≠ [] ->
  ∃ key, (key, subs) ∈ table ∧ Engine.key_matches key il = true.
Proof.
  induction table as [| [key full] table IH]; simpl; [congruence |].
  destruct (Engine.key_matches key il) eqn:E.
  - intros <- _. exists key. split; [left | done].
  - intros H Hne. destruct (IH H Hne) as (key' & Hin & Hc).
    exists key'. split; [by right | done].
Qed.

Lemma get_substitutions_fold missing :
  Working._get_substitutions missing
  = foldl (suggest_step (fun x =>
             Working.first_key_in (Str.lower x) Working.substitutions))
          [] (take 3 missing).
Proof. reflexivity. Qed.

Lemma suggestions_for_fold missing :
  Engine.suggestions_for missing
  = foldl (suggest_step (fun x =>
             match Engine.get_ingredient_substitutions x with
             | [] => None
             | subs => Some (take 2 subs)
             end))
          [] (take 3 missing).
Proof.
  unfold Engine.suggestions_for. generalize (take 3 missing).
  generalize (@nil (string * list string)).
  intros acc l. revert acc. induction l as [| x l IH]; intros acc; [done |].
  simpl. rewrite IH. f_equal. unfold suggest_step.
  by destruct (Engine.get_ingredient_substitutions x).
Qed.

Lemma get_substitutions_entries (missing : list string) k subs :
  (k, subs) ∈ Working._get_substitutions missing ->
  k ∈ take 3 missing ∧ (length subs <= 2)%nat ∧
  ∃ key full, (key, full) ∈ Working.substitutions ∧
              Str.contains key (Str.lower k) = true ∧
              subs = take 2 full.
Proof.
  rewrite get_substitutions_fold.
  intros H. apply suggest_elem_of in H as [H | [H1 H2]];
    [by apply elem_of_nil in H |].
  cbn [fst snd] in H1, H2. split; [done |].
  apply first_key_in_Some in H2 as (key & full & Hin & Hc & ->).
  split; [rewrite length_take; lia |]. by exists key, full.
Qed.

(** X6.  [_get_substitutions] suggests for at most three ingredients, all
    among the first three it is given and each once, and each suggestion
    is the first two substitutes of a table entry whose key occurs in the
    lower-cased ingredient name. *)
Theorem X6_get_substitutions_bounds (missing : list string) :
  (length (Working._get_substitutions missing) <= 3)%nat ∧
  NoDup (fst <$> Working._get_substitutions missing) ∧
  (∀ k subs,
     (k, subs) ∈ Working._get_substitutions missing ->
     k ∈ take 3 missing ∧ (length subs <= 2)%nat ∧
     ∃ key full, (key, full) ∈ Working.substitutions ∧
                 Str.contains key (Str.lower k) = true ∧
                 subs = take 2 full).
Proof.
  split; [| split].
  - rewrite get_substitutions_fold.
    etrans; [apply suggest_length |]. simpl. rewrite length_take. lia.
  - rewrite get_substitutions_fold. apply suggest_NoDup. constructor.
  - apply get_substitutions_entries.
Qed.

Lemma elements_empty_inv (X : gset string) : elements X = [] -> X = ∅.
Proof.
  intros H. apply set_eq. intros x. rewrite <- elem_of_elements, H.
  split; [by intros ?%elem_of_nil | by intros ?%not_elem_of_empty].
Qed.

(** X7.  The derived fields of every entry [SimpleRecipeRecommender]
    returns: [missing_ingredients] lists, each once, exactly the
    ingredients of the recipe that the query does not have, so none of them
    is in the query; every key of [substitution_suggestions] is one of
    them; when nothing is missing [ingredient_match_percentage] is 100; and
    when the recipe's ingredients are exactly the query's, [match_score] is
    100 too. *)
Theorem X7_derived_fields recipes ingredients dr mct df cp limit s :
  s ∈ Working.get_recommendations recipes ingredients dr mct df cp limit ->
  ∃ R : gset string,
    Working.recipe_ingredient_set (recipe s) = Ok R ∧
    NoDup (missing_ingredients s) ∧
    (∀ x, x ∈ missing_ingredients s
          ↔ x ∈ R ∧ x ∉ Working.query_set ingredients) ∧
    (∀ k subs, (k, subs) ∈ substitution_suggestions s ->
               k ∈ missing_ingredients s) ∧
    (missing_ingredients s = [] ->
     ingredient_match_percentage s = 1000 # 10) ∧
    (R = Working.query_set ingredients -> match_score s = 1000 # 10).
Proof.
  intros Hs. apply get_recommendations_elem_of in Hs as (Hne & r & Hr & Hp).
  apply process_recipe_Some in Hp
    as (_ & _ & _ & _ & R & HR & HRn & Hqn & Hm & ->); simpl.
  exists R. split; [done |]. split; [apply NoDup_elements |].
  split; [| split; [| split]].
  - intros x. rewrite elem_of_elements. apply elem_of_difference.
  - intros k subs H.
    destruct (get_substitutions_entries _ k subs H) as (Hin & _).
    eapply subseteq_take, subseteq_take, Hin.
  - intros Hmiss. apply elements_empty_inv in Hmiss.
    assert (HRQ : R ∩ Working.query_set ingredients = R).
    { apply set_eq. intros x. rewrite elem_of_intersection.
      split; [by intros [? _] |]. intros Hx. split; [done |].
      destruct (decide (x ∈ Working.query_set ingredients)) as [| Hn]; [done |].
      exfalso. apply (not_elem_of_empty (C := gset string) x).
      rewrite <- Hmiss. by apply elem_of_difference. }
    rewrite HRQ, (quot_same _ HRn). vm_compute. reflexivity.
  - intros ->.
    rewrite intersection_idemp_L, (quot_same _ Hqn). vm_compute. reflexivity.
Qed.

(** X7 on the first entry of a ranking of two recipes. *)
Lemma X7_derived_fields_witness :
  ∃ s (R : gset string),
    s ∈ Working.get_recommendations [Sample.fried_rice; Sample.tofu_bowl]
          ["rice"; "tofu"] None None None None 10 ∧
    Working.recipe_ingredient_set (recipe s) = Ok R ∧
    NoDup (missing_ingredients s) ∧
    (missing_ingredients s = [] ->
     ingredient_match_percentage s = 1000 # 10).
Proof.
  assert (E : ∃ s l, Working.get_recommendations
                       [Sample.fried_rice; Sample.tofu_bowl]
                       ["rice"; "tofu"] None None None None 10 = s :: l).
  { eexists _, _. vm_compute. reflexivity. }
  destruct E as (s & l & E).
  assert (Hin : s ∈ Working.get_recommendations
                      [Sample.fried_rice; Sample.tofu_bowl]
                      ["rice"; "tofu"] None None None None 10).
  { rewrite E. left. }
  destruct (X7_derived_fields _ _ _ _ _ _ _ s Hin)
    as (R & HR & Hnd & _ & _ & H100 & _).
  exists s, R. split; [exact Hin |]. split; [exact HR |].
  split; [exact Hnd | exact H100].
Defined.

(** ** The derived fields in [RecipeRecommendationEngine] *)

Lemma suggestions_for_entries (missing : list string) k subs :
  (k, subs) ∈ Engine.suggestions_for missing ->
  k ∈ take 3 missing ∧ (1 <= length subs <= 2)%nat ∧
  ∃ key full, (key, full) ∈ Engine.ingredient_substitutions ∧
              Engine.key_matches key (Str.lower k) = true ∧
              subs = take 2 full.
Proof.
  rewrite suggestions_for_fold.
  intros H. apply suggest_elem_of in H as [H | [H1 H2]];
    [by apply elem_of_nil in H |].
  cbn [fst snd] in H1, H2. split; [done |].
  destruct (Engine.get_ingredient_substitutions k) as [| a full] eqn:E;
    [done |].
  injection H2 as <-.
  apply lookup_substitutes_elem_of in E as (key & Hin & Hm); [| done].
  split; [| by exists key, (a :: full)].
  change (1 <= length (take 2 (a :: full)) <= 2)%nat.
  rewrite length_take, length_cons. lia.
Qed.

(** X8.  The derived fields of every entry [RecipeRecommendationEngine]
    returns: [missing_ingredients] lists, each once, exactly the lower-cased
    ingredients of the recipe that are not among the lower-cased query
    ingredients; [substitution_suggestions] has at most three keys, each of
    them a missing ingredient with one or two substitutes, taken from the
    front of a table entry whose key matches the name in one direction or
    the other. *)
Theorem X8_engine_derived_fields {V : Vectorizer} (self : Engine.engine)
    ingredients dr mct df cp limit res s :
  Engine.get_recommendations self ingredients dr mct df cp limit = Ok res ->
  s ∈ res ->
  ∃ R : gset string,
    Engine.recipe_ingredient_set (recipe s) = Ok R ∧
    NoDup (missing_ingredients s) ∧
    (∀ x, x ∈ missing_ingredients s
          ↔ x ∈ R ∧ x ∉ Engine.query_set ingredients) ∧
    (length (substitution_suggestions s) <= 3)%nat ∧
    (∀ k subs, (k, subs) ∈ substitution_suggestions s ->
       k ∈ missing_ingredients s ∧ (1 <= length subs <= 2)%nat ∧
       ∃ key full, (key, full) ∈ Engine.ingredient_substitutions ∧
                   Engine.key_matches key (Str.lower k) = true ∧
                   subs = take 2 full).
Proof.
  intros H Hs. unfold Engine.get_recommendations in H.
  destruct (Engine.recipes self) as [| r0 rs];
    [injection H as <-; by apply elem_of_nil in Hs |].
  destruct (Engine.recipe_vectors self) as [m |];
    [| injection H as <-; by apply elem_of_nil in Hs].
  destruct (matrix_bool m) as [[] |]; simpl in H;
    [| injection H as <-; by apply elem_of_nil in Hs | done].
  destruct (similarities m _) as [sims |]; simpl in H; [| done].
  match type of H with
  | context [mbind _ ?c] => destruct c as [candidates |]
  end; simpl in H; [| done].
  destruct (Engine.score_all _ _ _ _ _ _ _) as [recs |] eqn:Hloop;
    simpl in H; [| done].
  injection H as <-. apply rank_subseteq in Hs.
  destruct (engine_score_all_elem_of _ _ _ _ _ _ _ _ _ Hloop Hs)
    as (r & _ & Hp).
  apply engine_process_Some in Hp as (_ & _ & _ & R & ml & HR & _ & ->).
  simpl. exists R. split; [done |]. split; [apply NoDup_elements |].
  split; [| split].
  - intros x. rewrite elem_of_elements. apply elem_of_difference.
  - rewrite suggestions_for_fold.
    etrans; [apply suggest_length |]. simpl. rewrite length_take. lia.
  - intros k subs Hk.
    destruct (suggestions_for_entries _ k subs Hk) as (Hin & Hlen & Hkey).
    split; [eapply subseteq_take, Hin | done].
Qed.

(** X8 on the engine of one recipe. *)
Lemma X8_engine_derived_fields_witness :
  ∃ s (R : gset string),
    Engine.recipe_ingredient_set (recipe s) = Ok R ∧
    NoDup (missing_ingredients s) ∧
    (length (substitution_suggestions s) <= 3)%nat.
Proof.
  assert (E : ∃ s l, Engine.get_recommendations
                       (Sample.engine_of [1%Q] [Sample.plain_rice])
                       ["rice"] None None None None 10 = Ok (s :: l)).
  { eexists _, _. vm_compute. reflexivity. }
  destruct E as (s & l & E).
  assert (Hin : s ∈ s :: l). { left. }
  destruct (X8_engine_derived_fields _ _ _ _ _ _ _ _ s E Hin)
    as (R & HR & Hnd & _ & Hlen & _).
  exists s, R. split; [exact HR |]. split; [exact Hnd | exact Hlen].
Defined.

(** ** [filter_by_dietary_restrictions] *)

Section EngineDiet.

Import Engine.

Lemma any_app {A} (f : A -> result bool) (l1 l2 : list A) :
  any f (l1 ++ l2) = (b ← any f l1; if b : bool then Ok true else any f l2).
Proof.
  induction l1 as [| x l1 IH]; simpl; [done |].
  destruct (f x) as [[] |]; simpl; [done | exact IH | done].
Qed.

Lemma mentions_meat_animal recipe :
  mentions meat_ingredients recipe = Ok true ->
  mentions animal_ingredients recipe = Ok true.
Proof.
  intros H. unfold mentions in *.
  change animal_ingredients
    with (meat_ingredients ++ ["cheese"; "milk"; "butter"; "eggs"])%list.
  by rewrite any_app, H.
Qed.

(** what the vegetarian restriction rejects the vegan one
    never accepts *)
Lemma violates_vegetarian_vegan recipe di b :
  violates recipe di "vegetarian" = Ok true ->
  violates recipe di "vegan" = Ok b -> b = true.
Proof.
  change (violates recipe di "vegetarian")
    with (mentions meat_ingredients recipe).
  change (violates recipe di "vegan")
    with (tagged ← any (fun item => str_in item di)
                       ["contains_dairy"; "contains_eggs"];
          if tagged : bool then Ok true
          else mentions animal_ingredients recipe).
  intros Hm. rewrite (mentions_meat_animal recipe Hm).
  destruct (any (fun item => str_in item di) _) as [[] |];
    rewrite ?bind_Ok; [congruence | congruence | done].
Qed.

Lemma violates_any_one recipe restriction :
  violates_any recipe [restriction]
  = (di ← Py.get recipe "dietary_info" (VList []);
     violates recipe di restriction).
Proof.
  unfold violates_any. destruct (Py.get recipe _ _) as [di |]; simpl; [| done].
  by destruct (violates recipe di restriction) as [[] |].
Qed.

Lemma filter_loop_kept recipes rs kept :
  filter_loop recipes rs = Ok kept ->
  ∀ r, r ∈ kept -> violates_any r rs = Ok false.
Proof.
  revert kept. induction recipes as [| r0 recipes IH]; simpl; intros kept H.
  - injection H as <-. by intros r ?%elem_of_nil.
  - destruct (violates_any r0 rs) as [b |] eqn:E; simpl in H; [| done].
    destruct (filter_loop recipes rs) as [kept' |]; simpl in H; [| done].
    injection H as <-. intros r Hr. destruct b.
    + by apply (IH kept').
    + apply elem_of_cons in Hr as [-> | Hr]; [done | by apply (IH kept')].
Qed.

Lemma filter_loop_fixed kept rs :
  (∀ r, r ∈ kept -> violates_any r rs = Ok false) ->
  filter_loop kept rs = Ok kept.
Proof.
  induction kept as [| r kept IH]; intros H; simpl; [done |].
  rewrite (H r) by left. simpl. rewrite IH; [done |].
  intros r' Hr'. apply H. by right.
Qed.

End EngineDiet.

(** X9.  Filtering twice changes nothing: what
    [filter_by_dietary_restrictions] returns is a subsequence of the
    recipes, in their order, it violates none of the restrictions, and
    filtering it again by the same restrictions returns it as it is. *)
Theorem X9_filter_idempotent recipes (rs : list string) kept :
  Engine.filter_by_dietary_restrictions recipes rs = Ok kept ->
  kept `sublist_of` recipes ∧
  (rs ≠ [] -> ∀ r, r ∈ kept -> Engine.violates_any r rs = Ok false) ∧
  Engine.filter_by_dietary_restrictions kept rs = Ok kept.
Proof.
  intros H. split; [by eapply filter_by_dietary_restrictions_sublist |].
  destruct rs as [| x l]; [by split |].
  simpl in H. split.
  - intros _. by eapply filter_loop_kept.
  - simpl. apply filter_loop_fixed. by eapply filter_loop_kept.
Qed.

(** X9 on the tagged recipe and a recipe without tags. *)
Lemma X9_filter_idempotent_witness :
  Engine.filter_by_dietary_restrictions [Sample.pasta; Sample.plain_rice]
    ["gluten_free"] = Ok [Sample.plain_rice] ∧
  Engine.filter_by_dietary_restrictions [Sample.plain_rice] ["gluten_free"]
    = Ok [Sample.plain_rice].
Proof.
  assert (H : Engine.filter_by_dietary_restrictions
                [Sample.pasta; Sample.plain_rice] ["gluten_free"]
              = Ok [Sample.plain_rice]).
  { vm_compute. reflexivity. }
  split; [exact H |].
  exact (proj2 (proj2 (X9_filter_idempotent _ _ _ H))).
Defined.

(** X10.  The vegan restriction is at least as strict as the vegetarian
    one: when both filters return, every recipe that the filter [vegan]
    keeps is kept by the filter [vegetarian], in the same order. *)
Theorem X10_vegan_within_vegetarian recipes kept_vegan kept_vegetarian :
  Engine.filter_by_dietary_restrictions recipes ["vegan"] = Ok kept_vegan ->
  Engine.filter_by_dietary_restrictions recipes ["vegetarian"]
    = Ok kept_vegetarian ->
  kept_vegan `sublist_of` kept_vegetarian.
Proof.
  simpl. revert kept_vegan kept_vegetarian.
  induction recipes as [| r recipes IH]; simpl; intros a b Ha Hb.
  - injection Ha as <-. apply sublist_nil_l.
  - destruct (Engine.violates_any r ["vegan"]) as [bv |] eqn:Ev;
      simpl in Ha; [| done].
    destruct (Engine.violates_any r ["vegetarian"]) as [bg |] eqn:Eg;
      simpl in Hb; [| done].
    destruct (Engine.filter_loop recipes ["vegan"]) as [a' |];
      simpl in Ha; [| done].
    destruct (Engine.filter_loop recipes ["vegetarian"]) as [b' |];
      simpl in Hb; [| done].
    injection Ha as <-. injection Hb as <-.
    specialize (IH a' b' eq_refl eq_refl).
    rewrite violates_any_one in Ev, Eg.
    destruct (Py.get r "dietary_info" (VList [])) as [di |]; [| done].
    rewrite bind_Ok in Ev, Eg.
    destruct bg.
    + rewrite (violates_vegetarian_vegan r di bv Eg Ev). exact IH.
    + destruct bv; [by apply sublist_cons | by apply sublist_skip].
Qed.

(** X10 on a corpus with a cheese dish and a chicken dish. *)
Lemma X10_vegan_within_vegetarian_witness :
  Engine.filter_by_dietary_restrictions
    [Sample.chicken_rice; Sample.pasta;
     VDict [("id", VInt 8); ("ingredients", VList [VStr "Cheese"])]]
    ["vegan"] = Ok [Sample.pasta] ∧
  [Sample.pasta] `sublist_of`
    [Sample.pasta;
     VDict [("id", VInt 8); ("ingredients", VList [VStr "Cheese"])]].
Proof.
  assert (Ha : Engine.filter_by_dietary_restrictions
                 [Sample.chicken_rice; Sample.pasta;
                  VDict [("id", VInt 8);
                         ("ingredients", VList [VStr "Cheese"])]]
                 ["vegan"] = Ok [Sample.pasta]).
  { vm_compute. reflexivity. }
  assert (Hb : Engine.filter_by_dietary_restrictions
                 [Sample.chicken_rice; Sample.pasta;
                  VDict [("id", VInt 8);
                         ("ingredients", VList [VStr "Cheese"])]]
                 ["vegetarian"]
               = Ok [Sample.pasta;
                     VDict [("id", VInt 8);
                            ("ingredients", VList [VStr "Cheese"])]]).
  { vm_compute. reflexivity. }
  split; [exact Ha |].
  exact (X10_vegan_within_vegetarian _ _ _ Ha Hb).
Defined.

(** X11.  Restriction names are compared as they stand: when none of the
    requested names is literally [vegetarian], [vegan], [gluten_free] or
    [dairy_free] (a capital letter or a hyphen is enough), the filter
    returns every recipe, provided the records are dicts. *)
Theorem X11_unknown_names_keep_all recipes (rs : list string) :
  (∀ r, r ∈ rs -> engine_restriction r = false) ->
  (∀ r, r ∈ recipes -> is_dict r = true) ->
  Engine.filter_by_dietary_restrictions recipes rs = Ok recipes.
Proof.
  intros Hrs Hd. destruct rs as [| x l]; [done |]. simpl.
  apply filter_loop_fixed. intros r Hr.
  specialize (Hd r Hr). destruct r; try discriminate. clear Hd.
  unfold Engine.violates_any. simpl Py.get. rewrite bind_Ok.
  generalize (x :: l) Hrs. clear. intros rs Hrs.
  induction rs as [| r rs IH]; [done |]. simpl.
  assert (Hr : engine_restriction r = false) by (apply Hrs; left).
  unfold engine_restriction in Hr.
  apply orb_false_iff in Hr as [Hr H4]. apply orb_false_iff in Hr as [Hr H3].
  apply orb_false_iff in Hr as [H1 H2].
  unfold Engine.violates. rewrite H1, H2, H3, H4. simpl.
  apply IH. intros r' Hr'. apply Hrs. by right.
Qed.

(** X11 on the restrictions [Vegetarian] and [gluten-free]. *)
Lemma X11_unknown_names_keep_all_witness :
  Engine.filter_by_dietary_restrictions [Sample.chicken_rice; Sample.pasta]
    ["Vegetarian"; "gluten-free"]
  = Ok [Sample.chicken_rice; Sample.pasta].
Proof.
  apply X11_unknown_names_keep_all.
  - intros r Hr.
    apply elem_of_cons in Hr as [-> | Hr]; [reflexivity |].
    apply elem_of_cons in Hr as [-> | Hr]; [reflexivity |].
    apply elem_of_nil in Hr. destruct Hr.
  - intros r Hr.
    apply elem_of_cons in Hr as [-> | Hr]; [reflexivity |].
    apply elem_of_cons in Hr as [-> | Hr]; [reflexivity |].
    apply elem_of_nil in Hr. destruct Hr.
Defined.

(** ** The scoring loop of [RecipeRecommendationEngine] *)

Section EngineLoop.

Import Engine.

Lemma getitem_int_id r n : int_id r = Some n -> Py.getitem r "id" = Ok (VInt n).
Proof.
  destruct r as [| | | | | d]; try done. simpl.
  destruct (Py.assoc "id" d) as [[] |]; try done. by intros [= ->].
Qed.

(** [original_index] finds the first record with the id looked for. *)
Lemma original_index_first recipes r n (k i : nat) r0 :
  (∀ r', r' ∈ recipes -> is_Some (int_id r')) ->
  int_id r = Some n ->
  recipes !! i = Some r0 -> int_id r0 = Some n ->
  ∃ j r1, (j <= i)%nat ∧
    original_index recipes r k = Ok (Some (k + j)%nat) ∧
    recipes !! j = Some r1 ∧ int_id r1 = Some n ∧
    (∀ j' r', (j' < j)%nat -> recipes !! j' = Some r' -> int_id r' ≠ Some n).
Proof.
  intros Hall Hr. revert k i.
  induction recipes as [| r' recipes IH]; intros k i Hi Hr0; [done |].
  destruct (Hall r') as [n' Hn']; [left |].
  simpl. rewrite (getitem_int_id _ _ Hn'), (getitem_int_id _ _ Hr). simpl.
  destruct (Z.eqb_spec n' n) as [-> | NE].
  - exists 0%nat, r'. split; [lia |]. rewrite Nat.add_0_r.
    repeat split; try done. intros j' r'' Hj'. lia.
  - destruct i as [| i]; [simpl in Hi; congruence |]. simpl in Hi.
    destruct (IH (fun x Hx => Hall x (list_elem_of_further _ _ _ Hx))
                 (S k) i Hi Hr0) as (j & r1 & Hle & Hoi & Hj & Hid & Hmin).
    exists (S j), r1. split; [lia |].
    split; [by rewrite Hoi, Nat.add_succ_r |].
    split; [done |]. split; [done |].
    intros [| j'] r'' Hlt Hj'; simpl in Hj'.
    + injection Hj' as <-. congruence.
    + apply (Hmin j' r''); [lia | done].
Qed.

Lemma NoDup_fmap_lookup_inj {A B} (f : A -> B) (l : list A) i j a b :
  NoDup (f <$> l) -> l !! i = Some a -> l !! j = Some b -> f a = f b -> i = j.
Proof.
  intros Hnd Hi Hj Hf.
  eapply (NoDup_lookup (f <$> l) i j (f a)); [done | |].
  - by rewrite list_lookup_fmap, Hi.
  - by rewrite list_lookup_fmap, Hj, Hf.
Qed.

End EngineLoop.

(** X12.  When every record has an integer [id], the position at which the
    similarity of a recipe is read is the position of the first record of
    the corpus with the same id: it never lies after the recipe's own
    position, and it is the recipe's own position when ids are not
    repeated. *)
Theorem X12_original_index recipes r (i : nat) :
  (∀ r', r' ∈ recipes -> is_Some (int_id r')) ->
  recipes !! i = Some r ->
  ∃ j r1, (j <= i)%nat ∧
    Engine.original_index recipes r 0 = Ok (Some j) ∧
    recipes !! j = Some r1 ∧ int_id r1 = int_id r ∧
    (∀ j' r', (j' < j)%nat -> recipes !! j' = Some r' ->
              int_id r' ≠ int_id r) ∧
    (NoDup (int_id <$> recipes) -> j = i).
Proof.
  intros Hall Hi.
  destruct (Hall r) as [n Hn]; [by eapply list_elem_of_lookup_2 |].
  destruct (original_index_first recipes r n 0 i r Hall Hn Hi Hn)
    as (j & r1 & Hle & Hoi & Hj & Hid & Hmin).
  exists j, r1. rewrite Hn. repeat split; try done.
  intros Hnd. eapply (NoDup_fmap_lookup_inj int_id recipes j i r1 r); try done.
  congruence.
Qed.

(** X12 on a corpus where the third record repeats the id of the first. *)
Lemma X12_original_index_witness :
  ∃ j,
    Engine.original_index
      [Sample.plain_rice; Sample.fried_rice;
       VDict [("id", VInt 1); ("name", VStr "Risotto")]]
      (VDict [("id", VInt 1); ("name", VStr "Risotto")]) 0 = Ok (Some j)
    ∧ (j <= 2)%nat.
Proof.
  assert (Hall : ∀ r', r' ∈ [Sample.plain_rice; Sample.fried_rice;
                           VDict [("id", VInt 1); ("name", VStr "Risotto")]]
                       -> is_Some (int_id r')).
  { intros r' Hr'.
    apply elem_of_cons in Hr' as [-> | Hr']; [by eexists |].
    apply elem_of_cons in Hr' as [-> | Hr']; [by eexists |].
    apply elem_of_cons in Hr' as [-> | Hr']; [by eexists |].
    apply elem_of_nil in Hr'. destruct Hr'. }
  destruct (X12_original_index _ _ 2 Hall eq_refl)
    as (j & r1 & Hle & Hoi & _).
  exists j. split; [exact Hoi | exact Hle].
Defined.

(** ** The truth value of the matrix *)

Section Truth.

Lemma mapM_Ok_length {A B} (f : A -> result B) (l : list A) (k : list B) :
  mapM f l = Ok k -> length k = length l.
Proof.
  revert k. induction l as [| x l IH]; intros k; simpl.
  - by intros [= <-].
  - destruct (f x) as [y |]; simpl; [| done].
    destruct (mapM f l) as [k' |]; simpl; [| done].
    intros [= <-]. simpl. by rewrite (IH k' eq_refl).
Qed.

(** The engine [__init__] builds on a corpus that is not empty. *)
Lemma new_inv {V : Vectorizer} (recipes : list value) (self : Engine.engine) :
  recipes ≠ [] -> Engine.new recipes = Ok self ->
  Engine.recipes self = recipes ∧
  ∃ texts m, length texts = length recipes ∧
             fit_transform texts = Ok m ∧
             Engine.recipe_vectors self = Some m.
Proof.
  intros Hne. unfold Engine.new. destruct recipes as [| r rs]; [done |].
  destruct (mapM Engine.recipe_text (r :: rs)) as [texts |] eqn:Ht;
    [| done].
  rewrite bind_Ok.
  destruct (fit_transform texts) as [m |] eqn:Hm; [| done].
  rewrite bind_Ok. intros [= <-]. split; [done |].
  exists texts, m. split; [by apply mapM_Ok_length in Ht | done].
Qed.

(** the sparse matrix of the stand-in *)
#[global] Instance stub_sparse (sims : list Q)
    : SparseMatrix (stub_vectorizer sims).
Proof.
  refine {| shape := fun rows : @matrix (stub_vectorizer sims) =>
                       (rows, 1%nat) |}.
  - intros texts m [= <-]. reflexivity.
  - intros m Hm. simpl.
    destruct (Nat.eqb_spec m 1) as [-> | NE]; [by destruct Hm | done].
Defined.

End Truth.

(** X13.  [RecipeRecommendationEngine.get_recommendations] does not return
    for an engine built on two or more recipes: its first test,
    [not self.recipe_vectors], asks a sparse matrix of more than one
    element for its truth value, which raises [ValueError], and nothing in
    the method catches it.  This holds for every query, filter and limit.
    (Taken from scipy: the matrix has one row for each recipe, and only a
    matrix of one row and one column has a truth value.) *)
Theorem X13_two_recipes_raise {V : Vectorizer} {S : SparseMatrix V}
    (recipes : list value) (self : Engine.engine)
    ingredients dr mct df cp limit :
  (2 <= length recipes)%nat ->
  Engine.new recipes = Ok self ->
  Engine.get_recommendations self ingredients dr mct df cp limit
  = Raise ValueError.
Proof.
  intros Hlen Hnew.
  assert (Hne : recipes ≠ []) by (intros ->; simpl in Hlen; lia).
  destruct (new_inv recipes self Hne Hnew)
    as (Hr & texts & m & Ht & Hfit & Hm).
  unfold Engine.get_recommendations. rewrite Hr, Hm.
  destruct recipes as [| r rs]; [done |].
  rewrite (matrix_bool_ambiguous m); [done |].
  apply fit_transform_rows in Hfit. intros E. rewrite E in Hfit.
  simpl in Hfit. lia.
Qed.

(** X13 on an engine of two recipes. *)
Lemma X13_two_recipes_raise_witness :
  Engine.new (V := stub_vectorizer [0%Q; 0%Q])
    [Sample.plain_rice; Sample.tofu_bowl]
  = Ok (Sample.engine_of [0%Q; 0%Q] [Sample.plain_rice; Sample.tofu_bowl]) ∧
  Engine.get_recommendations
    (Sample.engine_of [0%Q; 0%Q] [Sample.plain_rice; Sample.tofu_bowl])
    ["rice"] None None None None 10 = Raise ValueError.
Proof.
  assert (Hnew : Engine.new (V := stub_vectorizer [0%Q; 0%Q])
                   [Sample.plain_rice; Sample.tofu_bowl]
                 = Ok (Sample.engine_of [0%Q; 0%Q]
                         [Sample.plain_rice; Sample.tofu_bowl])).
  { vm_compute. reflexivity. }
  split; [exact Hnew |].
  apply (X13_two_recipes_raise (V := stub_vectorizer [0%Q; 0%Q])
           [Sample.plain_rice; Sample.tofu_bowl] _
           ["rice"] None None None None 10); [| exact Hnew].
  simpl. lia.
Defined.

(** ** Loading the corpus of [SimpleRecipeRecommender] *)

#[local] Set Warnings "-clear-no-such-hyp".

Section Loading.

Import Store WorkingApp.

Lemma add_names_mapM acc items :
  match mapM Py.lower_strip items with
  | Ok names => add_names acc items = (list_to_set names ∪ acc, Ok tt)
  | Raise e => ∃ acc', add_names acc items = (acc', Raise e) ∧ acc ⊆ acc'
  end.
Proof.
  revert acc. induction items as [| i items IH]; intros acc; simpl.
  - f_equal. apply leibniz_equiv. set_solver.
  - destruct (Py.lower_strip i) as [name | e]; simpl.
    + specialize (IH ({[name]} ∪ acc)).
      destruct (mapM Py.lower_strip items) as [names | e]; simpl.
      * rewrite IH. f_equal. apply leibniz_equiv. set_solver.
      * destruct IH as (acc' & -> & Hsub). exists acc'. split; [done |].
        set_solver.
    + by exists acc.
Qed.

(** One step of the outer loop, by what the scoring loop would compute for
    the same record. *)
Lemma add_recipes_cons acc r rest :
  add_recipes acc (r :: rest) =
  match Working.recipe_ingredient_set r with
  | Ok R => add_recipes (R ∪ acc) rest
  | Raise e => ((add_recipes acc (r :: rest)).1, Raise e)
  end
  ∧ acc ⊆ (add_recipes acc [r]).1.
Proof.
  unfold Working.recipe_ingredient_set. simpl.
  destruct (Py.get r "ingredients" (VList [])) as [v | e]; simpl; [| done].
  destruct (Py.iter v) as [items | e]; simpl; [| done].
  pose proof (add_names_mapM acc items) as H.
  destruct (mapM Py.lower_strip items) as [names | e]; simpl.
  - rewrite H. split; [done |]. set_solver.
  - destruct H as (acc' & -> & Hsub). done.
Qed.

Lemma add_recipes_mono acc rs : acc ⊆ (add_recipes acc rs).1.
Proof.
  revert acc. induction rs as [| r rs IH]; intros acc; [done |].
  destruct (add_recipes_cons acc r rs) as [E Hsub]. rewrite E.
  destruct (Working.recipe_ingredient_set r) as [R | e] eqn:ER.
  - specialize (IH (R ∪ acc)). set_solver.
  - simpl. clear E. revert Hsub. simpl.
    destruct (v ← Py.get r "ingredients" (VList []); Py.iter v)
      as [items | e']; [| done].
    destruct (add_names acc items) as [acc' [[] | e'']]; [| done].
    simpl. intros Hsub. specialize (IH acc'). set_solver.
Qed.

(** A load that went through read every record as the scoring loop does. *)
Lemma add_recipes_Ok acc rs names :
  add_recipes acc rs = (names, Ok tt) ->
  (∀ r, r ∈ rs ->
        ∃ R, Working.recipe_ingredient_set r = Ok R ∧ R ⊆ names) ∧
  (∀ x, x ∈ names ->
        x ∈ acc ∨
        ∃ r R, r ∈ rs ∧ Working.recipe_ingredient_set r = Ok R ∧ x ∈ R).
Proof.
  revert acc. induction rs as [| r rs IH]; intros acc H.
  - injection H as <-. split; [| by left].
    intros r Hr. by apply elem_of_nil in Hr.
  - destruct (add_recipes_cons acc r rs) as [E _]. rewrite E in H. clear E.
    destruct (Working.recipe_ingredient_set r) as [R | e] eqn:ER;
      [| discriminate].
    destruct (IH _ H) as [Hall Hfrom].
    pose proof (add_recipes_mono (R ∪ acc) rs) as Hmono.
    rewrite H in Hmono. simpl in Hmono.
    split.
    + intros r' Hr'. apply elem_of_cons in Hr' as [-> | Hr'].
      * exists R. split; [done |]. set_solver.
      * by apply Hall.
    + intros x Hx. destruct (Hfrom x Hx) as [Hin | (r' & R' & ? & ? & ?)].
      * apply elem_of_union in Hin as [Hin | Hin]; [| by left].
        right. exists r, R. split; [left | done].
      * right. exists r', R'. split; [by right | done].
Qed.

(** A record that the scoring loop could not read stops the load. *)
Lemma add_recipes_Raise acc pre r post e :
  (∀ r', r' ∈ pre -> ∃ R, Working.recipe_ingredient_set r' = Ok R) ->
  Working.recipe_ingredient_set r = Raise e ->
  ∃ names, add_recipes acc (pre ++ r :: post) = (names, Raise e) ∧
    acc ⊆ names ∧
    ∀ r' R', r' ∈ pre -> Working.recipe_ingredient_set r' = Ok R' ->
             R' ⊆ names.
Proof.
  intros Hpre Hr. revert acc.
  induction pre as [| p pre IH]; intros acc.
  - destruct (add_recipes_cons acc r post) as [E _]. rewrite Hr in E.
    exists (add_recipes acc (r :: post)).1. split; [exact E |].
    split; [apply add_recipes_mono |].
    intros r' R' Hr'. by apply elem_of_nil in Hr'.
  - destruct (Hpre p) as [R HR]; [left |].
    destruct (add_recipes_cons acc p (pre ++ r :: post)) as [E _].
    rewrite HR in E.
    destruct (IH (fun x Hx => Hpre x (list_elem_of_further _ _ _ Hx))
                 (R ∪ acc)) as (names & Hn & Hsub & Hall).
    exists names. split; [by rewrite <- app_comm_cons, E |].
    split; [set_solver |].
    intros r' R' Hr' HR'. apply elem_of_cons in Hr' as [-> | Hr'].
    + rewrite HR in HR'. injection HR' as <-. set_solver.
    + by eapply Hall.
Qed.

Lemma load_recipes_inv f r :
  r ∈ recipes (load_recipes f) ->
  ∃ data names, f = Json data ∧
    add_recipes ∅ (recipes (load_recipes f)) = (names, Ok tt) ∧
    all_ingredients (load_recipes f) = names.
Proof.
  unfold load_recipes. destruct f as [| | data];
    try (intros Hr; by apply elem_of_nil in Hr).
  destruct (v ← Py.get data "recipes" (VList []); Py.iter v) as [rs | e];
    [| intros Hr; by apply elem_of_nil in Hr].
  destruct (add_recipes ∅ rs) as [names [[] | e]] eqn:E;
    [| intros Hr; by apply elem_of_nil in Hr].
  simpl. intros _. by exists data, names.
Qed.

End Loading.

(** X14.  [load_recipes] reads the ingredient names of every record the way
    the scoring loop does: for each recipe of a loaded corpus the set of
    lower-cased, trimmed ingredient names is computed without an exception
    and lies within [all_ingredients], and [all_ingredients] holds nothing
    but such names. *)
Theorem X14_loaded_corpus (f : Store.file) (r : value) :
  r ∈ WorkingApp.recipes (WorkingApp.load_recipes f) ->
  (∃ R, Working.recipe_ingredient_set r = Ok R ∧
        R ⊆ WorkingApp.all_ingredients (WorkingApp.load_recipes f)) ∧
  (∀ x, x ∈ WorkingApp.all_ingredients (WorkingApp.load_recipes f) ->
        ∃ r' R', r' ∈ WorkingApp.recipes (WorkingApp.load_recipes f) ∧
                 Working.recipe_ingredient_set r' = Ok R' ∧ x ∈ R').
Proof.
  intros Hr.
  destruct (load_recipes_inv f r Hr) as (data & names & _ & Hadd & ->).
  destruct (add_recipes_Ok _ _ _ Hadd) as [Hall Hfrom].
  split; [by apply Hall |].
  intros x Hx. destruct (Hfrom x Hx) as [Hin | H]; [| done].
  by apply elem_of_empty in Hin.
Qed.

(** X14 on a file of two recipes. *)
Lemma X14_loaded_corpus_witness :
  ∃ R, Working.recipe_ingredient_set Sample.fried_rice = Ok R ∧
       R ⊆ WorkingApp.all_ingredients
             (WorkingApp.load_recipes
                (Store.Json
                   (VDict [("recipes",
                            VList [Sample.plain_rice; Sample.fried_rice])]))).
Proof.
  assert (Hin : Sample.fried_rice ∈
                WorkingApp.recipes
                  (WorkingApp.load_recipes
                     (Store.Json
                        (VDict [("recipes",
                                 VList [Sample.plain_rice;
                                        Sample.fried_rice])])))).
  { apply list_elem_of_further. apply list_elem_of_here. }
  exact (proj1 (X14_loaded_corpus _ _ Hin)).
Defined.

(** X15.  The ingredients a result of [SimpleRecipeRecommender] reports as
    missing are ingredients the loader has collected: on the corpus of
    [load_recipes], every name in [missing_ingredients] is in
    [all_ingredients], and is not one of the query. *)
Theorem X15_missing_are_known (f : Store.file) ingredients dr mct df cp limit
    (s : scored) (x : string) :
  s ∈ Working.get_recommendations
        (WorkingApp.recipes (WorkingApp.load_recipes f))
        ingredients dr mct df cp limit ->
  x ∈ missing_ingredients s ->
  x ∈ WorkingApp.all_ingredients (WorkingApp.load_recipes f) ∧
  x ∉ Working.query_set ingredients.
Proof.
  intros Hs Hx.
  apply get_recommendations_elem_of in Hs as (_ & r & Hr & Hp).
  apply process_recipe_Some in Hp
    as (_ & _ & _ & _ & R & HR & _ & _ & _ & ->).
  simpl in Hx. apply elem_of_elements, elem_of_difference in Hx as [HxR HxQ].
  split; [| done].
  destruct (load_recipes_inv f r Hr) as (data & names & _ & Hadd & ->).
  destruct (add_recipes_Ok _ _ _ Hadd) as [Hall _].
  destruct (Hall r Hr) as (R' & HR' & Hsub).
  rewrite HR in HR'. injection HR' as <-. by apply Hsub.
Qed.

(** X15 on a file of two recipes and the query [rice]. *)
Lemma X15_missing_are_known_witness :
  ∃ s x,
    s ∈ Working.get_recommendations
          (WorkingApp.recipes
             (WorkingApp.load_recipes
                (Store.Json
                   (VDict [("recipes",
                            VList [Sample.fried_rice; Sample.tofu_bowl])]))))
          ["rice"] None None None None 10 ∧
    x ∈ missing_ingredients s ∧
    x ∈ WorkingApp.all_ingredients
          (WorkingApp.load_recipes
             (Store.Json
                (VDict [("recipes",
                         VList [Sample.fried_rice; Sample.tofu_bowl])]))).
Proof.
  assert (E : ∃ s l x m,
             Working.get_recommendations
               (WorkingApp.recipes
                  (WorkingApp.load_recipes
                     (Store.Json
                        (VDict [("recipes",
                                 VList [Sample.fried_rice;
                                        Sample.tofu_bowl])]))))
               ["rice"] None None None None 10 = s :: l ∧
             missing_ingredients s = x :: m).
  { eexists _, _, _, _.
    split; [vm_compute; reflexivity | vm_compute; reflexivity]. }
  destruct E as (s & l & x & m & E & Em).
  assert (Hin : s ∈ Working.get_recommendations
                      (WorkingApp.recipes
                         (WorkingApp.load_recipes
                            (Store.Json
                               (VDict [("recipes",
                                        VList [Sample.fried_rice;
                                               Sample.tofu_bowl])]))))
                      ["rice"] None None None None 10).
  { rewrite E. left. }
  assert (Hx : x ∈ missing_ingredients s).
  { rewrite Em. left. }
  exists s, x. split; [exact Hin |]. split; [exact Hx |].
  exact (proj1 (X15_missing_are_known _ _ _ _ _ _ _ s x Hin Hx)).
Defined.

(** X16.  The loader is stricter than the scoring loop.  One record whose
    ingredient names cannot be read (a record that is no dict, an
    ingredient that is no string) leaves [SimpleRecipeRecommender] without
    any recipe, so every query is answered with the empty list; the names
    collected from the records before it stay in [all_ingredients]. *)
Theorem X16_one_bad_record_empties_the_corpus
    (data : value) (pre post : list value) (r : value) (e : exn) :
  (v ← Py.get data "recipes" (VList []); Py.iter v)
    = Ok (pre ++ r :: post)%list ->
  (∀ r', r' ∈ pre -> ∃ R, Working.recipe_ingredient_set r' = Ok R) ->
  Working.recipe_ingredient_set r = Raise e ->
  WorkingApp.recipes (WorkingApp.load_recipes (Store.Json data)) = [] ∧
  (∀ ingredients dr mct df cp limit,
     Working.get_recommendations
       (WorkingApp.recipes (WorkingApp.load_recipes (Store.Json data)))
       ingredients dr mct df cp limit = []) ∧
  (∀ r' R', r' ∈ pre -> Working.recipe_ingredient_set r' = Ok R' ->
     R' ⊆ WorkingApp.all_ingredients
            (WorkingApp.load_recipes (Store.Json data))).
Proof.
  intros Hdata Hpre Hr.
  destruct (add_recipes_Raise ∅ pre r post e Hpre Hr)
    as (names & Hadd & _ & Hall).
  assert (E : WorkingApp.load_recipes (Store.Json data) =
              {| WorkingApp.recipes := [];
                 WorkingApp.all_ingredients := names |}).
  { unfold WorkingApp.load_recipes. by rewrite Hdata, Hadd. }
  rewrite E. simpl. split; [done |]. split; [| exact Hall].
  intros ingredients dr mct df cp limit.
  unfold Working.get_recommendations.
  destruct ingredients; [done |]. simpl. apply rank_nil.
Qed.

(** X16 on a file whose second record lists a number as an ingredient. *)
Lemma X16_one_bad_record_empties_the_corpus_witness :
  WorkingApp.recipes
    (WorkingApp.load_recipes
       (Store.Json
          (VDict [("recipes",
                   VList [Sample.plain_rice;
                          VDict [("id", VInt 9);
                                 ("ingredients", VList [VInt 3])];
                          Sample.tofu_bowl])]))) = [] ∧
  "rice" ∈ WorkingApp.all_ingredients
    (WorkingApp.load_recipes
       (Store.Json
          (VDict [("recipes",
                   VList [Sample.plain_rice;
                          VDict [("id", VInt 9);
                                 ("ingredients", VList [VInt 3])];
                          Sample.tofu_bowl])]))).
Proof.
  assert (Hpre : ∀ r', r' ∈ [Sample.plain_rice] ->
                       ∃ R, Working.recipe_ingredient_set r' = Ok R).
  { intros r' Hr'. apply elem_of_cons in Hr' as [-> | Hr'].
    - eexists. reflexivity.
    - apply elem_of_nil in Hr'. destruct Hr'. }
  destruct (X16_one_bad_record_empties_the_corpus
              (VDict [("recipes",
                       VList [Sample.plain_rice;
                              VDict [("id", VInt 9);
                                     ("ingredients", VList [VInt 3])];
                              Sample.tofu_bowl])])
              [Sample.plain_rice] [Sample.tofu_bowl]
              (VDict [("id", VInt 9); ("ingredients", VList [VInt 3])])
              AttributeError eq_refl Hpre eq_refl) as (Hnil & _ & Hall).
  split; [exact Hnil |].
  apply (Hall Sample.plain_rice {["rice"]}).
  - apply list_elem_of_here.
  - vm_compute. reflexivity.
  - apply elem_of_singleton_2. reflexivity.
Defined.

(** ** The extension test of the upload routes *)

Section Extensions.

Import WorkingApp.

Lemma contains_dot_cons c s :
  Str.contains "." (String c s) = (Ascii.eqb "." c || Str.contains "." s)%bool.
Proof.
  rewrite contains_unfold.
  assert (E : String.prefix "." (String c s) = Ascii.eqb "." c).
  { change (String.prefix "." (String c s))
      with (match Ascii.ascii_dec "." c with
            | left _ => String.prefix "" s
            | right _ => false
            end).
    destruct (Ascii.ascii_dec "." c) as [<- | NE].
    - destruct s; reflexivity.
    - symmetry. by apply Ascii.eqb_neq. }
  rewrite E. by destruct (Ascii.eqb "." c).
Qed.

Lemma rsplit_dot_None s :
  rsplit_dot s = None ↔ Str.contains "." s = false.
Proof.
  induction s as [| c s IH]; [done |].
  rewrite contains_dot_cons. cbn [rsplit_dot].
  destruct (rsplit_dot s) as [[a b] |].
  - split; [done |]. intros H. apply orb_false_iff in H as [_ H].
    by apply IH in H.
  - rewrite (proj1 IH eq_refl), orb_false_r, (Ascii.eqb_sym c ".").
    by destruct (Ascii.eqb "." c).
Qed.

Lemma rsplit_dot_Some s a b :
  rsplit_dot s = Some (a, b) ->
  s = a +:+ String "." b ∧ Str.contains "." b = false.
Proof.
  revert a. induction s as [| c s IH]; intros a; [done |].
  cbn [rsplit_dot].
  destruct (rsplit_dot s) as [[a' b'] |] eqn:E.
  - intros [= <- <-]. destruct (IH a' eq_refl) as [-> Hb]. done.
  - destruct (Ascii.eqb_spec c ".") as [-> | NE]; [| done].
    intros [= <- <-]. split; [done |]. by apply rsplit_dot_None.
Qed.

Lemma rsplit_dot_intro a b :
  Str.contains "." b = false ->
  rsplit_dot (a +:+ String "." b) = Some (a, b).
Proof.
  intros Hb. induction a as [| c a IH].
  - change ("" +:+ String "." b) with (String "." b). cbn [rsplit_dot].
    by rewrite (proj2 (rsplit_dot_None b) Hb).
  - change (String c a +:+ String "." b)
      with (String c (a +:+ String "." b)).
    cbn [rsplit_dot]. by rewrite IH.
Qed.

End Extensions.

(** X17.  [allowed_file] never raises: the test for a dot guards the index
    into the result of [rsplit].  It accepts a file name exactly when the
    name ends in a dot followed by a dot-free extension that is, lower-cased,
    one of [ALLOWED_EXTENSIONS]; what stands before that last dot plays no
    role.  The upload route of src/app.py applies the same test inline. *)
Theorem X17_allowed_file (filename : string) :
  ∃ b, WorkingApp.allowed_file filename = Ok b ∧
       (b = true ↔
        ∃ stem ext, filename = stem +:+ String "." ext ∧
                    Str.contains "." ext = false ∧
                    Str.lower ext ∈ WorkingApp.ALLOWED_EXTENSIONS).
Proof.
  unfold WorkingApp.allowed_file.
  destruct (Str.contains "." filename) eqn:Hdot.
  - destruct (WorkingApp.rsplit_dot filename) as [[stem ext] |] eqn:E.
    + eexists. split; [done |].
      destruct (rsplit_dot_Some _ _ _ E) as [-> Hext].
      rewrite bool_decide_eq_true. split.
      * intros Hin. by exists stem, ext.
      * intros (stem' & ext' & Heq & Hext' & Hin).
        rewrite Heq, (rsplit_dot_intro stem' ext' Hext') in E.
        by injection E as -> ->.
    + apply rsplit_dot_None in E. congruence.
  - exists false. split; [done |]. split; [done |].
    intros (stem & ext & -> & Hext & _).
    apply rsplit_dot_None in Hdot.
    rewrite (rsplit_dot_intro stem ext Hext) in Hdot. done.
Qed.

(** ** Dicts under assignment and deletion *)

Section StoreFacts.

Import Store.

Lemma assoc_put_eq k v d : Py.assoc k (put k v d) = Some v.
Proof.
  induction d as [| [k' v'] d IH]; simpl.
  - by rewrite String.eqb_refl.
  - destruct (String.eqb k k') eqn:E; simpl.
    + by rewrite String.eqb_refl.
    + by rewrite E.
Qed.

Lemma assoc_put_ne k k' v d :
  k ≠ k' -> Py.assoc k' (put k v d) = Py.assoc k' d.
Proof.
  intros NE. induction d as [| [k0 v0] d IH]; simpl.
  - destruct (String.eqb_spec k' k); [congruence | done].
  - destruct (String.eqb_spec k k0) as [<- | NE0]; simpl.
    + destruct (String.eqb_spec k' k); [congruence | done].
    + by rewrite IH.
Qed.

Lemma assoc_remove_eq k d : Py.assoc k (remove k d) = None.
Proof.
  unfold remove. induction d as [| [k0 v0] d IH]; simpl; [done |].
  destruct (String.eqb_spec k k0) as [<- | NE]; simpl; [done |].
  destruct (String.eqb_spec k k0); [done | exact IH].
Qed.

Lemma assoc_remove_ne k k' d :
  k ≠ k' -> Py.assoc k' (remove k d) = Py.assoc k' d.
Proof.
  intros NE. unfold remove. induction d as [| [k0 v0] d IH]; simpl; [done |].
  destruct (String.eqb_spec k k0) as [<- | NE0]; simpl.
  - destruct (String.eqb_spec k' k); [congruence | exact IH].
  - by rewrite IH.
Qed.

Lemma keys_from_has_key k seen d :
  existsb (String.eqb k) (Py.keys_from seen d)
  = (has_key k d && negb (existsb (String.eqb k) seen))%bool.
Proof.
  unfold has_key. revert seen.
  induction d as [| [k0 v0] d IH]; intros seen; simpl; [done |].
  destruct (existsb (String.eqb k0) seen) eqn:Hseen.
  - rewrite IH. destruct (String.eqb_spec k k0) as [-> | NE]; [| done].
    rewrite Hseen. simpl. by rewrite andb_false_r.
  - simpl. rewrite IH. simpl.
    destruct (String.eqb_spec k k0) as [-> | NE]; simpl.
    + by rewrite Hseen.
    + done.
Qed.

Lemma contains_key k d : contains (VStr k) (VDict d) = Ok (has_key k d).
Proof.
  unfold contains, Py.keys. rewrite keys_from_has_key. simpl.
  by rewrite andb_true_r.
Qed.

Lemma str_of_id_inj (a b : N) : str_of_id a = str_of_id b -> a = b.
Proof. unfold str_of_id. apply pretty_N_inj. Qed.

Lemma working_invalid_rating_int (n : Z) :
  WorkingApp.invalid_rating (Plain (VInt n))
  = Ok (negb ((1 <=? n) && (n <=? 5)))%bool.
Proof.
  unfold WorkingApp.invalid_rating. simpl.
  destruct (Z.eqb_spec n 0) as [-> | NE]; simpl; [done |].
  by destruct (1 <=? n).
Qed.

End StoreFacts.

(** X18.  The route [rate_recipe] of src/app_working.py, for an integer
    rating.  Outside 1..5 it answers 400 and leaves the ratings file as it
    is.  Within 1..5, when the file reads as a dict (an absent or unreadable
    file reads as the empty one) and the write goes through, the new file
    gives the rating under [str(recipe_id)] and what it gave before under
    the id of any other recipe; when the write fails the answer is 500. *)
Theorem X18_rate_recipe (ratings_file : Store.file) (w : Store.write_outcome)
    (recipe_id : N) (d d0 : list (string * value)) (n : Z) :
  Py.assoc "rating" d = Some (VInt n) ->
  WorkingApp.load_user_data ratings_file = VDict d0 ->
  (¬ (1 <= n <= 5) ->
   WorkingApp.rate_recipe ratings_file w recipe_id (VDict d)
   = (ratings_file, Failure 400 "Invalid rating")) ∧
  (1 <= n <= 5 ->
   match w with
   | Store.Written =>
       ∃ d' body,
         WorkingApp.rate_recipe ratings_file w recipe_id (VDict d)
         = (Store.Json (VDict d'), Success body) ∧
         Py.assoc (Store.str_of_id recipe_id) d' = Some (VInt n) ∧
         ∀ other : N, other ≠ recipe_id ->
           Py.assoc (Store.str_of_id other) d'
           = Py.assoc (Store.str_of_id other) d0
   | Store.WriteFailed after =>
       WorkingApp.rate_recipe ratings_file w recipe_id (VDict d)
       = (after, Failure 500 "Failed to save rating")
   end).
Proof.
  intros Hd Hfile. unfold WorkingApp.rate_recipe, Py.get.
  rewrite Hd, bind_Ok, working_invalid_rating_int, bind_Ok, Hfile.
  split.
  - intros Hn.
    assert (E : ((1 <=? n) && (n <=? 5))%bool = false).
    { apply andb_false_iff.
      destruct (Z.leb_spec 1 n); [| by left].
      destruct (Z.leb_spec n 5); [lia | by right]. }
    by rewrite E.
  - intros [H1 H5].
    apply Z.leb_le in H1, H5. rewrite H1, H5. simpl.
    destruct w as [| after]; simpl; [| done].
    eexists _, _. split; [done |]. split.
    + apply assoc_put_eq.
    + intros other NE. apply assoc_put_ne.
      intros E. by apply str_of_id_inj in E.
Qed.

(** X18 for a rating of 4 on recipe 7, when recipe 3 has a rating. *)
Lemma X18_rate_recipe_witness :
  ∃ d' body,
    WorkingApp.rate_recipe (Store.Json (VDict [("3", VInt 5)])) Store.Written
      7 (VDict [("rating", VInt 4)])
    = (Store.Json (VDict d'), Success body) ∧
    Py.assoc "7" d' = Some (VInt 4) ∧ Py.assoc "3" d' = Some (VInt 5).
Proof.
  destruct (X18_rate_recipe (Store.Json (VDict [("3", VInt 5)]))
              Store.Written 7 [("rating", VInt 4)] [("3", VInt 5)] 4
              eq_refl eq_refl) as [_ H].
  destruct (H (conj (proj1 (Z.leb_le 1 4) eq_refl)
                    (proj1 (Z.leb_le 4 5) eq_refl)))
    as (d' & body & E & Hnew & Hold).
  exists d', body. split; [exact E |]. split; [exact Hnew |].
  apply (Hold 3%N). discriminate.
Defined.

Section WorkingFavorites.

Import Store.

Lemma has_key_put_eq k v d : has_key k (put k v d) = true.
Proof. unfold has_key. by rewrite assoc_put_eq. Qed.

Lemma has_key_remove_eq k d : has_key k (remove k d) = false.
Proof. unfold has_key. by rewrite assoc_remove_eq. Qed.

(** The route on a favorites file that reads as a dict, when the write
    goes through. *)
Lemma working_toggle_favorite_dict favorites_file recipe_id d0 :
  WorkingApp.load_user_data favorites_file = VDict d0 ->
  WorkingApp.toggle_favorite favorites_file Written recipe_id
  = (Json (VDict (if has_key (str_of_id recipe_id) d0
                  then remove (str_of_id recipe_id) d0
                  else put (str_of_id recipe_id) (VBool true) d0)),
     Success [("success", VBool true);
              ("is_favorite", VBool (negb (has_key (str_of_id recipe_id) d0)));
              ("message",
               VStr (if has_key (str_of_id recipe_id) d0
                     then "Removed from favorites"
                     else "Added to favorites"))]).
Proof.
  intros Hfile. unfold WorkingApp.toggle_favorite. cbv zeta.
  rewrite Hfile, contains_key, bind_Ok.
  destruct (has_key (str_of_id recipe_id) d0) eqn:Hk; [| done].
  unfold delitem. unfold has_key in Hk.
  by destruct (Py.assoc (str_of_id recipe_id) d0).
Qed.

End WorkingFavorites.

(** X19.  The route [toggle_favorite] of src/app_working.py flips one key
    and nothing else.  On a favorites file that reads as a dict, when the
    writes go through, [str(recipe_id)] is a key of the new file exactly
    when it was none of the old one, the answer reports that new state, and
    every other key keeps its value; a second call brings back the keys the
    file had at first. *)
Theorem X19_toggle_favorite (favorites_file : Store.file) (recipe_id : N)
    (d0 : list (string * value)) :
  WorkingApp.load_user_data favorites_file = VDict d0 ->
  ∃ d1 message,
    WorkingApp.toggle_favorite favorites_file Store.Written recipe_id
    = (Store.Json (VDict d1),
       Success [("success", VBool true);
                ("is_favorite", VBool (has_key (Store.str_of_id recipe_id) d1));
                ("message", VStr message)]) ∧
    has_key (Store.str_of_id recipe_id) d1
    = negb (has_key (Store.str_of_id recipe_id) d0) ∧
    (∀ k, k ≠ Store.str_of_id recipe_id -> Py.assoc k d1 = Py.assoc k d0) ∧
    ∃ d2 body,
      WorkingApp.toggle_favorite (Store.Json (VDict d1)) Store.Written
        recipe_id = (Store.Json (VDict d2), Success body) ∧
      ∀ k, has_key k d2 = has_key k d0.
Proof.
  intros Hfile.
  rewrite (working_toggle_favorite_dict _ _ _ Hfile).
  set (key := Store.str_of_id recipe_id).
  destruct (has_key key d0) eqn:Hk.
  - exists (Store.remove key d0), "Removed from favorites".
    rewrite has_key_remove_eq.
    split; [reflexivity |]. split; [reflexivity |].
    split; [intros k NE; apply assoc_remove_ne; congruence |].
    rewrite (working_toggle_favorite_dict
               (Store.Json (VDict (Store.remove key d0))) recipe_id
               (Store.remove key d0) eq_refl).
    fold key. rewrite has_key_remove_eq.
    eexists _, _. split; [reflexivity |].
    intros k. destruct (String.eqb_spec key k) as [<- | NE].
    + by rewrite has_key_put_eq.
    + unfold has_key. by rewrite assoc_put_ne, assoc_remove_ne.
  - exists (Store.put key (VBool true) d0), "Added to favorites".
    rewrite has_key_put_eq.
    split; [reflexivity |]. split; [reflexivity |].
    split; [intros k NE; apply assoc_put_ne; congruence |].
    rewrite (working_toggle_favorite_dict
               (Store.Json (VDict (Store.put key (VBool true) d0))) recipe_id
               (Store.put key (VBool true) d0) eq_refl).
    fold key. rewrite has_key_put_eq.
    eexists _, _. split; [reflexivity |].
    intros k. destruct (String.eqb_spec key k) as [<- | NE].
    + by rewrite has_key_remove_eq.
    + unfold has_key. by rewrite assoc_remove_ne, assoc_put_ne.
Qed.

(** X19 on a file that is absent. *)
Lemma X19_toggle_favorite_witness :
  ∃ d1 message,
    WorkingApp.toggle_favorite Store.Missing Store.Written 7
    = (Store.Json (VDict d1),
       Success [("success", VBool true);
                ("is_favorite", VBool (has_key (Store.str_of_id 7) d1));
                ("message", VStr message)]) ∧
    has_key (Store.str_of_id 7) d1 = true.
Proof.
  destruct (X19_toggle_favorite Store.Missing 7 [] eq_refl)
    as (d1 & message & E & Hk & _).
  exists d1, message. split; [exact E | exact Hk].
Defined.

(** X20.  The two rating routes reject the same ratings but one.  One
    writes [not (1 <= rating <= 5)] and the other
    [rating < 1 or rating > 5]: on null, a boolean, an integer, a string, a
    list, an object and every float but NaN both tests give the same answer
    or raise the same exception.  NaN is rejected by src/app_working.py and
    passes in src/app.py, since every comparison with it is false.  A
    rating passes the test of src/app_working.py exactly when it is an
    integer or a float from 1 to 5, or [true]. *)
Theorem X20_rating_tests_agree (rating : Store.rating) :
  (rating ≠ Store.Float Store.NaN ->
   WorkingApp.invalid_rating rating = EngineApp.invalid_rating rating) ∧
  WorkingApp.invalid_rating (Store.Float Store.NaN) = Ok true ∧
  EngineApp.invalid_rating (Store.Float Store.NaN) = Ok false ∧
  (WorkingApp.invalid_rating rating = Ok false ↔
   (∃ n, rating = Store.Plain (VInt n) ∧ 1 <= n <= 5) ∨
   rating = Store.Plain (VBool true) ∨
   (∃ q, rating = Store.Float (Store.Finite q) ∧ (1 <= q <= 5)%Q)).
Proof.
  split; [| split; [done | split; [done |]]].
  - intros Hnan.
    unfold WorkingApp.invalid_rating, EngineApp.invalid_rating.
    destruct rating as [v | x].
    + destruct v as [| b | n | s | l | d]; simpl.
      * done.
      * by destruct b.
      * destruct (Z.eqb_spec n 0) as [-> | NE]; simpl; [done |].
        destruct (Z.leb_spec 1 n), (Z.ltb_spec n 1); try lia; simpl; [| done].
        destruct (Z.leb_spec n 5), (Z.ltb_spec 5 n); try lia; done.
      * by destruct s.
      * by destruct l.
      * by destruct d.
    + destruct x as [| negative | q]; simpl.
      * done.
      * by destruct negative.
      * change (inject_Z 1) with 1%Q. change (inject_Z 5) with 5%Q.
        f_equal. destruct (Qeq_bool q 0); simpl; [done |].
        by destruct (Qle_bool 1 q), (Qle_bool q 5).
  - unfold WorkingApp.invalid_rating.
    destruct rating as [[| [] | n | s | l | d] | [| [] | q]]; simpl.
    + split; [done | intros [(n & ? & _) | [? | (q & ? & _)]]; done].
    + split; [intros _; right; by left | done].
    + split; [done | intros [(n & ? & _) | [? | (q & ? & _)]]; done].
    + destruct (Z.eqb_spec n 0) as [-> | NE]; simpl.
      * split; [done |].
        intros [(n & [= <-] & ?) | [? | (q & ? & _)]]; [lia | done | done].
      * destruct (Z.leb_spec 1 n); simpl.
        -- destruct (Z.leb_spec n 5); simpl.
           ++ split; [intros _; left; eauto | done].
           ++ split; [done |].
              intros [(m & [= <-] & ?) | [? | (q & ? & _)]];
                [lia | done | done].
        -- split; [done |].
           intros [(m & [= <-] & ?) | [? | (q & ? & _)]]; [lia | done | done].
    + destruct s; simpl;
        (split; [done | intros [(n & ? & _) | [? | (q & ? & _)]]; done]).
    + destruct l; simpl;
        (split; [done | intros [(n & ? & _) | [? | (q & ? & _)]]; done]).
    + destruct d; simpl;
        (split; [done | intros [(n & ? & _) | [? | (q & ? & _)]]; done]).
    + split; [done | intros [(n & ? & _) | [? | (q & ? & _)]]; done].
    + split; [done | intros [(n & ? & _) | [? | (q & ? & _)]]; done].
    + split; [done | intros [(n & ? & _) | [? | (q & ? & _)]]; done].
    + change (inject_Z 1) with 1%Q. change (inject_Z 5) with 5%Q.
      destruct (Qle_bool 1 q) eqn:E1, (Qle_bool q 5) eqn:E5; simpl.
      * apply Qle_bool_iff in E1, E5.
        assert (E0 : Qeq_bool q 0 = false).
        { apply not_true_is_false. intros H. apply Qeq_bool_iff in H. lra. }
        rewrite E0. simpl.
        split; [intros _; right; right; by exists q | done].
      * rewrite orb_true_r. split; [done |].
        intros [(n & ? & _) | [? | (q' & [= <-] & _ & H)]]; try done.
        apply Qle_bool_iff in H. congruence.
      * rewrite orb_true_r. split; [done |].
        intros [(n & ? & _) | [? | (q' & [= <-] & H & _)]]; try done.
        apply Qle_bool_iff in H. congruence.
      * rewrite orb_true_r. split; [done |].
        intros [(n & ? & _) | [? | (q' & [= <-] & H & _)]]; try done.
        apply Qle_bool_iff in H. congruence.
Qed.

(** ** [UserFeedbackSystem] *)

Section Feedback.

Import Store.

Lemma add_rating_dict w now user_id recipe_id rating d m :
  ratings_of d user_id = Some m ->
  EngineApp.add_rating (Json (VDict d)) w now user_id recipe_id rating
  = match w with
    | Written =>
        (Json (VDict
                 (put user_id
                    (VDict (put (str_of_id recipe_id)
                              (VDict [("rating", rating);
                                      ("timestamp", VStr now)]) m))
                    (if has_key user_id d then d
                     else put user_id (VDict []) d))), true)
    | WriteFailed after => (after, false)
    end.
Proof.
  unfold ratings_of, EngineApp.add_rating. intros Hm.
  rewrite contains_key, bind_Ok. unfold has_key.
  destruct (Py.assoc user_id d) as [[| | | | | m'] |] eqn:E;
    try discriminate; injection Hm as Hm; subst m.
  - cbv beta iota. rewrite bind_Ok. unfold Py.getitem.
    rewrite E. reflexivity.
  - cbv beta iota.
    change (setitem (VDict d) user_id (VDict []))
      with (Ok (VDict (put user_id (VDict []) d))).
    rewrite bind_Ok. unfold Py.getitem. rewrite assoc_put_eq. reflexivity.
Qed.

Lemma add_rating_true_inv ratings_file w now user_id recipe_id rating f' :
  EngineApp.add_rating ratings_file w now user_id recipe_id rating
  = (f', true) ->
  w = Written ∧
  ∃ d m, ratings_file = Json (VDict d) ∧ ratings_of d user_id = Some m.
Proof.
  destruct ratings_file as [| | [| b | n | s | l | d]]; try discriminate.
  - unfold EngineApp.add_rating. simpl.
    by destruct (Str.contains user_id s).
  - unfold EngineApp.add_rating. simpl.
    by destruct (existsb _ l).
  - destruct (ratings_of d user_id) as [m |] eqn:Hm.
    + rewrite (add_rating_dict _ _ _ _ _ _ _ Hm).
      destruct w; [| discriminate]. intros _. split; [done |].
      by exists d, m.
    + unfold EngineApp.add_rating. rewrite contains_key, bind_Ok.
      unfold ratings_of in Hm. unfold has_key, Py.getitem.
      by destruct (Py.assoc user_id d) as [[] |] eqn:E; rewrite ?bind_Ok, ?E.
Qed.

Lemma add_rating_false_inv ratings_file w now user_id recipe_id rating f' :
  EngineApp.add_rating ratings_file w now user_id recipe_id rating
  = (f', false) ->
  f' = ratings_file ∨ ∃ after, w = WriteFailed after ∧ f' = after.
Proof.
  unfold EngineApp.add_rating.
  destruct ratings_file as [| | ratings]; try (intros [= <-]; by left).
  match goal with
  | |- context [match ?m with Ok _ => _ | Raise _ => _ end] => destruct m
  end; [| intros [= <-]; by left].
  destruct w as [| after]; [discriminate |].
  intros [= <-]. right. by exists after.
Qed.

End Feedback.

(** X21.  [UserFeedbackSystem.add_rating] returns [True] only after it has
    written: the ratings file then held a dict in which the user had no
    entry or a dict of ratings, and the new file gives, for this user, the
    rating with its timestamp under [str(recipe_id)] and the user's other
    ratings as before, and for every other user what the old file gave.
    When it returns [False] the file is as it was, unless the write itself
    failed.  On such a file, when the write goes through, it returns
    [True]. *)
Theorem X21_add_rating (ratings_file : Store.file) (w : Store.write_outcome)
    (now user_id : string) (recipe_id : N) (rating : value) :
  match EngineApp.add_rating ratings_file w now user_id recipe_id rating with
  | (f', true) =>
      w = Store.Written ∧
      ∃ d m d' m',
        ratings_file = Store.Json (VDict d) ∧
        ratings_of d user_id = Some m ∧
        f' = Store.Json (VDict d') ∧
        Py.assoc user_id d' = Some (VDict m') ∧
        Py.assoc (Store.str_of_id recipe_id) m'
        = Some (VDict [("rating", rating); ("timestamp", VStr now)]) ∧
        (∀ k, k ≠ Store.str_of_id recipe_id ->
              Py.assoc k m' = Py.assoc k m) ∧
        (∀ u, u ≠ user_id -> Py.assoc u d' = Py.assoc u d)
  | (f', false) =>
      (f' = ratings_file ∨
       ∃ after, w = Store.WriteFailed after ∧ f' = after) ∧
      ∀ d m, ratings_file = Store.Json (VDict d) ->
             ratings_of d user_id = Some m -> w ≠ Store.Written
  end.
Proof.
  destruct (EngineApp.add_rating _ _ _ _ _ _) as [f' []] eqn:E.
  - destruct (add_rating_true_inv _ _ _ _ _ _ _ E)
      as (-> & d & m & -> & Hm).
    split; [done |].
    rewrite (add_rating_dict _ _ _ _ _ _ _ Hm) in E. injection E as <-.
    eexists d, m, _, _. split; [done |]. split; [done |].
    split; [done |]. split; [apply assoc_put_eq |].
    split; [apply assoc_put_eq |].
    split; [intros k NE; apply assoc_put_ne; congruence |].
    intros u NE. rewrite assoc_put_ne by congruence.
    destruct (has_key user_id d); [done |].
    apply assoc_put_ne. congruence.
  - split; [by eapply add_rating_false_inv |].
    intros d m -> Hm ->.
    by rewrite (add_rating_dict _ _ _ _ _ _ _ Hm) in E.
Qed.

Section Favorites.

Import Store.

Lemma contains_int (ids : list Z) (n : Z) :
  contains (VInt n) (VList (VInt <$> ids)) = Ok (bool_decide (n ∈ ids)).
Proof.
  unfold contains. f_equal.
  induction ids as [| a ids IH]; [done |].
  rewrite fmap_cons. cbn [existsb Py.eq]. rewrite IH.
  destruct (Z.eqb_spec a n) as [-> | NE]; simpl.
  - symmetry. apply bool_decide_eq_true. left.
  - apply bool_decide_ext. rewrite elem_of_cons. naive_solver.
Qed.

Lemma list_remove_int (ids : list Z) (n : Z) :
  n ∈ ids ->
  ∃ ids', list_remove (VInt n) (VInt <$> ids) = Ok (VInt <$> ids') ∧
    (NoDup ids -> NoDup ids' ∧ ∀ j, j ∈ ids' ↔ j ≠ n ∧ j ∈ ids).
Proof.
  induction ids as [| a ids IH]; intros Hin; [by apply elem_of_nil in Hin |].
  rewrite fmap_cons. cbn [list_remove Py.eq].
  destruct (Z.eqb_spec a n) as [-> | NE].
  - exists ids. split; [done |]. intros Hnd.
    apply NoDup_cons in Hnd as [Hn Hnd]. split; [done |].
    intros j. rewrite elem_of_cons. naive_solver.
  - apply elem_of_cons in Hin as [-> | Hin]; [done |].
    destruct (IH Hin) as (ids' & E & Hnd').
    exists (a :: ids'). rewrite E. split; [done |]. intros Hnd.
    apply NoDup_cons in Hnd as [Ha Hnd].
    destruct (Hnd' Hnd) as [Hnd'' Hmem]. split.
    + apply NoDup_cons. split; [| done]. rewrite Hmem. naive_solver.
    + intros j. rewrite !elem_of_cons, Hmem. naive_solver.
Qed.

(** A user who is not listed yet is treated as one with no favourites. *)
Lemma engine_toggle_absent d user_id recipe_id is_favorite :
  Py.assoc user_id d = None ->
  EngineApp.toggle_favorite (Json (VDict d)) Written user_id recipe_id
    is_favorite
  = match EngineApp.toggle_favorite
            (Json (VDict (put user_id (VList []) d))) Written user_id
            recipe_id is_favorite with
    | (f, true) => (f, true)
    | (f, false) => (Json (VDict d), false)
    end.
Proof.
  intros Habs. unfold EngineApp.toggle_favorite.
  rewrite !contains_key, !bind_Ok. rewrite has_key_put_eq.
  unfold has_key at 1. rewrite Habs. cbv beta iota.
  change (setitem (VDict d) user_id (VList []))
    with (Ok (VDict (put user_id (VList []) d))).
  rewrite !bind_Ok.
  match goal with
  | |- match ?m with Ok _ => _ | Raise _ => _ end = _ => by destruct m
  end.
Qed.

Lemma engine_toggle_present d user_id (ids : list Z) recipe_id is_favorite :
  Py.assoc user_id d = Some (VList (VInt <$> ids)) ->
  NoDup ids ->
  ∃ d' ids',
    EngineApp.toggle_favorite (Json (VDict d)) Written user_id recipe_id
      is_favorite = (Json (VDict d'), true) ∧
    Py.assoc user_id d' = Some (VList (VInt <$> ids')) ∧
    NoDup ids' ∧
    (∀ j, j ∈ ids' ↔
          if Py.truthy is_favorite then j = Z.of_N recipe_id ∨ j ∈ ids
          else j ≠ Z.of_N recipe_id ∧ j ∈ ids) ∧
    (∀ u, u ≠ user_id -> Py.assoc u d' = Py.assoc u d) ∧
    ((if Py.truthy is_favorite then Z.of_N recipe_id ∈ ids
      else Z.of_N recipe_id ∉ ids) -> d' = d).
Proof.
  intros Hd Hnd. unfold EngineApp.toggle_favorite.
  rewrite contains_key, bind_Ok. unfold has_key. rewrite Hd.
  cbv beta iota. rewrite bind_Ok. unfold Py.getitem. rewrite Hd.
  cbv beta iota. rewrite bind_Ok.
  destruct (Py.truthy is_favorite) eqn:Ht.
  - rewrite contains_int, bind_Ok.
    destruct (bool_decide_reflect (Z.of_N recipe_id ∈ ids)) as [Hin | Hout].
    + exists d, ids. simpl. split; [done |]. split; [done |].
      split; [done |]. split; [| done]. intros j. naive_solver.
    + exists (put user_id
                (VList (VInt <$> (ids ++ [Z.of_N recipe_id])%list)) d),
        (ids ++ [Z.of_N recipe_id])%list.
      simpl. rewrite fmap_app. split; [done |].
      split; [by rewrite <- fmap_app, assoc_put_eq |].
      split.
      { apply NoDup_app. split; [done |]. split; [| apply NoDup_singleton].
        intros j Hj Hj'. apply list_elem_of_singleton in Hj'. by subst. }
      split.
      { intros j. rewrite elem_of_app, list_elem_of_singleton. naive_solver. }
      split; [intros u NE; apply assoc_put_ne; congruence | done].
  - rewrite bind_Ok. cbn [andb]. rewrite contains_int, bind_Ok.
    destruct (bool_decide_reflect (Z.of_N recipe_id ∈ ids)) as [Hin | Hout].
    + destruct (list_remove_int ids _ Hin) as (ids' & E & H).
      destruct (H Hnd) as [Hnd' Hmem].
      exists (put user_id (VList (VInt <$> ids')) d), ids'.
      rewrite E, bind_Ok. simpl. split; [done |].
      split; [apply assoc_put_eq |]. split; [done |]. split; [done |].
      split; [intros u NE; apply assoc_put_ne; congruence | done].
    + exists d, ids. simpl. split; [done |]. split; [done |].
      split; [done |]. split; [| done]. intros j. naive_solver.
Qed.

End Favorites.

(** X22.  [UserFeedbackSystem.toggle_favorite] sets a state rather than
    flipping it.  When the favourites of the user are a list of distinct
    recipe ids (or the user is not listed yet) and the write goes through,
    the call returns [True]; afterwards the recipe is among the user's
    favourites exactly when [is_favorite] was truthy, the other ids are kept,
    no id is listed twice, other users keep what they had, and a second call
    with the same arguments leaves the file as it is. *)
Theorem X22_favorites_are_set (d : list (string * value)) (user_id : string)
    (ids : list Z) (recipe_id : N) (is_favorite : value) :
  favorites_of d user_id = Some (VInt <$> ids) ->
  NoDup ids ->
  ∃ d' ids',
    EngineApp.toggle_favorite (Store.Json (VDict d)) Store.Written user_id
      recipe_id is_favorite = (Store.Json (VDict d'), true) ∧
    Py.assoc user_id d' = Some (VList (VInt <$> ids')) ∧
    NoDup ids' ∧
    (Z.of_N recipe_id ∈ ids' ↔ Py.truthy is_favorite = true) ∧
    (∀ j, j ≠ Z.of_N recipe_id -> j ∈ ids' ↔ j ∈ ids) ∧
    (∀ u, u ≠ user_id -> Py.assoc u d' = Py.assoc u d) ∧
    EngineApp.toggle_favorite (Store.Json (VDict d')) Store.Written user_id
      recipe_id is_favorite = (Store.Json (VDict d'), true).
Proof.
  intros Hfav Hnd.
  assert (Hpresent :
    ∃ d0, Py.assoc user_id d0 = Some (VList (VInt <$> ids)) ∧
          (∀ u, u ≠ user_id -> Py.assoc u d0 = Py.assoc u d) ∧
          ∀ f,
            EngineApp.toggle_favorite (Store.Json (VDict d0)) Store.Written
              user_id recipe_id is_favorite = (f, true) ->
            EngineApp.toggle_favorite (Store.Json (VDict d)) Store.Written
              user_id recipe_id is_favorite = (f, true)).
  { unfold favorites_of in Hfav.
    destruct (Py.assoc user_id d) as [[| | | | l |] |] eqn:E;
      try discriminate.
    - injection Hfav as ->. exists d. by rewrite E.
    - injection Hfav as Hfav. exists (Store.put user_id (VList []) d).
      destruct ids; [| discriminate].
      split; [apply assoc_put_eq |].
      split; [intros u NE; apply assoc_put_ne; congruence |].
      intros f Hf. by rewrite (engine_toggle_absent _ _ _ _ E), Hf. }
  destruct Hpresent as (d0 & Hd0 & Hothers & Hsame).
  destruct (engine_toggle_present d0 user_id ids recipe_id is_favorite
              Hd0 Hnd) as (d' & ids' & E & Hd' & Hnd' & Hmem & Hoth & _).
  exists d', ids'. split; [by apply Hsame |]. split; [done |].
  split; [done |]. split.
  { rewrite Hmem. destruct (Py.truthy is_favorite); naive_solver. }
  split.
  { intros j NE. rewrite Hmem. destruct (Py.truthy is_favorite); naive_solver. }
  split.
  { intros u NE. rewrite Hoth by done. by apply Hothers. }
  destruct (engine_toggle_present d' user_id ids' recipe_id is_favorite
              Hd' Hnd') as (d'' & ids'' & E' & _ & _ & _ & _ & Hfix).
  rewrite E'. rewrite Hfix; [done |].
  destruct (Py.truthy is_favorite); rewrite Hmem; naive_solver.
Qed.

(** X22 for a user with favourites 3 and 7 who unmarks recipe 3. *)
Lemma X22_favorites_are_set_witness :
  ∃ d' ids',
    EngineApp.toggle_favorite
      (Store.Json (VDict [("anonymous", VList [VInt 3; VInt 7])]))
      Store.Written "anonymous" 3 (VBool false)
    = (Store.Json (VDict d'), true) ∧
    Py.assoc "anonymous" d' = Some (VList (VInt <$> ids')) ∧
    NoDup ids'.
Proof.
  assert (Hnd : NoDup [3; 7]).
  { apply NoDup_cons. split.
    - intros H. apply list_elem_of_singleton in H. discriminate H.
    - apply NoDup_singleton. }
  destruct (X22_favorites_are_set [("anonymous", VList [VInt 3; VInt 7])]
              "anonymous" [3; 7] 3 (VBool false) eq_refl Hnd)
    as (d' & ids' & E & Hd' & Hnd' & _).
  exists d', ids'. split; [exact E |]. split; [exact Hd' | exact Hnd'].
Defined.

(** ** The recipe route of src/app.py *)

Section Details.

Lemma int_id_truthy r n : int_id r = Some n -> Py.truthy r = true.
Proof.
  destruct r as [| | | | | d]; try done. by destruct d.
Qed.

Lemma find_recipe_first recipes (recipe_id : N) :
  (∀ r, r ∈ recipes -> is_Some (int_id r)) ->
  match EngineApp.find_recipe recipes recipe_id with
  | Ok (Some r) =>
      ∃ i : nat, recipes !! i = Some r ∧
        int_id r = Some (Z.of_N recipe_id) ∧
        ∀ (j : nat) r', (j < i)%nat -> recipes !! j = Some r' ->
                        int_id r' ≠ Some (Z.of_N recipe_id)
  | Ok None => ∀ r, r ∈ recipes -> int_id r ≠ Some (Z.of_N recipe_id)
  | Raise _ => False
  end.
Proof.
  induction recipes as [| r rs IH]; intros Hall.
  - intros r Hr. by apply elem_of_nil in Hr.
  - destruct (Hall r) as [n Hn]; [left |].
    cbn [EngineApp.find_recipe].
    rewrite (getitem_int_id _ _ Hn), bind_Ok. cbn [Py.eq].
    destruct (Z.eqb_spec n (Z.of_N recipe_id)) as [-> | NE].
    + exists 0%nat. split; [done |]. split; [done |]. intros j r' Hj. lia.
    + specialize (IH (fun x Hx => Hall x (list_elem_of_further _ _ _ Hx))).
      destruct (EngineApp.find_recipe rs recipe_id) as [[r1 |] | e];
        [| | done].
      * destruct IH as (i & Hi & Hid & Hmin).
        exists (S i). split; [done |]. split; [done |].
        intros [| j] r' Hlt Hj; simpl in Hj.
        -- injection Hj as <-. congruence.
        -- apply (Hmin j r'); [lia | done].
      * intros r' Hr'. apply elem_of_cons in Hr' as [-> | Hr'].
        -- congruence.
        -- by apply IH.
Qed.

End Details.

(** X23.  The route [get_recipe_details] on a corpus whose records all
    have an integer [id]: it never answers 500; it answers with the first
    record of the corpus that has the id asked for, and with 404 exactly
    when no record has it. *)
Theorem X23_get_recipe_details (recipes : list value) (recipe_id : N) :
  (∀ r, r ∈ recipes -> is_Some (int_id r)) ->
  match EngineApp.get_recipe_details recipes recipe_id with
  | Success body =>
      ∃ (i : nat) r,
        body = [("success", VBool true); ("recipe", r)] ∧
        recipes !! i = Some r ∧ int_id r = Some (Z.of_N recipe_id) ∧
        ∀ (j : nat) r', (j < i)%nat -> recipes !! j = Some r' ->
                        int_id r' ≠ Some (Z.of_N recipe_id)
  | Failure status _ =>
      status = 404 ∧
      ∀ r, r ∈ recipes -> int_id r ≠ Some (Z.of_N recipe_id)
  | Crash _ => False
  end.
Proof.
  intros Hall. pose proof (find_recipe_first recipes recipe_id Hall) as H.
  unfold EngineApp.get_recipe_details.
  destruct (EngineApp.find_recipe recipes recipe_id) as [[r |] | e];
    [| done | done].
  destruct H as (i & Hi & Hid & Hmin).
  rewrite (int_id_truthy _ _ Hid). by exists i, r.
Qed.

(** X23 on a corpus of two recipes, asked for recipe 2. *)
Lemma X23_get_recipe_details_witness :
  match EngineApp.get_recipe_details
          [Sample.plain_rice; Sample.fried_rice] 2 with
  | Success body =>
      ∃ (i : nat) r,
        body = [("success", VBool true); ("recipe", r)] ∧
        [Sample.plain_rice; Sample.fried_rice] !! i = Some r
  | _ => False
  end.
Proof.
  assert (Hall : ∀ r, r ∈ [Sample.plain_rice; Sample.fried_rice] ->
                      is_Some (int_id r)).
  { intros r Hr.
    apply elem_of_cons in Hr as [-> | Hr]; [by eexists |].
    apply elem_of_cons in Hr as [-> | Hr]; [by eexists |].
    apply elem_of_nil in Hr. destruct Hr. }
  pose proof (X23_get_recipe_details
                [Sample.plain_rice; Sample.fried_rice] 2 Hall) as H.
  destruct (EngineApp.get_recipe_details
              [Sample.plain_rice; Sample.fried_rice] 2)
    as [body | status error | e] eqn:E.
  - destruct H as (i & r & Hb & Hi & _). exists i, r.
    split; [exact Hb | exact Hi].
  - vm_compute in E. discriminate E.
  - exact H.
Defined.

(** X25.  A feedback file that cannot be read.  src/app_working.py reads an
    absent or unreadable ratings file as the empty dict, so a valid rating
    replaces the file by one that holds this rating only.
    [UserFeedbackSystem] returns [False] on such a file and leaves it as it
    is; [_ensure_files] repairs the absent file, after which the first
    rating is stored, and leaves the unreadable one. *)
Theorem X25_unreadable_feedback_file (f : Store.file)
    (w : Store.write_outcome) (recipe_id : N) (d : list (string * value))
    (n : Z) (now user_id : string) (rating is_favorite : value) :
  (∀ v, f ≠ Store.Json v) ->
  Py.assoc "rating" d = Some (VInt n) ->
  1 <= n <= 5 ->
  (∃ body,
     WorkingApp.rate_recipe f Store.Written recipe_id (VDict d)
     = (Store.Json (VDict [(Store.str_of_id recipe_id, VInt n)]),
        Success body)) ∧
  EngineApp.add_rating f w now user_id recipe_id rating = (f, false) ∧
  EngineApp.toggle_favorite f w user_id recipe_id is_favorite = (f, false) ∧
  (f = Store.Missing ->
   EngineApp.add_rating (EngineApp.ensure_file f) Store.Written now user_id
     recipe_id rating
   = (Store.Json
        (VDict [(user_id,
                 VDict [(Store.str_of_id recipe_id,
                         VDict [("rating", rating);
                                ("timestamp", VStr now)])])]), true)) ∧
  (f = Store.Corrupt -> EngineApp.ensure_file f = f).
Proof.
  intros Hf Hd [H1 H5].
  assert (Hload : WorkingApp.load_user_data f = VDict []).
  { destruct f as [| | v]; [done | done | by destruct (Hf v)]. }
  split.
  { unfold WorkingApp.rate_recipe, Py.get.
    rewrite Hd, bind_Ok, working_invalid_rating_int, bind_Ok, Hload.
    apply Z.leb_le in H1, H5. rewrite H1, H5. simpl. by eexists. }
  split; [destruct f as [| | v]; [done | done | by destruct (Hf v)] |].
  split; [destruct f as [| | v]; [done | done | by destruct (Hf v)] |].
  split.
  - intros ->. cbn [EngineApp.ensure_file].
    rewrite (add_rating_dict _ _ _ _ _ [] [] eq_refl).
    unfold has_key. cbn [Py.assoc Store.put]. by rewrite String.eqb_refl.
  - by intros ->.
Qed.

(** X25 on the absent file. *)
Lemma X25_unreadable_feedback_file_witness :
  EngineApp.add_rating Store.Missing Store.Written "2025-01-01T00:00:00"
    "anonymous" 7 (VInt 4) = (Store.Missing, false) ∧
  ∃ body,
    WorkingApp.rate_recipe Store.Missing Store.Written 7
      (VDict [("rating", VInt 4)])
    = (Store.Json (VDict [(Store.str_of_id 7, VInt 4)]), Success body).
Proof.
  assert (Hf : ∀ v, Store.Missing ≠ Store.Json v).
  { intros v H. discriminate H. }
  destruct (X25_unreadable_feedback_file Store.Missing Store.Written 7
              [("rating", VInt 4)] 4 "2025-01-01T00:00:00" "anonymous"
              (VInt 4) (VBool true) Hf eq_refl
              (conj (proj1 (Z.leb_le 1 4) eq_refl)
                    (proj1 (Z.leb_le 4 5) eq_refl)))
    as (Hw & Ha & _).
  split; [exact Ha | exact Hw].
Defined.
